(** * Skycoach scraper: option extraction and hierarchical import

    A shallow embedding of the option classifier ([complete_code.py] and
    its variant in [scrapper_db.py]), the option tree writer, the
    normalizer and the snapshot engine ([complete_code.py]), the price
    parsers ([complete_code.py], [overgear_scraper_selenium.py]) and the
    transactional importer ([complete_code.py]), with the properties of
    the specification stated and settled against them; then the code
    around them: the text utilities of the three scrapers, the CSV files
    and their id counters ([complete_code.py],
    [run_scrape_and_import.py]), the link collectors and the path from an
    extracted batch to the stored rows, with the properties the code
    itself shows.

    Conventions of the embedding.
    - A Python [str] is a [string] (a byte string; the character classes
      [\s] and [\d] and the case mapping are the ASCII ones, every other
      byte is an ordinary character). [Py.int_of_str] is [int] on ASCII
      text; a statement that needs the embedding to agree with Python on
      every character of its input says so with [Py.isascii].
    - [None] is [None]; a dictionary used as a map is a [gmap].
    - A call that can raise returns a [Res]; [try]/[except] is written
      out where the source has it.
    - Reading a located DOM element (text, attribute, visibility) always
      succeeds: a page snapshot is a finite tree of records holding the
      answers of the queries the code makes.
    - Python's [float] is an interface ([PyFloatOps]); the theorems hold
      for every implementation of it, and [DecFloat] is the exact decimal
      one used to evaluate examples. *)

From Stdlib Require Import ZArith QArith List Ascii String Lia Permutation.
From stdpp Require Import gmap strings list pretty.

Local Open Scope Z_scope.

(** ** Results of calls that may raise *)

Inductive Exn : Type :=
| ValueError
| OverflowError
| KeyError (key : string)
| RuntimeError (msg : string)
| StorageError.

Inductive Res (A : Type) : Type :=
| Ok (a : A)
| Raise (e : Exn).
Arguments Ok {A} a.
Arguments Raise {A} e.

Definition bind {A B} (r : Res A) (k : A -> Res B) : Res B :=
  match r with
  | Ok a => k a
  | Raise e => Raise e
  end.

(** [try: r except: d] *)
Definition try_except {A} (r : Res A) (d : A) : A :=
  match r with
  | Ok a => a
  | Raise _ => d
  end.

(** ** Python string built-ins *)

Module Py.

Definition isspace (c : ascii) : bool :=
  let n := nat_of_ascii c in
  ((9 <=? n)%nat && (n <=? 13)%nat) || ((28 <=? n)%nat && (n <=? 32)%nat).

Definition isdigit (c : ascii) : bool :=
  let n := nat_of_ascii c in (48 <=? n)%nat && (n <=? 57)%nat.

Definition digit_val (c : ascii) : Z := Z.of_nat (nat_of_ascii c) - 48.

Definition lower_char (c : ascii) : ascii :=
  let n := nat_of_ascii c in
  if (65 <=? n)%nat && (n <=? 90)%nat then ascii_of_nat (n + 32) else c.

Fixpoint lower (s : string) : string :=
  match s with
  | EmptyString => EmptyString
  | String c r => String (lower_char c) (lower r)
  end.

(** [s.lstrip()] *)
Fixpoint lstrip (s : string) : string :=
  match s with
  | EmptyString => EmptyString
  | String c r => if isspace c then lstrip r else s
  end.

Definition rstrip (s : string) : string := String.rev (lstrip (String.rev s)).

(** [s.strip()] *)
Definition strip (s : string) : string := rstrip (lstrip s).

(** [s.lstrip(ch)] for a one-character argument *)
Fixpoint lstrip_char (ch : ascii) (s : string) : string :=
  match s with
  | EmptyString => EmptyString
  | String c r => if Ascii.eqb c ch then lstrip_char ch r else s
  end.

Definition startswith (s pre : string) : bool := String.prefix pre s.

Definition endswith (s suf : string) : bool :=
  String.prefix (String.rev suf) (String.rev s).

(** [s[:-n]] for [n > 0] *)
Definition drop_last (n : nat) (s : string) : string :=
  String.substring 0 (String.length s - n) s.

(** [s[:n]] *)
Definition take (n : nat) (s : string) : string := String.substring 0 n s.

(** [s.replace(old, new)] for a one-character [old] *)
Fixpoint replace (old : ascii) (new : string) (s : string) : string :=
  match s with
  | EmptyString => EmptyString
  | String c r =>
      if Ascii.eqb c old then new +:+ replace old new r
      else String c (replace old new r)
  end.

(** [ch in s] *)
Fixpoint contains (ch : ascii) (s : string) : bool :=
  match s with
  | EmptyString => false
  | String c r => Ascii.eqb c ch || contains ch r
  end.

Fixpoint filter (p : ascii -> bool) (s : string) : string :=
  match s with
  | EmptyString => EmptyString
  | String c r => if p c then String c (filter p r) else filter p r
  end.

(** [sep.join(l)] *)
Fixpoint join (sep : string) (l : list string) : string :=
  match l with
  | [] => ""
  | [x] => x
  | x :: r => x +:+ sep +:+ join sep r
  end.

(** [s.split(ch)] for a one-character separator *)
Fixpoint split_go (ch : ascii) (cur : string) (s : string) : list string :=
  match s with
  | EmptyString => [String.rev cur]
  | String c r =>
      if Ascii.eqb c ch then String.rev cur :: split_go ch "" r
      else split_go ch (String c cur) r
  end.

Definition split (ch : ascii) (s : string) : list string := split_go ch "" s.

(** [re.sub(r"\s+", " ", s)] *)
Fixpoint collapse_ws (in_ws : bool) (s : string) : string :=
  match s with
  | EmptyString => EmptyString
  | String c r =>
      if isspace c then
        if in_ws then collapse_ws true r else String " " (collapse_ws true r)
      else String c (collapse_ws false r)
  end.

(** [x in (a, b, ...)] on strings *)
Definition mem (x : string) (l : list string) : bool :=
  existsb (String.eqb x) l.

(** [str(n)] for an [int] *)
Definition str_of_int (n : Z) : string := pretty n.

(** [str(v)] and f-string interpolation of an optional string *)
Definition str_of_opt (v : option string) : string :=
  match v with
  | Some s => s
  | None => "None"
  end.

(** [v or d] on an optional string: [None] and [""] are falsy *)
Definition or_else (v : option string) (d : string) : string :=
  match v with
  | Some EmptyString | None => d
  | Some s => s
  end.

(** Digits of a numeric literal: [digit (["_"] digit)*], read as the
    longest prefix of digits and underscores, which must be well formed. *)
Fixpoint span_digits (s : string) : string * string :=
  match s with
  | EmptyString => ("", "")
  | String c r =>
      if isdigit c || Ascii.eqb c "_" then
        let '(d, rest) := span_digits r in (String c d, rest)
      else ("", s)
  end.

(** no leading, trailing or doubled underscore *)
Fixpoint digits_ok (prev_us : bool) (s : string) : bool :=
  match s with
  | EmptyString => negb prev_us
  | String c r =>
      if Ascii.eqb c "_" then negb prev_us && digits_ok true r
      else digits_ok false r
  end.

Fixpoint digits_val (acc : Z) (s : string) : Z :=
  match s with
  | EmptyString => acc
  | String c r =>
      if Ascii.eqb c "_" then digits_val acc r
      else digits_val (10 * acc + digit_val c) r
  end.

Definition ndigits (s : string) : Z :=
  Z.of_nat (String.length (filter isdigit s)).

(** optional sign: [(negative, rest)] *)
Definition take_sign (s : string) : bool * string :=
  match s with
  | String "-" r => (true, r)
  | String "+" r => (false, r)
  | _ => (false, s)
  end.

(** [s.isascii()] *)
Fixpoint isascii (s : string) : bool :=
  match s with
  | EmptyString => true
  | String c r => (nat_of_ascii c <? 128)%nat && isascii r
  end.

(** the white space [int] skips at both ends of its argument
    ([Py_ISSPACE]: tab to carriage return, and the space); the separators
    28 to 31, which [str.strip] removes, are not among them *)
Definition isspace_int (c : ascii) : bool :=
  let n := nat_of_ascii c in
  ((9 <=? n)%nat && (n <=? 13)%nat) || (n =? 32)%nat.

Fixpoint lstrip_int (s : string) : string :=
  match s with
  | EmptyString => EmptyString
  | String c r => if isspace_int c then lstrip_int r else s
  end.

Definition strip_int (s : string) : string :=
  String.rev (lstrip_int (String.rev (lstrip_int s))).

(** [int(s)] on an ASCII string, base 10, with no bound on the number of
    digits *)
Definition int_of_str (s : string) : Res Z :=
  let '(neg, body) := take_sign (strip_int s) in
  let '(d, rest) := span_digits body in
  match d, rest with
  | String _ _, EmptyString =>
      if digits_ok true d then
        Ok (if neg then - digits_val 0 d else digits_val 0 d)
      else Raise ValueError
  | _, _ => Raise ValueError
  end.

End Py.

(** ** Python floats

    [float(s)], the format [f"{x:.2f}"], the literal [0.00] and [int(x)]
    are built-ins of the host language: the program is embedded over an
    interface for them. *)

Class PyFloatOps (F : Type) : Type := {
  float_of_str : string -> option F;  (* [float(s)]; [None] is ValueError *)
  format_2f : F -> string;            (* [f"{x:.2f}"] *)
  float_zero : F;                     (* [0.00] *)
  int_of_float : F -> Res Z           (* [int(x)] *)
}.

(** [float(s)] as a call that may raise *)
Definition py_float {F} `{PyFloatOps F} (s : string) : Res F :=
  match float_of_str s with
  | Some x => Ok x
  | None => Raise ValueError
  end.

(** The exact decimal implementation: a literal denotes the rational it
    spells (rounding to binary64 and overflow to infinity are not
    modelled). Underscores between digits, an exponent, [inf], [infinity]
    and [nan] are accepted as [float] accepts them. *)
Module DecFloat.

Inductive pyfloat : Type :=
| Fin (q : Q)
| Inf (neg : bool)
| NaN.

Definition part_ok (p : string) : bool :=
  match p with
  | EmptyString => true
  | _ => Py.digits_ok true p
  end.

Definition is_empty (s : string) : bool :=
  match s with
  | EmptyString => true
  | _ => false
  end.

(** [(-1)^neg * m * 10^e] *)
Definition scaled (neg : bool) (m e : Z) : pyfloat :=
  let m := if neg then - m else m in
  Fin (Qred (if 0 <=? e then (m * 10 ^ e) # 1 else m # Z.to_pos (10 ^ (- e)))).

Definition exponent (s : string) : option Z :=
  match s with
  | EmptyString => Some 0
  | String c r =>
      if Ascii.eqb c "e" || Ascii.eqb c "E" then
        let '(eneg, eb) := Py.take_sign r in
        let '(ed, rest) := Py.span_digits eb in
        match ed, rest with
        | String _ _, EmptyString =>
            if Py.digits_ok true ed then
              Some (if eneg then - Py.digits_val 0 ed else Py.digits_val 0 ed)
            else None
        | _, _ => None
        end
      else None
  end.

Definition of_str (s : string) : option pyfloat :=
  let '(neg, body) := Py.take_sign (Py.strip s) in
  let lb := Py.lower body in
  if Py.mem lb ["inf"; "infinity"] then Some (Inf neg)
  else if String.eqb lb "nan" then Some NaN
  else
    let '(ip, r1) := Py.span_digits body in
    let '(fp, r2) :=
      match r1 with
      | String "." r => Py.span_digits r
      | _ => ("", r1)
      end in
    if part_ok ip && part_ok fp && negb (is_empty ip && is_empty fp) then
      match exponent r2 with
      | Some e =>
          Some (scaled neg (Py.digits_val (Py.digits_val 0 ip) fp)
                       (e - Py.ndigits fp))
      | None => None
      end
    else None.

(** round half to even of [100 * q] *)
Definition cents (q : Q) : Z :=
  let num := Qnum q * 100 in
  let den := Zpos (Qden q) in
  let fl := num / den in
  let r := num mod den in
  if 2 * r <? den then fl
  else if den <? 2 * r then fl + 1
  else if Z.even fl then fl else fl + 1.

Definition two_digits (n : Z) : string :=
  if n <? 10 then "0" +:+ pretty n else pretty n.

Definition fmt_2f (x : pyfloat) : string :=
  match x with
  | Fin q =>
      let c := Z.abs (cents q) in
      (if Qnum q <? 0 then "-" else "") +:+
      pretty (c / 100) +:+ "." +:+ two_digits (c mod 100)
  | Inf true => "-inf"
  | Inf false => "inf"
  | NaN => "nan"
  end.

Definition to_int (x : pyfloat) : Res Z :=
  match x with
  | Fin q => Ok (Z.quot (Qnum q) (Zpos (Qden q)))
  | Inf _ => Raise OverflowError
  | NaN => Raise ValueError
  end.

#[global] Instance ops : PyFloatOps pyfloat := {|
  float_of_str := of_str;
  format_2f := fmt_2f;
  float_zero := Fin 0;
  int_of_float := to_int
|}.

End DecFloat.

(** ** Text and price utilities *)

(** [clean_text]: [re.sub(r"\s+", " ", s or "").strip()] *)
Definition clean_text (s : string) : string :=
  Py.strip (Py.collapse_ws false s).

(** the characters kept by [re.sub(r"[^\d,.\-]", "", t)] *)
Definition price_char (c : ascii) : bool :=
  Py.isdigit c || Ascii.eqb c "," || Ascii.eqb c "." || Ascii.eqb c "-".

(** the comma rule shared by both price parsers *)
Definition fix_separators (t : string) : string :=
  if Py.contains "," t && Py.contains "." t then Py.replace "," "" t
  else if Py.contains "," t && negb (Py.contains "." t) then Py.replace "," "." t
  else t.

Section PriceUtils.
Context {F : Type} `{PyFloatOps F}.

(** [complete_code.parse_currency_to_decimal] *)
Definition parse_currency_to_decimal (txt : string) : string :=
  match txt with
  | EmptyString => ""
  | _ =>
      let t := Py.lower (Py.strip txt) in
      if Py.mem t ["free"; "basic"] then "0.00"
      else
        let t := Py.filter price_char t in
        let t := fix_separators t in
        try_except (bind (py_float t) (fun x => Ok (format_2f x))) ""
  end.

(** [complete_code.parse_price_modifier] *)
Definition parse_price_modifier (price_text : string) : F :=
  match price_text with
  | EmptyString => float_zero
  | _ =>
      if Py.mem (Py.lower price_text) ["free"; "basic"] then float_zero
      else
        let num := parse_currency_to_decimal price_text in
        try_except
          (match num with
           | EmptyString => Ok float_zero
           | _ => py_float num
           end)
          float_zero
  end.

Inductive ModKind : Type := percent | absolute.

Record Modifier : Type := mkModifier { kind : ModKind; value : F }.

(** [overgear_scraper_selenium._parse_modifier]; each [float] call is the
    body of a [try] whose handler returns [None] *)
Definition _parse_modifier (raw : option string) : option Modifier :=
  match raw with
  | None | Some EmptyString => None
  | Some raw =>
      let t := Py.strip (Py.lstrip_char "+" (Py.strip raw)) in
      if Py.endswith t "%" then
        let num := Py.replace "," "." (Py.strip (Py.drop_last 1 t)) in
        try_except
          (bind (py_float num) (fun x => Ok (Some (mkModifier percent x))))
          None
      else
        let num := Py.filter price_char t in
        match num with
        | EmptyString => None
        | _ =>
            let num := fix_separators num in
            try_except
              (bind (py_float num) (fun x => Ok (Some (mkModifier absolute x))))
              None
        end
  end.

End PriceUtils.

Arguments Modifier F : clear implicits.
Arguments mkModifier {F} kind value.

(** ** Option rows *)

Record OptionRow (F : Type) : Type := mkRow {
  option_id : Z;
  service_id : Z;
  parent_option_id : option Z;
  option_type : string;
  option_name : string;
  option_label : string;
  option_value : option string;
  price_modifier : F;
  min_value : option Z;
  max_value : option Z;
  default_value : option string;
  is_required : Z;
  display_order : Z;
  is_active : Z;
  created_at : string;
  updated_at : string
}.
Arguments mkRow {F}.
Arguments option_id {F} _.
Arguments service_id {F} _.
Arguments parent_option_id {F} _.
Arguments option_type {F} _.
Arguments option_name {F} _.
Arguments option_label {F} _.
Arguments option_value {F} _.
Arguments price_modifier {F} _.
Arguments min_value {F} _.
Arguments max_value {F} _.
Arguments default_value {F} _.
Arguments is_required {F} _.
Arguments display_order {F} _.
Arguments is_active {F} _.
Arguments created_at {F} _.
Arguments updated_at {F} _.

(** [rr = dict(r); rr["option_type"] = t] *)
Definition set_option_type {F} (r : OptionRow F) (t : string) : OptionRow F :=
  mkRow (option_id r) (service_id r) (parent_option_id r) t (option_name r)
        (option_label r) (option_value r) (price_modifier r) (min_value r)
        (max_value r) (default_value r) (is_required r) (display_order r)
        (is_active r) (created_at r) (updated_at r).

(** A group row is the row of the axis itself: it carries no choice value. *)
Definition is_group_row {F} (r : OptionRow F) : Prop := option_value r = None.

(** ** Normalizer *)

(** the per-row rule of [normalize_option_types_in_rows]; the option type
    of a row is a string ([rr.get("option_type") or ""] reads a missing or
    null one as the empty string) *)
Definition normalize_option_type (t : string) : string :=
  let t := Py.strip t in
  let t := if Py.endswith t "_value" then Py.drop_last 6 t else t in
  if Py.mem t ["button"; "buttons"] then "radio" else t.

(** [normalize_option_types_in_rows] (the same text in [complete_code.py]
    and [scrapper_db.py]) *)
Definition normalize_option_types_in_rows {F} (rows : list (OptionRow F))
  : list (OptionRow F) :=
  map (fun r => set_option_type r (normalize_option_type (option_type r))) rows.

(** [clean_option_types], per value of the column: the regular expression
    [_value$] also matches before one final newline *)
Definition clean_option_type (t : string) : string :=
  let t :=
    if Py.endswith t "_value" then Py.drop_last 6 t
    else if Py.endswith t (String.append "_value" (String "010" ""))
         then String.append (Py.drop_last 7 t) (String "010" "")
    else t in
  if Py.mem t ["buttons"; "button"] then "radio" else t.

(** the persisted vocabulary *)
Definition vocabulary : list string :=
  ["slider"; "range"; "radio"; "checkbox"; "dropdown"].

(** ** The page as the queries see it *)

(** an [input] element: the attributes the code reads *)
Record InputEl : Type := mkInput {
  in_type : option string;
  in_value : option string;
  in_checked : bool                 (* [get_attribute("checked") is not None] *)
}.

(** [.input-container]: the texts of its [.label] elements, its inputs *)
Record InputContainer : Type := mkContainer {
  ic_labels : list string;
  ic_inputs : list InputEl
}.

(** [.product-option-cluster-range] *)
Record RangeCluster : Type := mkRange {
  rc_knobs : nat;                   (* [.range__body .range__knob] *)
  rc_scale_items : list string;     (* texts of [.range__scale-item] *)
  rc_containers : list InputContainer
}.

(** [.radio-option] *)
Record RadioOption : Type := mkRadio {
  ro_visible : bool;
  ro_text : string;
  ro_inputs : list InputEl;         (* [input[type='radio']] *)
  ro_label_q : list string;         (* texts of [.radio-check__label] *)
  ro_price_q : list string          (* texts of [.radio-option__price] *)
}.

(** [button]; the [value] attribute is what a form would submit, no code
    path reads it *)
Record Button : Type := mkButton {
  btn_visible : bool;
  btn_text : string;
  btn_label_q : list string;        (* texts of [.button-option__label] *)
  btn_value : option string
}.

(** the children of [.product-option-cluster-buttons], in document order *)
Inductive ButtonItem : Type :=
| Loose (b : Button)                (* a button outside any [.buttons-group] *)
| Grouped (bs : list Button).       (* one [.buttons-group] *)

(** [.checkbox-option] *)
Record CheckboxOption : Type := mkCheck {
  co_visible : bool;
  co_text : string;
  co_label_q : list string;         (* texts of [.radio-check__label] *)
  co_inputs : list InputEl;         (* [input[type='checkbox']] *)
  co_price_q : list string          (* texts of [.checkbox-option__price] *)
}.

(** [option] of a [select] *)
Record SelectOption : Type := mkOpt {
  opt_text : string;
  opt_value : option string;
  opt_selected : bool
}.

(** [.product-option]: the group node handed to the classifier.
    Input containers occur inside range clusters only. *)
Record GroupEl : Type := mkGroup {
  g_visible : bool;
  g_label_q : list string;                    (* [.product-option__label] *)
  g_range_q : list RangeCluster;
  g_radios_q : list (list RadioOption);       (* [.product-option-cluster-radios] *)
  g_buttons_q : list (list ButtonItem);       (* [.product-option-cluster-buttons] *)
  g_checks_q : list (list CheckboxOption);    (* [.product-option-cluster-checkboxes] *)
  g_select_q : list (list SelectOption);      (* [.product-option-cluster-select select] *)
  g_outer_html : string
}.

(** [.option-group] *)
Record OptionGroup : Type := mkOptionGroup {
  og_visible : bool;
  og_inner : list GroupEl                     (* [.product-option] *)
}.

(** [get_clean_text_el] *)
Definition get_clean_text_el (text : string) : string := clean_text text.

(** [cluster.find_elements(".input-container input")] *)
Definition cluster_inputs (c : RangeCluster) : list InputEl :=
  flat_map ic_inputs (rc_containers c).

Definition is_number_input (i : InputEl) : bool :=
  match in_type i with
  | Some t => String.eqb t "number"
  | None => false
  end.

Definition buttons_of_item (it : ButtonItem) : list Button :=
  match it with
  | Loose b => [b]
  | Grouped bs => bs
  end.

Definition grouped_buttons (it : ButtonItem) : list Button :=
  match it with
  | Loose _ => []
  | Grouped bs => bs
  end.

(** ** Classifier ([complete_code.py]) *)

(** [detect_slider_kind]: both selectors are scoped to the group *)
Definition detect_slider_kind (g : GroupEl) : string :=
  let knob_cnt := sum_list (map rc_knobs (g_range_q g)) in
  let inp_cnt :=
    length (List.filter is_number_input (flat_map cluster_inputs (g_range_q g))) in
  if (2 <=? knob_cnt)%nat || (2 <=? inp_cnt)%nat then "range" else "slider".

(** the label a radio option contributes: the first line of its label
    element that is not a price, else the text of the whole option *)
Definition is_label_line (t : string) : bool :=
  negb (String.eqb t "") && negb (Py.startswith t "+")
  && negb (String.eqb (Py.lower t) "free").

Definition radio_label (ro : RadioOption) : string :=
  let lab_txt :=
    match ro_label_q ro with
    | [] => ""
    | l :: _ =>
        match List.find is_label_line (map Py.strip (Py.split "010" l)) with
        | Some t => t
        | None => ""
        end
    end in
  match lab_txt with
  | EmptyString => get_clean_text_el (ro_text ro)
  | _ => lab_txt
  end.

Definition first_text (q : list string) : string :=
  match q with
  | [] => ""
  | t :: _ => clean_text t
  end.

(** one entry of [items] in the radio branch; [None] is [continue] *)
Definition radio_item (ro : RadioOption) : option string :=
  if negb (ro_visible ro) then None
  else
    match ro_inputs ro with
    | [] => None
    | inp :: _ =>
        let val := Py.or_else (in_value inp) "" in
        Some (radio_label ro +:+ "|" +:+ val +:+ "|" +:+ first_text (ro_price_q ro))
    end.

Definition button_label (b : Button) : string :=
  match btn_label_q b with
  | l :: _ => get_clean_text_el l
  | [] => get_clean_text_el (btn_text b)
  end.

Definition button_item (b : Button) : option string :=
  if negb (btn_visible b) then None else Some (button_label b).

Definition checkbox_label (co : CheckboxOption) : string :=
  match co_label_q co with
  | l :: _ => get_clean_text_el l
  | [] => get_clean_text_el (co_text co)
  end.

(** [val] of the checkbox branch: an absent attribute is interpolated as
    [None] *)
Definition checkbox_sig_value (co : CheckboxOption) : string :=
  match co_inputs co with
  | inp :: _ => Py.str_of_opt (in_value inp)
  | [] => ""
  end.

Definition checkbox_item (co : CheckboxOption) : option string :=
  if negb (co_visible co) then None
  else Some (checkbox_label co +:+ "|" +:+ checkbox_sig_value co +:+ "|"
             +:+ first_text (co_price_q co)).

Definition nonempty (s : string) : bool := negb (String.eqb s "").

(** [label] and [slug] of the classifier *)
Definition group_label (g : GroupEl) : string :=
  match g_label_q g with
  | l :: _ => get_clean_text_el l
  | [] => "Option"
  end.

Definition label_slug (g : GroupEl) : string :=
  Py.strip (Py.replace ":" "" (Py.lower (group_label g))).

(** the range branch, entered for a visible group with a range cluster:
    [(kind, label, sig)] before hashing *)
Definition range_canonical (g : GroupEl) (cluster : RangeCluster)
  : string * string * string :=
  let kind := detect_slider_kind g in
  let scales := List.filter nonempty (map clean_text (rc_scale_items cluster)) in
  let defaults :=
    List.filter nonempty
      (map (fun ip => Py.or_else (in_value ip) "") (cluster_inputs cluster)) in
  (kind, group_label g,
   kind +:+ "|" +:+ label_slug g +:+ "|scale:" +:+ Py.join "," scales
        +:+ "|def:" +:+ Py.join "," defaults).

(** the branches after the range branch, first match wins *)
Definition choice_canonical (g : GroupEl) : string * string * string :=
  let label := group_label g in
  let slug := label_slug g in
  match g_radios_q g with
  | radios :: _ =>
      let items := omap radio_item radios in
      ("radio", label, "radio|" +:+ slug +:+ "|items:" +:+ Py.join "||" items)
  | [] =>
  match g_buttons_q g with
  | cluster :: _ =>
      let items := omap button_item (flat_map buttons_of_item cluster) in
      ("buttons", label, "buttons|" +:+ slug +:+ "|items:" +:+ Py.join "||" items)
  | [] =>
  match g_checks_q g with
  | checks :: _ =>
      let items := omap checkbox_item checks in
      ("checkbox", label, "checkbox|" +:+ slug +:+ "|items:" +:+ Py.join "||" items)
  | [] =>
  match g_select_q g with
  | sel :: _ =>
      let items := map (fun o => clean_text (opt_text o)) sel in
      ("select", label, "select|" +:+ slug +:+ "|items:" +:+ Py.join "||" items)
  | [] =>
      ("unknown", label,
       "unknown|" +:+ slug +:+ "|" +:+ Py.take 500 (g_outer_html g))
  end end end end.

(** [(kind, label, sig)] before hashing: [sig] is the canonical string *)
Definition group_kind_and_canonical (g : GroupEl) : string * string * string :=
  match g_range_q g with
  | cluster :: _ =>
      if g_visible g then range_canonical g cluster else choice_canonical g
  | [] => choice_canonical g
  end.

Section Classifier.
(** [hashlib.sha256(s.encode("utf-8","ignore")).hexdigest()] *)
Variable h : string -> string.

(** [complete_code.group_kind_and_signature] *)
Definition group_kind_and_signature (g : GroupEl) : string * string * string :=
  let '(kind, label, sig) := group_kind_and_canonical g in (kind, label, h sig).

End Classifier.

(** ** Option tree writer ([complete_code.py]) *)

(** [l.lower().replace(' ', '_').replace(':', '')] *)
Definition slug (l : string) : string :=
  Py.replace ":" "" (Py.replace " " "_" (Py.lower l)).

(** [l.lower().replace(' ', '_')] *)
Definition slug_keep_colon (l : string) : string :=
  Py.replace " " "_" (Py.lower l).

(** [extract_slider_labels] *)
Definition extract_slider_labels (g : GroupEl) : list string :=
  let labels :=
    List.filter nonempty
      (omap (fun c => match ic_labels c with
                      | l :: _ => Some (clean_text l)
                      | [] => None
                      end)
            (flat_map rc_containers (g_range_q g))) in
  let labels :=
    match labels with
    | [] => match g_label_q g with
            | l :: _ => [clean_text l]
            | [] => []
            end
    | _ => labels
    end in
  match labels with
  | [] => ["Value"]
  | _ => labels
  end.

(** [min_val]/[max_val] of [write_slider_or_range]: one [try] around both
    conversions, so a failure of the second keeps the first *)
Definition scale_bounds (g : GroupEl) : option Z * option Z :=
  let scales := flat_map rc_scale_items (g_range_q g) in
  match scales with
  | [] => (None, None)
  | first :: _ =>
      match Py.int_of_str (clean_text first) with
      | Raise _ => (None, None)
      | Ok lo =>
          match Py.int_of_str (clean_text (List.last scales "")) with
          | Raise _ => (Some lo, None)
          | Ok hi => (Some lo, Some hi)
          end
      end
  end.

Section Writer.
Context {F : Type} `{PyFloatOps F}.

(** [datetime.now().strftime(...)] read by a writer call that finds [n]
    rows already in [rows_out] *)
Variable now_at : nat -> string.

Abbreviation Row := (OptionRow F).

(** a row waiting for its [option_id] and [display_order] *)
Definition Maker : Type := Z -> Z -> Row.

(** [(option_id, display_order, rows_out)] *)
Definition Cursor : Type := Z * Z * list Row.

(** [rows_out.append({...}); option_id += 1; display_order += 1] *)
Definition emit (c : Cursor) (mk : Maker) : Cursor :=
  let '(oid, disp, rows) := c in (oid + 1, disp + 1, rows ++ [mk oid disp]).

Definition emit_all (mks : list Maker) (c : Cursor) : Cursor :=
  fold_left emit mks c.

(** the parent row all writers share *)
Definition parent_row (service_id : Z) (parent_option_id : option Z)
    (ty name label : string) (required : Z) (now : string) : Maker :=
  fun oid disp =>
    mkRow oid service_id parent_option_id ty name label None float_zero
          None None None required disp 1 now now.

Definition nth_default_value (defaults : list string) (i : nat) : string :=
  match nth_error defaults i with
  | Some v => v
  | None => ""
  end.

(** [write_slider_or_range] *)
Definition write_slider_or_range (g : GroupEl) (kind label : string)
    (parent_option_id : option Z) (service_id option_id_start display_order : Z)
    (rows_out : list Row) : Z * Z * option Z * list Row :=
  let now := now_at (length rows_out) in
  let slider_labels := extract_slider_labels g in
  let '(parent_option_name, parent_option_label) :=
    match slider_labels with
    | [l0] => (slug l0, l0)
    | [l0; l1] => (slug l0 +:+ "_" +:+ slug l1, l0 +:+ " /// " +:+ l1)
    | _ => (Py.join "_" (map slug slider_labels), Py.join " /// " slider_labels)
    end in
  let parent_id := option_id_start in
  let '(min_val, max_val) := scale_bounds g in
  let default_values :=
    List.filter nonempty
      (map (fun i => Py.or_else (in_value i) "")
           (flat_map cluster_inputs (g_range_q g))) in
  let child (i : nat) (slider_label : string) : Maker :=
    fun oid disp =>
      let value_option_name :=
        if (1 <? length slider_labels)%nat
        then parent_option_name +:+ "_value_" +:+ Py.str_of_int (Z.of_nat i + 1)
        else parent_option_name +:+ "_value" in
      let default_val := nth_default_value default_values i in
      mkRow oid service_id (Some parent_id) (kind +:+ "_value") value_option_name
            slider_label (Some default_val) float_zero min_val max_val
            (Some default_val) 1 disp 1 now now in
  let '(oid, disp, rows) :=
    emit_all
      (parent_row service_id parent_option_id kind parent_option_name
                  parent_option_label 1 now
       :: imap child slider_labels)
      (option_id_start, display_order, rows_out) in
  (oid, disp, Some parent_id, rows).

(** one button of [write_buttons_as_radio]; [None] is [continue] *)
Definition button_row (service_id parent_id : Z) (label now : string)
    (b : Button) : option Maker :=
  if negb (btn_visible b) then None
  else
    let txt := button_label b in
    let val := slug_keep_colon txt in
    Some (fun oid disp =>
      mkRow oid service_id (Some parent_id) "radio"
            (slug_keep_colon label +:+ "_" +:+ val) txt (Some val) float_zero
            None None None 0 disp 1 now now).

(** [write_buttons_as_radio] *)
Definition write_buttons_as_radio (g : GroupEl) (label : string)
    (parent_option_id : option Z) (service_id option_id_start display_order : Z)
    (rows_out : list Row) : Z * Z * option Z * list Row :=
  let now := now_at (length rows_out) in
  let parent_id := option_id_start in
  let buttons := flat_map grouped_buttons (concat (g_buttons_q g)) in
  let '(oid, disp, rows) :=
    emit_all
      (parent_row service_id parent_option_id "radio" (slug label) label 1 now
       :: omap (button_row service_id parent_id label now) buttons)
      (option_id_start, display_order, rows_out) in
  (oid, disp, Some parent_id, rows).

Definition price_of (price_q : list string) : F :=
  match price_q with
  | p :: _ => parse_price_modifier (Py.strip p)
  | [] => float_zero
  end.

(** one radio option of [write_radios]; [None] is [continue] *)
Definition radio_row (service_id parent_id : Z) (label now : string)
    (ro : RadioOption) : option Maker :=
  if negb (ro_visible ro) then None
  else
    match ro_inputs ro with
    | [] => None
    | inp :: _ =>
        let val := Py.or_else (in_value inp) "" in
        let txt := radio_label ro in
        let price_mod := price_of (ro_price_q ro) in
        Some (fun oid disp =>
          mkRow oid service_id (Some parent_id) "radio"
                (slug_keep_colon label +:+ "_" +:+ slug_keep_colon txt) txt
                (Some val) price_mod None None
                (if in_checked inp then Some val else None) 0 disp 1 now now)
    end.

(** [write_radios] (the list of [(row_id, val)] pairs it also returns is
    dropped by its only caller) *)
Definition write_radios (g : GroupEl) (label : string)
    (parent_option_id : option Z) (service_id option_id_start display_order : Z)
    (rows_out : list Row) : Z * Z * option Z * list Row :=
  let now := now_at (length rows_out) in
  let parent_id := option_id_start in
  let '(oid, disp, rows) :=
    emit_all
      (parent_row service_id parent_option_id "radio" (slug label) label 1 now
       :: omap (radio_row service_id parent_id label now) (concat (g_radios_q g)))
      (option_id_start, display_order, rows_out) in
  (oid, disp, Some parent_id, rows).

(** one checkbox of [write_checkboxes]; [None] is [continue] *)
Definition checkbox_row (service_id parent_id : Z) (label now : string)
    (co : CheckboxOption) : option Maker :=
  if negb (co_visible co) then None
  else
    match co_inputs co with
    | [] => None
    | chk :: _ =>
        let txt := checkbox_label co in
        let price_mod := price_of (co_price_q co) in
        let val := Py.or_else (in_value chk) (slug_keep_colon txt) in
        Some (fun oid disp =>
          mkRow oid service_id (Some parent_id) "checkbox"
                (slug_keep_colon label +:+ "_" +:+ val) txt (Some val) price_mod
                None None (if in_checked chk then Some val else None)
                0 disp 1 now now)
    end.

(** [write_checkboxes] *)
Definition write_checkboxes (g : GroupEl) (label : string)
    (parent_option_id : option Z) (service_id option_id_start display_order : Z)
    (rows_out : list Row) : Z * Z * option Z * list Row :=
  let now := now_at (length rows_out) in
  let parent_id := option_id_start in
  let '(oid, disp, rows) :=
    emit_all
      (parent_row service_id parent_option_id "checkbox" (slug label) label 0 now
       :: omap (checkbox_row service_id parent_id label now)
               (concat (g_checks_q g)))
      (option_id_start, display_order, rows_out) in
  (oid, disp, Some parent_id, rows).

(** one [option] of the select branch *)
Definition select_row (service_id parent_id : Z) (label now : string)
    (o : SelectOption) : Maker :=
  let txt := clean_text (opt_text o) in
  let val := Py.or_else (opt_value o) (slug_keep_colon txt) in
  fun oid disp =>
    mkRow oid service_id (Some parent_id) "dropdown"
          (slug_keep_colon label +:+ "_" +:+ val) txt (Some val) float_zero
          None None (if opt_selected o then Some val else None)
          0 disp 1 now now.

(** [parse_group_to_rows_fixed] *)
Definition parse_group_to_rows_fixed (g : GroupEl) (kind label : string)
    (parent_option_id : option Z) (service_id option_id_start display_order : Z)
    (rows_out : list Row) : Z * Z * option Z * list Row :=
  if Py.mem kind ["slider"; "range"] then
    write_slider_or_range g kind label parent_option_id service_id
                          option_id_start display_order rows_out
  else if String.eqb kind "radio" then
    write_radios g label parent_option_id service_id option_id_start
                 display_order rows_out
  else if String.eqb kind "buttons" then
    write_buttons_as_radio g label parent_option_id service_id option_id_start
                           display_order rows_out
  else if String.eqb kind "checkbox" then
    write_checkboxes g label parent_option_id service_id option_id_start
                     display_order rows_out
  else if String.eqb kind "select" then
    let now := now_at (length rows_out) in
    let parent_id := option_id_start in
    let options :=
      match g_select_q g with
      | sel :: _ => sel
      | [] => []                    (* [find_element] raises, [except: pass] *)
      end in
    let '(oid, disp, rows) :=
      emit_all
        (parent_row service_id parent_option_id "dropdown" (slug label) label 1 now
         :: map (select_row service_id parent_id label now) options)
        (option_id_start, display_order, rows_out) in
    (oid, disp, Some parent_id, rows)
  else (option_id_start, display_order, None, rows_out).

End Writer.

(** ** Snapshot engine ([complete_code.extract_options_with_snapshots_fixed]) *)

(** the first [.product-option] of a visible [.option-group]; [None] is
    [continue] *)
Definition visible_inner (g : OptionGroup) : option GroupEl :=
  if og_visible g then head (og_inner g) else None.

(** [kind == "radio" and label.strip().lower() == "difficulty"] *)
Definition is_difficulty (kind label : string) : bool :=
  String.eqb kind "radio" && String.eqb (Py.lower (Py.strip label)) "difficulty".

Section Engine.
Context {F : Type} `{PyFloatOps F}.
Variable h : string -> string.
Variable now_at : nat -> string.

(** The browser session: its states, whether the options container shows
    up within the wait, the [.option-group] elements of the container,
    and what selecting a trigger value leads to once the page has settled
    ([None]: the input is not found or the click is rejected). *)
Variable St : Type.
Variable has_container : St -> bool.
Variable groups_of : St -> list OptionGroup.
Variable click : St -> string -> option St.

Abbreviation Row := (OptionRow F).

(** the state the loops thread: [baseline_sigs], [option_id],
    [display_order], [rows_out] *)
Record Engine : Type := mkEngine {
  e_sigs : gmap (string * string) string;
  e_option_id : Z;
  e_display_order : Z;
  e_rows : list Row
}.

(** the baseline scan *)
Definition baseline_scan (groups : list OptionGroup)
  : gmap (string * string) string * list (GroupEl * string * string) :=
  fold_left
    (fun acc g =>
       match visible_inner g with
       | None => acc
       | Some el =>
           let '(kind, label, sig) := group_kind_and_signature h el in
           (<[(kind, label) := sig]> (fst acc), snd acc ++ [(el, kind, label)])
       end)
    groups (∅, []).

(** writing one baseline group *)
Definition write_baseline (service_id : Z) (c : Cursor)
    (b : GroupEl * string * string) : Cursor :=
  let '(oid, disp, rows) := c in
  let '(el, kind, label) := b in
  let '(oid', disp', _, rows') :=
    parse_group_to_rows_fixed now_at el kind label None service_id oid disp rows in
  (oid', disp', rows').

(** [radio_value_parent_row_ids] *)
Definition is_trigger_choice_row (sid : Z) (r : Row) : bool :=
  String.eqb (option_type r) "radio" && (service_id r =? sid)
  && Py.startswith (option_name r) "difficulty_".

Definition radio_value_parent_row_ids (service_id : Z) (rows : list Row)
  : gmap string Z :=
  fold_left
    (fun m r =>
       if is_trigger_choice_row service_id r
       then <[Py.str_of_opt (option_value r) := option_id r]> m
       else m)
    rows ∅.

(** [baseline_sig and baseline_sig == sig] *)
Definition unchanged (sigs : gmap (string * string) string)
    (kind label sig : string) : bool :=
  match sigs !! (kind, label) with
  | Some b => nonempty b && String.eqb b sig
  | None => false
  end.

(** the body of the rescan loop, for one [.option-group] *)
Definition rescan_group (service_id parent_radio_row_id : Z) (e : Engine)
    (g : OptionGroup) : Engine :=
  match visible_inner g with
  | None => e
  | Some el =>
      let '(kind, label, sig) := group_kind_and_signature h el in
      if is_difficulty kind label then e
      else if unchanged (e_sigs e) kind label sig then e
      else
        let '(oid, disp, _, rows) :=
          parse_group_to_rows_fixed now_at el kind label
            (Some parent_radio_row_id) service_id
            (e_option_id e) (e_display_order e) (e_rows e) in
        mkEngine (<[(kind, label) := sig]> (e_sigs e)) oid disp rows
  end.

(** the body of the trigger loop, for one radio value *)
Definition snapshot_value (service_id : Z) (ids : gmap string Z)
    (s : St * Engine) (val : string) : St * Engine :=
  match ids !! val with
  | None => s
  | Some parent_radio_row_id =>
      if parent_radio_row_id =? 0 then s
      else
        match click (fst s) val with
        | None => s
        | Some st' =>
            (st', fold_left (rescan_group service_id parent_radio_row_id)
                            (groups_of st') (snd s))
        end
  end.

(** the values of the trigger's radio inputs, in document order *)
Definition radio_values (difficulty_group_el : GroupEl) : list string :=
  List.filter nonempty
    (map (fun i => Py.or_else (in_value i) "")
         (flat_map ro_inputs (concat (g_radios_q difficulty_group_el)))).

(** [extract_options_with_snapshots_fixed]; [next_option_id] is what
    [get_next_option_id_from_options_csv] returned *)
Definition extract_options_with_snapshots_fixed (next_option_id service_id : Z)
    (st : St) : list Row :=
  if negb (has_container st) then []
  else
    let '(baseline_sigs, baseline_groups) := baseline_scan (groups_of st) in
    let '(option_id, display_order, rows_out) :=
      fold_left (write_baseline service_id) baseline_groups
                (next_option_id, 1, []) in
    match List.find (fun b => is_difficulty (snd (fst b)) (snd b)) baseline_groups with
    | None => rows_out
    | Some (difficulty_group_el, _, _) =>
        let ids := radio_value_parent_row_ids service_id rows_out in
        e_rows
          (snd (fold_left (snapshot_value service_id ids)
                          (radio_values difficulty_group_el)
                          (st, mkEngine baseline_sigs option_id display_order
                                        rows_out)))
    end.

End Engine.

(** ** Classifier ([scrapper_db.group_kind_and_signature])

    The variant keys a group by its head label where it has one, counts
    knobs and inputs inside the first range cluster and has no visibility
    guard on the range branch. *)
Module ScrapperDb.

Definition head_label (g : GroupEl) : string :=
  match g_label_q g with
  | l :: _ => get_clean_text_el l
  | [] => ""
  end.

(** [head_label or d] *)
Definition label_or (g : GroupEl) (d : string) : string :=
  if nonempty (head_label g) then head_label g else d.


(** the range branch; [None] is falling through to the other branches *)
Definition range_branch (g : GroupEl) : option (string * string * string) :=
  let head_label := head_label g in
  match g_range_q g with
  | [] => None
  | cluster :: _ =>
      let input_labels :=
        List.filter nonempty
          (map get_clean_text_el (flat_map ic_labels (rc_containers cluster))) in
      let knob_count := rc_knobs cluster in
      let input_count := length (cluster_inputs cluster) in
      let label_for_key :=
        if nonempty head_label then head_label
        else match input_labels with
             | [] => "Range"
             | _ => Py.join " - " input_labels
             end in
      let scales := List.filter nonempty (map clean_text (rc_scale_items cluster)) in
      let scale_sig :=
        match scales with
        | [] => ""
        | first :: _ => first +:+ ".." +:+ List.last scales ""
        end in
      let defaults :=
        map (fun i => Py.or_else (in_value i) "") (cluster_inputs cluster) in
      if (2 <=? knob_count)%nat || (2 <=? input_count)%nat then
        Some ("range", label_for_key,
              "range|" +:+ label_for_key +:+ "|labels:" +:+ Py.join "|" input_labels
              +:+ "|scale:" +:+ scale_sig +:+ "|defs:" +:+ Py.join "|" defaults)
      else
        let label_for_key :=
          match nonempty head_label, input_labels with
          | false, l :: _ => l
          | _, _ => if nonempty head_label then head_label else "Slider"
          end in
        let defval := match defaults with d :: _ => d | [] => "" end in
        Some ("slider", label_for_key,
              "slider|" +:+ label_for_key +:+ "|scale:" +:+ scale_sig
              +:+ "|def:" +:+ defval)
  end.

(** the branches after the range branch *)
Definition choice_branch (g : GroupEl) : string * string * string :=
  match g_radios_q g with
  | radios :: _ =>
      let items := omap radio_item radios in
      let label_for_key := label_or g "Radios" in
      ("radio", label_for_key,
       "radio|" +:+ label_for_key +:+ "|items:" +:+ Py.join "||" items)
  | [] =>
  match g_buttons_q g with
  | cluster :: _ =>
      let items := omap button_item (flat_map buttons_of_item cluster) in
      let label_for_key := label_or g "Buttons" in
      ("buttons", label_for_key,
       "buttons|" +:+ label_for_key +:+ "|items:" +:+ Py.join "|" items)
  | [] =>
  match g_checks_q g with
  | checks :: _ =>
      let items := omap checkbox_item checks in
      let label_for_key := label_or g "Checkboxes" in
      ("checkbox", label_for_key,
       "checkbox|" +:+ label_for_key +:+ "|items:" +:+ Py.join "||" items)
  | [] =>
  match g_select_q g with
  | sel :: _ =>
      let items := map (fun o => clean_text (opt_text o)) sel in
      let label_for_key := label_or g "Dropdown" in
      ("select", label_for_key,
       "select|" +:+ label_for_key +:+ "|items:" +:+ Py.join "||" items)
  | [] =>
      let label_for_key := label_or g "Option" in
      ("unknown", label_for_key,
       "unknown|" +:+ label_for_key +:+ "|" +:+ Py.take 500 (g_outer_html g))
  end end end end.

(** [(kind, label, sig)] before hashing *)
Definition group_kind_and_canonical (g : GroupEl) : string * string * string :=
  match range_branch g with
  | Some r => r
  | None => choice_branch g
  end.

End ScrapperDb.

(** ** The storage and the importer ([complete_code.py]) *)

Definition FORCE_GAME_ID : Z := 21.
Definition REUSE_EXISTING_SERVICE_BY_NAME : bool := true.

(** a row of [services.csv] as [pd.read_csv(dtype=str, keep_default_na=False)]
    yields it *)
Record ServiceCsv : Type := mkServiceCsv {
  s_service_id : string;
  s_game_id : string;
  s_name : string;
  s_description : string;
  s_price_per_unit : string;
  s_sale_price : string;
  s_icon_url : string;
  s_category : string;
  s_game_name : string
}.

(** [df_services]: the [service_id] column is not among the required ones *)
Record ServicesFrame : Type := mkServicesFrame {
  has_csv_service_id : bool;
  service_rows : list ServiceCsv
}.

(** a row of [service_options.csv] *)
Record OptionCsv : Type := mkOptionCsv {
  c_option_id : string;
  c_service_id : string;
  c_parent_option_id : string;
  c_option_type : string;
  c_option_name : string;
  c_option_label : string;
  c_option_value : string;
  c_price_modifier : string;
  c_min_value : string;
  c_max_value : string;
  c_default_value : string;
  c_is_required : string;
  c_display_order : string;
  c_is_active : string;
  c_created_at : string;
  c_updated_at : string
}.

Definition set_c_option_type (o : OptionCsv) (t : string) : OptionCsv :=
  mkOptionCsv (c_option_id o) (c_service_id o) (c_parent_option_id o) t
    (c_option_name o) (c_option_label o) (c_option_value o) (c_price_modifier o)
    (c_min_value o) (c_max_value o) (c_default_value o) (c_is_required o)
    (c_display_order o) (c_is_active o) (c_created_at o) (c_updated_at o).

(** [clean_option_types] *)
Definition clean_option_types (df : list OptionCsv) : list OptionCsv :=
  map (fun o => set_c_option_type o (clean_option_type (c_option_type o))) df.

(** [is_nullish] on a string *)
Definition is_nullish (v : string) : bool := String.eqb (Py.strip v) "".

(** [to_nullable_str] *)
Definition to_nullable_str (v : string) : option string :=
  if is_nullish v then None else Some v.

(** [is_parent_row] *)
Definition is_parent_row (o : OptionCsv) : bool :=
  let p := c_parent_option_id o in
  String.eqb (Py.strip p) "" || String.eqb (Py.lower p) "nan".

(** stable sort by a key, smaller keys first *)
Fixpoint insert_by {A K} (le : K -> K -> bool) (key : A -> K) (x : A)
    (l : list A) : list A :=
  match l with
  | [] => [x]
  | y :: r => if le (key x) (key y) then x :: l else y :: insert_by le key x r
  end.

Fixpoint sort_values {A K} (le : K -> K -> bool) (key : A -> K) (l : list A)
  : list A :=
  match l with
  | [] => []
  | x :: r => insert_by le key x (sort_values le key r)
  end.

Definition le2 (a b : Z * Z) : bool :=
  (fst a <? fst b) || ((fst a =? fst b) && (snd a <=? snd b)).

Definition le3 (a b : Z * Z * Z) : bool :=
  (fst (fst a) <? fst (fst b))
  || ((fst (fst a) =? fst (fst b)) && le2 (snd (fst a), snd a) (snd (fst b), snd b)).

(** all [xs] converted, or the first failure *)
Fixpoint mapM_res {A B} (f : A -> Res B) (xs : list A) : Res (list B) :=
  match xs with
  | [] => Ok []
  | x :: r => bind (f x) (fun y => bind (mapM_res f r) (fun ys => Ok (y :: ys)))
  end.

Section Storage.
Context {F : Type} `{PyFloatOps F}.

(** the parameters of [INSERT_SERVICE_SQL] *)
Record ServiceParams : Type := mkServiceParams {
  sp_game_id : Z;
  sp_name : option string;
  sp_description : option string;
  sp_price_per_unit : option F;
  sp_sale_price : option F;
  sp_icon_url : option string;
  sp_category : option string
}.

(** the parameters of [INSERT_OPTION_SQL] *)
Record OptionParams : Type := mkOptionParams {
  op_service_id : Z;
  op_parent_option_id : option Z;
  op_option_type : option string;
  op_option_name : option string;
  op_option_label : option string;
  op_option_value : option string;
  op_price_modifier : option F;
  op_min_value : option Z;
  op_max_value : option Z;
  op_default_value : option string;
  op_is_required : option Z;
  op_display_order : option Z;
  op_is_active : option Z;
  op_created_at : option string;
  op_updated_at : option string
}.

(** what the cursor and the connection are asked to do *)
Inductive Stmt : Type :=
| StartTransaction
| SelectService (game_id : Z) (name : string)
| InsertService (p : ServiceParams)
| InsertOption (p : OptionParams)
| Commit.

(** the two tables, each row with its storage id *)
Record Tables : Type := mkTables {
  t_services : list (Z * ServiceParams);
  t_options : list (Z * OptionParams)
}.

Inductive Diag : Type :=
| NoServices
| MissingParent (option_id csv_parent : string)
| Imported (name : string) (db_service_id : Z) (n_options : nat)
| RolledBack (e : Exn)
| Complete (services options : nat).

(** the connection, the counters of the importer and what it printed.
    [committed] is what every session sees, [working] what this one sees
    (its uncommitted inserts included); the AUTO_INCREMENT counters are
    not transactional. *)
Record Db : Type := mkDb {
  committed : Tables;
  working : Tables;
  service_seq : Z;
  option_seq : Z;
  trace : list Stmt;
  printed : list Diag;
  imported_services : nat;
  imported_options : nat
}.

(** [mysql.connector.connect]: a session on the stored tables *)
Definition connect (stored : Tables) (service_seq option_seq : Z) : Db :=
  mkDb stored stored service_seq option_seq [] [] 0 0.

Definition M (A : Type) : Type := Db -> Db * Res A.

Definition ret {A} (a : A) : M A := fun d => (d, Ok a).

Definition mbind {A B} (m : M A) (k : A -> M B) : M B :=
  fun d =>
    match m d with
    | (d', Ok a) => k a d'
    | (d', Raise e) => (d', Raise e)
    end.

Definition throw {A} (e : Exn) : M A := fun d => (d, Raise e).

Definition lift {A} (r : Res A) : M A := fun d => (d, r).

Definition print (x : Diag) : M unit :=
  fun d =>
    (mkDb (committed d) (working d) (service_seq d) (option_seq d) (trace d)
          (printed d ++ [x]) (imported_services d) (imported_options d), Ok tt).

Definition count_option : M unit :=
  fun d =>
    (mkDb (committed d) (working d) (service_seq d) (option_seq d) (trace d)
          (printed d) (imported_services d) (S (imported_options d)), Ok tt).

Definition count_service : M unit :=
  fun d =>
    (mkDb (committed d) (working d) (service_seq d) (option_seq d) (trace d)
          (printed d) (S (imported_services d)) (imported_options d), Ok tt).

(** The storage engine: whether a statement is refused, given the
    statements sent before it, and the comparison its collation makes on
    the [name] column. *)
Variable fails : list Stmt -> Stmt -> bool.
Variable name_matches : string -> string -> bool.

(** sending a statement: it is recorded, then refused or applied *)
Definition send {A} (s : Stmt) (apply : Db -> Db * A) : M A :=
  fun d =>
    let d1 := mkDb (committed d) (working d) (service_seq d) (option_seq d)
                   (trace d ++ [s]) (printed d) (imported_services d)
                   (imported_options d) in
    if fails (trace d) s then (d1, Raise StorageError)
    else let '(d2, a) := apply d1 in (d2, Ok a).

(** [cnx.start_transaction()] *)
Definition start_transaction : M unit :=
  send StartTransaction (fun d => (d, tt)).

(** [cur.execute(SELECT_SERVICE_SQL, (game_id, name)); cur.fetchone()] *)
Definition select_service (game_id : Z) (name : string) : M (option Z) :=
  send (SelectService game_id name)
       (fun d =>
          (d, fst <$> List.find
                 (fun r => (sp_game_id (snd r) =? game_id)
                           && match sp_name (snd r) with
                              | Some n => name_matches n name
                              | None => false
                              end)
                 (t_services (working d)))).

(** [cur.execute(INSERT_SERVICE_SQL, p); cur.lastrowid] *)
Definition execute_insert_service (p : ServiceParams) : M Z :=
  send (InsertService p)
       (fun d =>
          let id := service_seq d in
          (mkDb (committed d)
                (mkTables (t_services (working d) ++ [(id, p)])
                          (t_options (working d)))
                (id + 1) (option_seq d) (trace d) (printed d)
                (imported_services d) (imported_options d), id)).

(** [cur.execute(INSERT_OPTION_SQL, p); cur.lastrowid] *)
Definition execute_insert_option (p : OptionParams) : M Z :=
  send (InsertOption p)
       (fun d =>
          let id := option_seq d in
          (mkDb (committed d)
                (mkTables (t_services (working d))
                          (t_options (working d) ++ [(id, p)]))
                (service_seq d) (id + 1) (trace d) (printed d)
                (imported_services d) (imported_options d), id)).

(** [cnx.commit()] *)
Definition commit : M unit :=
  send Commit
       (fun d =>
          (mkDb (working d) (working d) (service_seq d) (option_seq d) (trace d)
                (printed d) (imported_services d) (imported_options d), tt)).

(** [cnx.rollback()] *)
Definition rollback (d : Db) : Db :=
  mkDb (committed d) (committed d) (service_seq d) (option_seq d) (trace d)
       (printed d) (imported_services d) (imported_options d).

(** [to_nullable_decimal] *)
Definition to_nullable_decimal (s : string) : option F :=
  if is_nullish s then None else float_of_str s.

(** [to_nullable_int] *)
Definition to_nullable_int (v : string) : option Z :=
  if is_nullish v then None
  else try_except (bind (py_float v) (fun x => bind (int_of_float x) (fun n => Ok (Some n))))
                  None.

Definition service_params (row : ServiceCsv) : ServiceParams :=
  mkServiceParams FORCE_GAME_ID
    (to_nullable_str (s_name row)) (to_nullable_str (s_description row))
    (to_nullable_decimal (s_price_per_unit row))
    (to_nullable_decimal (s_sale_price row))
    (to_nullable_str (s_icon_url row)) (to_nullable_str (s_category row)).

(** [insert_service] *)
Definition insert_service (row : ServiceCsv) : M Z :=
  let p := service_params row in
  match (if REUSE_EXISTING_SERVICE_BY_NAME then sp_name p else None) with
  | Some name =>
      mbind (select_service (sp_game_id p) name) (fun existing =>
      match existing with
      | Some id => ret id
      | None => execute_insert_service p
      end)
  | None => execute_insert_service p
  end.

Definition option_params (db_service_id : Z) (parent_db_id : option Z)
    (orow : OptionCsv) : OptionParams :=
  mkOptionParams db_service_id parent_db_id
    (to_nullable_str (c_option_type orow)) (to_nullable_str (c_option_name orow))
    (to_nullable_str (c_option_label orow)) (to_nullable_str (c_option_value orow))
    (to_nullable_decimal (c_price_modifier orow))
    (to_nullable_int (c_min_value orow)) (to_nullable_int (c_max_value orow))
    (to_nullable_str (c_default_value orow))
    (to_nullable_int (c_is_required orow)) (to_nullable_int (c_display_order orow))
    (to_nullable_int (c_is_active orow))
    (to_nullable_str (c_created_at orow)) (to_nullable_str (c_updated_at orow)).

(** [insert_one_option] *)
Definition insert_one_option (db_service_id : Z) (orow : OptionCsv)
    (parent_db_id : option Z) : M Z :=
  execute_insert_option (option_params db_service_id parent_db_id orow).

(** [pd.to_numeric(col, errors="coerce").fillna(0).astype(int)]: the integer
    of one value of a column; pandas picks the number type for the column as
    a whole, so the column is an argument too.  It raises on a non-finite
    value *)
Variable to_numeric_int : list string -> string -> Res Z.

(** one annotated column *)
Definition numeric_column (col : OptionCsv -> string) (rows : list OptionCsv)
  : Res (list Z) :=
  let column := map col rows in
  mapM_res (to_numeric_int column) column.

(** [parents.sort_values(["display_order_int", "option_id_int"], kind="stable")] *)
Definition sort_parents (rows : list OptionCsv) : Res (list OptionCsv) :=
  bind (numeric_column c_display_order rows) (fun ds =>
  bind (numeric_column c_option_id rows) (fun ids =>
  Ok (map snd (sort_values le2 fst (zip (zip ds ids) rows))))).

(** [children.sort_values(["parent_option_id_int", "display_order_int",
    "option_id_int"], kind="stable")] *)
Definition sort_children (rows : list OptionCsv) : Res (list OptionCsv) :=
  bind (numeric_column c_parent_option_id rows) (fun ps =>
  bind (numeric_column c_display_order rows) (fun ds =>
  bind (numeric_column c_option_id rows) (fun ids =>
  Ok (map snd (sort_values le3 fst (zip (zip (zip ps ds) ids) rows)))))).

(** the body of the parents loop *)
Definition insert_parent (db_service_id : Z) (id_map : gmap string Z)
    (prow : OptionCsv) : M (gmap string Z) :=
  mbind (insert_one_option db_service_id prow None) (fun new_id =>
  mbind count_option (fun _ =>
  ret (<[c_option_id prow := new_id]> id_map))).

(** [id_map.get(csv_parent)], then [if not parent_db_id] *)
Definition resolve_parent (id_map : gmap string Z) (csv_parent : string)
  : option Z :=
  match id_map !! csv_parent with
  | Some id => if id =? 0 then None else Some id
  | None => None
  end.

(** the body of the children loop *)
Definition insert_child (db_service_id : Z) (id_map : gmap string Z)
    (crow : OptionCsv) : M (gmap string Z) :=
  let csv_parent := Py.strip (c_parent_option_id crow) in
  let parent_db_id := resolve_parent id_map csv_parent in
  mbind (match parent_db_id with
         | None => print (MissingParent (c_option_id crow) csv_parent)
         | Some _ => ret tt
         end) (fun _ =>
  mbind (insert_one_option db_service_id crow parent_db_id) (fun new_id =>
  mbind count_option (fun _ =>
  ret (<[c_option_id crow := new_id]> id_map)))).

Fixpoint foldM {A S} (f : S -> A -> M S) (xs : list A) (s : S) : M S :=
  match xs with
  | [] => ret s
  | x :: r => mbind (f s x) (foldM f r)
  end.

(** the options of one service row *)
Definition options_of (df_services : ServicesFrame) (df_options_all : list OptionCsv)
    (srow : ServiceCsv) : Res (list OptionCsv) :=
  if has_csv_service_id df_services then
    let csv_sid := Py.strip (s_service_id srow) in
    Ok (List.filter (fun o => String.eqb (c_service_id o) csv_sid) df_options_all)
  else if (1 <? length (service_rows df_services))%nat then
    Raise (RuntimeError "Multiple services but no service_id column in services.csv")
  else Ok df_options_all.

(** the split into parents and children,
    [df_opts_raw[df_opts_raw.apply(is_parent_row, axis=1)]] and its
    complement. On a selection without rows the row-wise [apply] gives no
    boolean mask: both frames come out without columns, and the first
    column read, [parents["display_order"]], raises [KeyError] *)
Definition split_parents_children (df_opts_raw : list OptionCsv)
  : Res (list OptionCsv * list OptionCsv) :=
  match df_opts_raw with
  | [] => Raise (KeyError "display_order")
  | _ =>
      Ok (List.filter is_parent_row df_opts_raw,
          List.filter (fun o => negb (is_parent_row o)) df_opts_raw)
  end.

(** steps 1 to 4 of one iteration of the services loop: the service row,
    then the parents, then the children; the result is [db_service_id] and
    [len(df_opts_raw)] *)
Definition import_rows (df_services : ServicesFrame)
    (df_options_all : list OptionCsv) (srow : ServiceCsv) : M (Z * nat) :=
  mbind start_transaction (fun _ =>
  mbind (insert_service srow) (fun db_service_id =>
  mbind (lift (options_of df_services df_options_all srow)) (fun df_opts_raw =>
  mbind (lift (split_parents_children df_opts_raw)) (fun split =>
  mbind (lift (sort_parents (fst split))) (fun parents =>
  mbind (lift (sort_children (snd split))) (fun children =>
  mbind (foldM (insert_parent db_service_id) parents ∅) (fun id_map =>
  mbind (foldM (insert_child db_service_id) children id_map) (fun _ =>
  ret (db_service_id, length df_opts_raw))))))))).

(** one iteration of the services loop, [start_transaction] to [commit] *)
Definition import_service (df_services : ServicesFrame)
    (df_options_all : list OptionCsv) (srow : ServiceCsv) : M unit :=
  mbind (import_rows df_services df_options_all srow) (fun done =>
  mbind commit (fun _ =>
  mbind count_service (fun _ =>
  print (Imported (s_name srow) (fst done) (snd done))))).

(** the services loop *)
Fixpoint import_loop (df_services : ServicesFrame) (df_options_all : list OptionCsv)
    (srows : list ServiceCsv) : M unit :=
  match srows with
  | [] => ret tt
  | srow :: rest =>
      mbind (import_service df_services df_options_all srow)
            (fun _ => import_loop df_services df_options_all rest)
  end.

(** [import_csv_to_database], on an open connection: the loop inside
    [try], the handler that rolls back and re-raises *)
Definition import_csv_to_database (df_services : ServicesFrame)
    (df_options_all : list OptionCsv) : M unit :=
  match service_rows df_services with
  | [] => print NoServices
  | srows =>
      let df_options_all := clean_option_types df_options_all in
      fun d =>
        match import_loop df_services df_options_all srows d with
        | (d', Ok _) =>
            print (Complete (imported_services d') (imported_options d')) d'
        | (d', Raise e) =>
            mbind (print (RolledBack e)) (fun _ => throw e) (rollback d')
        end
  end.

End Storage.

(** ** Vocabulary of the statements *)

(** [raw.strip().lstrip('+').strip()] *)
Definition trimmed (raw : string) : string :=
  Py.strip (Py.lstrip_char "+" (Py.strip raw)).

(** a type that one normalization leaves without surrounding white space
    and without a [_value] suffix *)
Definition settled (t : string) : Prop :=
  Py.strip (normalize_option_type t) = normalize_option_type t
  /\ Py.endswith (normalize_option_type t) "_value" = false.

(** the option types the writers emit *)
Definition emitted_types : list string :=
  ["slider"; "range"; "slider_value"; "range_value"; "radio"; "checkbox";
   "dropdown"].

Section Batches.
Context {F : Type}.

(** the rows a list of makers yields from a cursor position *)
Fixpoint number (mks : list (Z -> Z -> OptionRow F)) (oid disp : Z)
  : list (OptionRow F) :=
  match mks with
  | [] => []
  | mk :: r => mk oid disp :: number r (oid + 1) (disp + 1)
  end.

(** the rows of one written group: the group row, numbered [start] and
    hanging under [parent], followed by its choice rows, which hang under
    the group row *)
Definition block (parent : option Z) (start : Z) (new : list (OptionRow F))
  : Prop :=
  match new with
  | [] => True
  | p :: cs =>
      option_id p = start /\ parent_option_id p = parent /\ is_group_row p
      /\ Forall (fun c => parent_option_id c = Some start /\ ~ is_group_row c) cs
  end.

(** every parent is an earlier row of the batch, every row without a
    parent is a group row *)
Definition tree_ok (rows : list (OptionRow F)) : Prop :=
  forall (i : nat) (r : OptionRow F),
    rows !! i = Some r ->
    match parent_option_id r with
    | None => is_group_row r
    | Some p =>
        exists (j : nat) (q : OptionRow F),
          (j < i)%nat /\ rows !! j = Some q /\ option_id q = p
    end.

(** what a writer has to establish: a group row first, choice rows after *)
Definition group_maker (parent : option Z) (ty : string)
    (mk : Z -> Z -> OptionRow F) : Prop :=
  forall i d, option_id (mk i d) = i /\ parent_option_id (mk i d) = parent
              /\ is_group_row (mk i d) /\ option_type (mk i d) = ty.

Definition choice_maker (start : Z) (ty : string)
    (mk : Z -> Z -> OptionRow F) : Prop :=
  forall i d, parent_option_id (mk i d) = Some start /\ ~ is_group_row (mk i d)
              /\ option_type (mk i d) = ty.

(** the outcome of a writer call: the cursor moves by the number of rows
    appended, which form a block under [parent] *)
Definition appends_block (parent : option Z) (start disp : Z)
    (rows : list (OptionRow F))
    (out : Z * Z * option Z * list (OptionRow F)) : Prop :=
  exists new,
    out = (start + Z.of_nat (length new), disp + Z.of_nat (length new),
           match new with [] => None | _ => Some start end, rows ++ new)
    /\ block parent start new
    /\ Forall (fun r => In (option_type r) emitted_types) new.

(** well formed: a tree, with emitted option types only *)
Definition batch_ok (rows : list (OptionRow F)) : Prop :=
  tree_ok rows /\ Forall (fun r => In (option_type r) emitted_types) rows.

End Batches.

(** what precedes and follows an item in a joined string *)
Definition join_before (sep : string) (pre : list string) : string :=
  fold_right (fun x acc => x +:+ sep +:+ acc) "" pre.

Definition join_after (sep : string) (post : list string) : string :=
  match post with
  | [] => ""
  | _ => sep +:+ Py.join sep post
  end.


(** *** Signature content, in the words of the specification *)

(** a visible choice: its label, its underlying value, its price text *)
Definition Choice : Type := string * string * string.

Definition format_choice (c : Choice) : string :=
  fst (fst c) +:+ "|" +:+ snd (fst c) +:+ "|" +:+ snd c.

(** the canonical string of a choice group: kind, label slug, and the
    choices joined in document order *)
Definition choices_canonical (kind slug : string) (cs : list Choice) : string :=
  kind +:+ "|" +:+ slug +:+ "|items:" +:+ Py.join "||" (map format_choice cs).

(** the visible radio options that have an input *)
Definition radio_choice (ro : RadioOption) : option Choice :=
  if ro_visible ro then
    match ro_inputs ro with
    | inp :: _ =>
        Some (radio_label ro, Py.or_else (in_value inp) "", first_text (ro_price_q ro))
    | [] => None
    end
  else None.

(** the visible checkboxes *)
Definition checkbox_choice (co : CheckboxOption) : option Choice :=
  if co_visible co then
    Some (checkbox_label co, checkbox_sig_value co, first_text (co_price_q co))
  else None.

(** the labels of the visible buttons *)
Definition visible_button_labels (bs : list Button) : list string :=
  map button_label (List.filter btn_visible bs).

(** the range branch is not taken *)
Definition skips_range (g : GroupEl) : Prop :=
  g_range_q g = [] \/ g_visible g = false.

(** two choices that differ in exactly one of label, value, price text *)
Definition differ_in_one (c c' : Choice) : Prop :=
  (fst (fst c) <> fst (fst c') /\ snd (fst c) = snd (fst c') /\ snd c = snd c')
  \/ (fst (fst c) = fst (fst c') /\ snd (fst c) <> snd (fst c') /\ snd c = snd c')
  \/ (fst (fst c) = fst (fst c') /\ snd (fst c) = snd (fst c') /\ snd c <> snd c').

(** [sub in s] *)
Fixpoint is_infix (sub s : string) : bool :=
  String.prefix sub s
  || match s with
     | String _ r => is_infix sub r
     | EmptyString => false
     end.

(** the classifier's kind *)
Definition kind_of (g : GroupEl) : string := fst (fst (group_kind_and_canonical g)).

(** knobs and numeric inputs, as [detect_slider_kind] counts them *)
Definition knob_count (g : GroupEl) : nat := sum_list (map rc_knobs (g_range_q g)).

Definition numeric_input_count (g : GroupEl) : nat :=
  length (List.filter is_number_input (flat_map cluster_inputs (g_range_q g))).

(** *** Storage *)

Section StorageVocabulary.
Context {F : Type}.

(** the owning-collection id a statement names *)
Definition stmt_game_id (s : Stmt (F := F)) : option Z :=
  match s with
  | SelectService game_id _ => Some game_id
  | InsertService p => Some (sp_game_id p)
  | _ => None
  end.

(** an inserted option row without its parent link *)
Definition without_parent (p : OptionParams (F := F)) : OptionParams :=
  mkOptionParams (op_service_id p) None (op_option_type p) (op_option_name p)
    (op_option_label p) (op_option_value p) (op_price_modifier p)
    (op_min_value p) (op_max_value p) (op_default_value p) (op_is_required p)
    (op_display_order p) (op_is_active p) (op_created_at p) (op_updated_at p).

(** from [d] to [d'] nothing was committed and the session's view gained
    the rows [svcs] and [opts], in this order *)
Definition grows (d d' : Db (F := F)) (svcs : list (Z * ServiceParams))
    (opts : list (Z * OptionParams)) : Prop :=
  committed d' = committed d
  /\ t_services (working d') = t_services (working d) ++ svcs
  /\ t_options (working d') = t_options (working d) ++ opts.

(** a computation that commits nothing *)
Definition calm {A} (m : M (F := F) A) : Prop :=
  forall d d' r, m d = (d', r) -> committed d' = committed d.

(** a session without uncommitted rows *)
Definition clean (d : Db (F := F)) : Prop := working d = committed d.

(** a computation that returns from every state *)
Definition succeeds {A} (m : M (F := F) A) : Prop :=
  forall d, exists d' a, m d = (d', Ok a).

End StorageVocabulary.

(** a service row with another [game_id] column *)
Definition with_game_id (row : ServiceCsv) (game_id : string) : ServiceCsv :=
  mkServiceCsv (s_service_id row) game_id (s_name row) (s_description row)
    (s_price_per_unit row) (s_sale_price row) (s_icon_url row) (s_category row)
    (s_game_name row).

(** ** A worked page

    The scenario of the specification: a range group (scale 1 to 60,
    defaults 1 and 10), the radio group Difficulty (Easy, Normal, Hard),
    and a checkbox group that only selecting Hard reveals. The session
    state is the value selected last. *)
Module Demo.

(** a stand-in for SHA-256: never empty *)
Definition digest (s : string) : string := "sha:" +:+ s.

Definition clock (n : nat) : string := "2025-01-01 00:00:00".

Definition number_input (v : string) : InputEl := mkInput (Some "number") (Some v) false.

Definition hours : GroupEl :=
  mkGroup true ["Number of Hours"]
    [mkRange 2 ["1"; "20"; "40"; "60"]
       [mkContainer ["From"] [number_input "1"];
        mkContainer ["To"] [number_input "10"]]]
    [] [] [] [] "<div class='product-option'>hours</div>".

Definition radio (label value price : string) (checked : bool) : RadioOption :=
  mkRadio true (label +:+ " " +:+ price)
    [mkInput (Some "radio") (Some value) checked] [label] [price].

Definition difficulty : GroupEl :=
  mkGroup true ["Difficulty"] []
    [[radio "Easy" "easy" "Free" true; radio "Normal" "normal" "+10%" false;
      radio "Hard" "hard" "+6,43 €" false]]
    [] [] [] "<div class='product-option'>difficulty</div>".

Definition extras : GroupEl :=
  mkGroup true ["Hardcore Extras"] [] [] []
    [[mkCheck true "Flawless +5 €" ["Flawless"]
        [mkInput (Some "checkbox") (Some "flawless") false] ["+5 €"]]]
    [] "<div class='product-option'>extras</div>".

Definition shown (g : GroupEl) : OptionGroup := mkOptionGroup true [g].

Definition groups_of (selected : string) : list OptionGroup :=
  if String.eqb selected "hard" then [shown hours; shown difficulty; shown extras]
  else [shown hours; shown difficulty].

Definition click (selected value : string) : option string := Some value.

Definition batch : list (OptionRow DecFloat.pyfloat) :=
  extract_options_with_snapshots_fixed digest clock string (fun _ => true)
    groups_of click 1 7 "".

(** the engine as the baseline leaves it *)
Definition baseline_engine : Engine (F := DecFloat.pyfloat) :=
  let '(sigs, bgs) := baseline_scan digest (groups_of "") in
  let '(oid, disp, rows) :=
    fold_left (write_baseline clock 7) bgs (1, 1, []) in
  mkEngine sigs oid disp rows.

(** A page with two radio groups whose labels start alike, Difficulty
    (Normal, Heroic) and Difficulty Mode (Solo, Group), the inputs of both
    valued 1 and 2, and the checkbox group that selecting Heroic reveals *)
Definition levels : GroupEl :=
  mkGroup true ["Difficulty"] []
    [[radio "Normal" "1" "Free" true; radio "Heroic" "2" "+10%" false]]
    [] [] [] "<div class='product-option'>difficulty</div>".

Definition level_mode : GroupEl :=
  mkGroup true ["Difficulty Mode"] []
    [[radio "Solo" "1" "Free" true; radio "Group" "2" "+20%" false]]
    [] [] [] "<div class='product-option'>difficulty mode</div>".

Definition groups_with_mode (selected : string) : list OptionGroup :=
  if String.eqb selected "2" then [shown levels; shown level_mode; shown extras]
  else [shown levels; shown level_mode].

Definition batch_with_mode : list (OptionRow DecFloat.pyfloat) :=
  extract_options_with_snapshots_fixed digest clock string (fun _ => true)
    groups_with_mode click 1 7 "".

(** a buttons group whose second button has the given [value] attribute *)
Definition mode_buttons (value : string) : GroupEl :=
  mkGroup true ["Mode"] [] []
    [[Grouped [mkButton true "Solo Play" ["Solo Play"] (Some "1");
               mkButton true "Duo" ["Duo"] (Some value)]]]
    [] [] "<div class='product-option'>mode</div>".

(** the group row of the revealed checkbox group, as extracted *)
Definition extras_group_row : OptionRow DecFloat.pyfloat :=
  mkRow 8 7 (Some 7) "checkbox" "hardcore_extras" "Hardcore Extras" None
        (DecFloat.Fin 0) None None None 0 8 1 (clock 7) (clock 7).

(** a row whose option type carries the suffix twice *)
Definition odd_row : OptionRow DecFloat.pyfloat :=
  set_option_type extras_group_row "radio_value_value".

(** a group with a two-knob range cluster that is not displayed *)
Definition hidden_hours : GroupEl :=
  mkGroup false (g_label_q hours) (g_range_q hours) [] [] [] []
    (g_outer_html hours).

(** two services; the second has a child whose parent is in no row *)
Definition service (id name : string) : ServiceCsv :=
  mkServiceCsv id "7" name "" "10.00" "" "" "Destiny 2" "Destiny 2".

Definition option_row (id sid parent ty name order : string) : OptionCsv :=
  mkOptionCsv id sid parent ty name name "" "0.00" "" "" "" "1" order "1"
    "2025-01-01 00:00:00" "2025-01-01 00:00:00".

Definition services : ServicesFrame :=
  mkServicesFrame true [service "1" "Raid Carry"; service "2" "Dungeon Run"].

Definition orphan : OptionCsv := option_row "5" "2" "99" "checkbox" "orphan" "3".

(** the first service and a service that has no option row *)
Definition bare_services : ServicesFrame :=
  mkServicesFrame true [service "1" "Raid Carry"; service "3" "Bare"].

Definition options : list OptionCsv :=
  [option_row "1" "1" "" "radio" "difficulty" "1";
   option_row "2" "1" "1" "radio" "difficulty_easy" "2";
   option_row "3" "2" "" "slider" "hours" "1";
   option_row "4" "2" "3" "slider_value" "hours_value" "2";
   orphan].

(** a storage that refuses the option named [orphan] *)
Definition refuses_orphan (t : list (Stmt (F := DecFloat.pyfloat)))
    (s : Stmt (F := DecFloat.pyfloat)) : bool :=
  match s with
  | InsertOption p =>
      match op_option_name p with
      | Some n => String.eqb n "orphan"
      | None => false
      end
  | _ => false
  end.

(** a storage that refuses nothing *)
Definition accepts_all (t : list (Stmt (F := DecFloat.pyfloat)))
    (s : Stmt (F := DecFloat.pyfloat)) : bool := false.

(** integers as written, anything else coerced to 0 *)
Definition to_int (column : list string) (s : string) : Res Z :=
  match Py.int_of_str s with
  | Ok z => Ok z
  | Raise _ => Ok 0
  end.

Definition empty_store : Db (F := DecFloat.pyfloat) := connect (mkTables [] []) 1 1.

(** the session after the first service went through *)
Definition after_first (fails : list Stmt -> Stmt -> bool) : Db :=
  fst (import_loop fails String.eqb to_int services (clean_option_types options)
         [service "1" "Raid Carry"] empty_store).

End Demo.

(** * The code around the statements *)

(** ** Variants of the text utilities *)

(** white space only *)
Fixpoint all_space (s : string) : bool :=
  match s with
  | EmptyString => true
  | String c r => Py.isspace c && all_space r
  end.

(** single spaces only: every white space character is a space that is
    not followed by white space *)
Fixpoint single_spaced (s : string) : bool :=
  match s with
  | EmptyString => true
  | String c r =>
      (if Py.isspace c then
         Ascii.eqb c " "
         && match r with
            | String c' _ => negb (Py.isspace c')
            | EmptyString => true
            end
       else true)
      && single_spaced r
  end.

Definition starts_with_space (s : string) : bool :=
  match s with
  | String c _ => Py.isspace c
  | EmptyString => false
  end.

Module Overgear.

(** [overgear_scraper_selenium.clean_text]:
    [re.sub(r"\s+", " ", (s or "").strip())] *)
Definition clean_text (s : string) : string :=
  Py.collapse_ws false (Py.strip s).

Section Money.
Context {F : Type} `{PyFloatOps F}.

(** [overgear_scraper_selenium.parse_money] *)
Definition parse_money (txt : string) : string * option string :=
  match txt with
  | EmptyString => ("", None)
  | _ =>
      let t := Py.strip txt in
      let currency := if Py.startswith t "$" then Some "USD" else None in
      let num := fix_separators (Py.filter price_char t) in
      try_except (bind (py_float num) (fun x => Ok (format_2f x, currency)))
                 ("", currency)
  end.

End Money.

End Overgear.

(** [scrapper_db.BASE_URL] *)
Definition BASE_URL : string := "https://skycoach.gg".

(** [scrapper_db.normalize_url] *)
Definition normalize_url (href : string) : string :=
  match href with
  | EmptyString => href
  | _ =>
      let href := Py.strip href in
      if Py.startswith href "/" then BASE_URL +:+ href else href
  end.

(** ** The CSV files ([complete_code.py])

    A CSV file is its list of lines, each line the texts of its cells;
    the first line is the header. Writing a line and reading it back
    gives the same cells. *)
Definition CsvFile : Type := list (list string).

(** the two files; [None]: there is no such file *)
Record Files : Type := mkFiles {
  services_csv : option CsvFile;    (* [SERVICES_CSV] *)
  options_csv : option CsvFile      (* [SERVICE_OPTIONS_CSV] *)
}.

Definition services_header : list string :=
  ["service_id"; "game_id"; "name"; "description"; "price_per_unit";
   "sale_price"; "icon_url"; "category"; "game_name"].

Definition options_header : list string :=
  ["option_id"; "service_id"; "parent_option_id"; "option_type"; "option_name";
   "option_label"; "option_value"; "price_modifier"; "min_value"; "max_value";
   "default_value"; "is_required"; "display_order"; "is_active"; "created_at";
   "updated_at"].

(** [reset_csv_files] *)
Definition reset_csv_files (fs : Files) : Files :=
  mkFiles (Some [services_header]) (Some [options_header]).

(** [ensure_services_csv] *)
Definition ensure_services_csv (fs : Files) : Files :=
  match services_csv fs with
  | None => reset_csv_files fs
  | Some _ => fs
  end.

(** [ensure_options_csv] *)
Definition ensure_options_csv (fs : Files) : Files :=
  match options_csv fs with
  | None => reset_csv_files fs
  | Some _ => fs
  end.

(** [csv.DictReader]: the value of a row under a field name. A row
    shorter than the header is filled with [None]; of two fields of the
    same name the later one wins; the outer [None] is a KeyError. *)
Definition dict_get (fieldnames row : list string) (name : string)
  : option (option string) :=
  let padded :=
    map Some row ++ replicate (length fieldnames - length row)%nat None in
  snd <$> last (List.filter (fun p => String.eqb (fst p) name)
                            (zip fieldnames padded)).

Definition is_blank (row : list string) : bool :=
  match row with
  | [] => true
  | _ => false
  end.

(** the values [row[name]] over the rows of a [csv.DictReader], blank
    lines skipped; [None] where the lookup raises or gives [None] *)
Definition column (name : string) (f : CsvFile) : list (option string) :=
  match f with
  | [] => []
  | fieldnames :: rows =>
      map (fun row => mjoin (dict_get fieldnames row name))
          (List.filter (fun row => negb (is_blank row)) rows)
  end.

(** the loop [mx = max(mx, int(row[name]))] under [try]/[except: pass],
    then [mx + 1] *)
Definition next_id (cells : list (option string)) : Z :=
  fold_left
    (fun mx cell =>
       match cell with
       | Some s => try_except (bind (Py.int_of_str s) (fun n => Ok (Z.max mx n))) mx
       | None => mx
       end)
    cells 0
  + 1.

Definition file_lines (f : option CsvFile) : CsvFile :=
  match f with
  | Some lines => lines
  | None => []
  end.

(** cells of ASCII text, on which [Py.int_of_str] is [int] *)
Definition ascii_cells (cells : list (option string)) : Prop :=
  Forall (fun cell => forall s, cell = Some s -> Py.isascii s = true) cells.

(** [get_next_service_id_from_services_csv]: the file is there once
    [ensure_services_csv] has run *)
Definition get_next_service_id_from_services_csv (fs : Files) : Files * Z :=
  let fs := ensure_services_csv fs in
  (fs, next_id (column "service_id" (file_lines (services_csv fs)))).

(** [get_next_option_id_from_options_csv] *)
Definition get_next_option_id_from_options_csv (fs : Files) : Files * Z :=
  let fs := ensure_options_csv fs in
  (fs, next_id (column "option_id" (file_lines (options_csv fs)))).

(** what [csv.writer] writes for [None], an [int], a [str] *)
Definition cell_of_opt_int (v : option Z) : string :=
  match v with
  | Some n => Py.str_of_int n
  | None => ""
  end.

Definition cell_of_opt_str (v : option string) : string :=
  match v with
  | Some s => s
  | None => ""
  end.

Section Append.
Context {F : Type} `{PyFloatOps F}.

(** the row [append_options] writes for an option row, as the importer
    reads it back *)
Definition csv_row_of (o : OptionRow F) : OptionCsv :=
  mkOptionCsv
    (Py.str_of_int (option_id o)) (Py.str_of_int (service_id o))
    (cell_of_opt_int (parent_option_id o))
    (option_type o) (option_name o) (option_label o)
    (cell_of_opt_str (option_value o))
    (format_2f (price_modifier o))
    (cell_of_opt_int (min_value o)) (cell_of_opt_int (max_value o))
    (cell_of_opt_str (default_value o))
    (Py.str_of_int (is_required o)) (Py.str_of_int (display_order o))
    (Py.str_of_int (is_active o)) (created_at o) (updated_at o).

Definition cells_of (c : OptionCsv) : list string :=
  [c_option_id c; c_service_id c; c_parent_option_id c; c_option_type c;
   c_option_name c; c_option_label c; c_option_value c; c_price_modifier c;
   c_min_value c; c_max_value c; c_default_value c; c_is_required c;
   c_display_order c; c_is_active c; c_created_at c; c_updated_at c].

(** [append_options] *)
Definition append_options (rows : list (OptionRow F)) (fs : Files) : Files * nat :=
  match rows with
  | [] => (fs, 0%nat)
  | _ =>
      let fs := ensure_options_csv fs in
      (mkFiles (services_csv fs)
               (Some (file_lines (options_csv fs)
                      ++ map (fun o => cells_of (csv_row_of o)) rows)),
       length rows)
  end.

End Append.

(** a digit string *)
Fixpoint all_digits (s : string) : bool :=
  match s with
  | EmptyString => true
  | String c r => Py.isdigit c && all_digits r
  end.

(** the options file, if there is one, has the header of this program *)
Definition options_headed (fs : Files) : Prop :=
  match options_csv fs with
  | Some f => exists rows, f = options_header :: rows
  | None => True
  end.

(** ** Vocabulary of the further statements *)

(** a row maker that takes its [option_id] and [display_order] from the
    cursor and stamps the service and the time of the writer call *)
Definition stamped {F} (sid : Z) (now : string) (mk : Z -> Z -> OptionRow F) : Prop :=
  forall i d,
    option_id (mk i d) = i /\ display_order (mk i d) = d
    /\ service_id (mk i d) = sid /\ is_active (mk i d) = 1
    /\ created_at (mk i d) = now /\ updated_at (mk i d) = now.

(** the cursor [(oid, disp)] after [rows], which are numbered from [next]
    and from 1 *)
Definition numbered {F} (next sid : Z) (rows : list (OptionRow F)) (oid disp : Z)
  : Prop :=
  oid = next + Z.of_nat (length rows) /\ disp = 1 + Z.of_nat (length rows)
  /\ forall (i : nat) (r : OptionRow F),
       rows !! i = Some r ->
       option_id r = next + Z.of_nat i /\ display_order r = 1 + Z.of_nat i
       /\ service_id r = sid /\ is_active r = 1 /\ created_at r = updated_at r.

(** the outcome of a writer call at time [now]: the rows appended are
    numbered from the cursor and stamped *)
Definition appends_numbered {F} (now : string) (sid start disp : Z)
    (rows : list (OptionRow F))
    (out : Z * Z * option Z * list (OptionRow F)) : Prop :=
  exists mks,
    fst (fst (fst out)) = start + Z.of_nat (length mks)
    /\ snd (fst (fst out)) = disp + Z.of_nat (length mks)
    /\ snd out = rows ++ number mks start disp
    /\ Forall (stamped sid now) mks.

(** the key under which the signature of a scanned group is recorded *)
Definition key_of (b : GroupEl * string * string) : string * string :=
  (snd (fst b), snd b).

Section ScanVocabulary.
Variable h : string -> string.

(** the body of the baseline scan *)
Definition scan_step (acc : gmap (string * string) string
                            * list (GroupEl * string * string))
    (g : OptionGroup) :=
  match visible_inner g with
  | None => acc
  | Some el =>
      let '(kind, label, sig) := group_kind_and_signature h el in
      (<[(kind, label) := sig]> (fst acc), snd acc ++ [(el, kind, label)])
  end.

(** the recorded signature of every scanned group is its own *)
Definition recorded (m : gmap (string * string) string)
    (bgs : list (GroupEl * string * string)) : Prop :=
  forall el kind label,
    (el, kind, label) ∈ bgs ->
    exists sig, group_kind_and_signature h el = (kind, label, sig)
                /\ m !! (kind, label) = Some sig.

End ScanVocabulary.

Section BaselineVocabulary.
Context {F : Type} `{PyFloatOps F}.

(** the rows the baseline pass writes for the groups of a page *)
Definition baseline_rows (h : string -> string) (now_at : nat -> string)
    (groups : list OptionGroup) (next_option_id sid : Z) : list (OptionRow F) :=
  snd (fold_left (write_baseline now_at sid) (snd (baseline_scan h groups))
                 (next_option_id, 1, [])).

(** the [(kind, label)] keys of the visible groups of a page *)
Definition baseline_keys (h : string -> string) (groups : list OptionGroup)
  : list (string * string) :=
  map key_of (snd (baseline_scan h groups)).

End BaselineVocabulary.

(** the rows after [rows0] all hang under a parent *)
Definition grown_under {F} (rows0 rows : list (OptionRow F)) : Prop :=
  exists extra, rows = rows0 ++ extra
                /\ Forall (fun r => parent_option_id r <> None) extra.

(** the last row of [rows] that the trigger map takes for the value [v]:
    a radio row of the service named [difficulty_...] whose value prints
    as [v], with no such row after it *)
Definition last_trigger_row {F} (sid : Z) (rows : list (OptionRow F))
    (v : string) (q : OptionRow F) : Prop :=
  exists pre post,
    rows = pre ++ q :: post
    /\ is_trigger_choice_row sid q = true
    /\ Py.str_of_opt (option_value q) = v
    /\ Forall (fun r => is_trigger_choice_row sid r = true ->
                        Py.str_of_opt (option_value r) <> v) post.

(** the group rows after [rows0] hang under rows the map [ids] gives for
    one of the values [vals] *)
Definition hung_under {F} (ids : gmap string Z) (vals : list string)
    (rows0 rows : list (OptionRow F)) : Prop :=
  exists extra,
    rows = rows0 ++ extra
    /\ Forall (fun r => is_group_row r ->
                        exists v pid, v ∈ vals /\ ids !! v = Some pid
                                      /\ parent_option_id r = Some pid) extra.

(** a page that selecting a trigger value does not change *)
Module StaticDemo.

Definition groups_of (selected : string) : list OptionGroup :=
  [Demo.shown Demo.hours; Demo.shown Demo.difficulty].

Definition batch : list (OptionRow DecFloat.pyfloat) :=
  extract_options_with_snapshots_fixed Demo.digest Demo.clock string
    (fun _ => true) groups_of Demo.click 1 7 "".

End StaticDemo.

(** the loop of [next_id], from a running maximum *)
Definition max_id_from (mx : Z) (cells : list (option string)) : Z :=
  fold_left
    (fun mx cell =>
       match cell with
       | Some s => try_except (bind (Py.int_of_str s) (fun n => Ok (Z.max mx n))) mx
       | None => mx
       end)
    cells mx.

Section ScrapeOptions.
Context {F : Type} `{PyFloatOps F}.
Variable h : string -> string.
Variable now_at : nat -> string.
Variable St : Type.
Variable has_container : St -> bool.
Variable groups_of : St -> list OptionGroup.
Variable click : St -> string -> option St.

(** the option part of [scrape_and_save_to_csv_fixed]:
    [rows = extract_options_with_snapshots_fixed(driver, service_id)],
    which starts by reading the next option id from the options file,
    [rows = normalize_option_types_in_rows(rows)],
    [n = append_options(rows)] *)
Definition scrape_options (service_id : Z) (st : St) (fs : Files) : Files * nat :=
  let '(fs, next_option_id) := get_next_option_id_from_options_csv fs in
  let rows :=
    extract_options_with_snapshots_fixed h now_at St has_container groups_of
      click next_option_id service_id st in
  let rows := normalize_option_types_in_rows rows in
  append_options rows fs.

End ScrapeOptions.

(** the kinds the writer knows *)
Definition written_kinds : list string :=
  ["slider"; "range"; "radio"; "buttons"; "checkbox"; "select"].

(** a group in which the classifier finds a cluster it knows *)
Definition recognized (g : GroupEl) : Prop :=
  (g_range_q g <> [] /\ g_visible g = true)
  \/ g_radios_q g <> [] \/ g_buttons_q g <> [] \/ g_checks_q g <> []
  \/ g_select_q g <> [].

(** ** Vocabulary of the statements on the importer *)

(** every element is followed by elements that are not smaller *)
Fixpoint sorted_by {A} (le : A -> A -> bool) (l : list A) : Prop :=
  match l with
  | [] => True
  | x :: r => Forall (fun y => le x y = true) r /\ sorted_by le r
  end.

(** comparing by a key *)
Definition le_on {A K} (le : K -> K -> bool) (key : A -> K) (x y : A) : bool :=
  le (key x) (key y).

(** the position of the first row with the CSV id [key] *)
Fixpoint index_of (key : string) (l : list OptionCsv) : nat :=
  match l with
  | [] => 0%nat
  | o :: r => if String.eqb (c_option_id o) key then 0%nat else S (index_of key r)
  end.

(** the storage id of the row with the CSV id [key], when the rows
    [order] are inserted one after the other from the counter [seq] *)
Definition storage_id (seq : Z) (order : list OptionCsv) (key : string) : Z :=
  seq + Z.of_nat (index_of key order).

Section Linked.
Context {F : Type} `{PyFloatOps F}.

(** a row as it is stored when its parent is linked: a top-level row has
    no parent, any other row the storage id of the row it names *)
Definition linked_params (sid seq : Z) (order : list OptionCsv) (o : OptionCsv)
  : Z * OptionParams :=
  (storage_id seq order (c_option_id o),
   option_params sid
     (if is_parent_row o then None
      else Some (storage_id seq order (Py.strip (c_parent_option_id o))))
     o).

(** the loops over the parents ([child = false]) and over the children
    ([child = true]) as a function: the rows inserted and the id map *)
Fixpoint linked (sid : Z) (child : bool) (m : gmap string Z) (seq : Z)
    (os : list OptionCsv) : list (Z * OptionParams) * gmap string Z :=
  match os with
  | [] => ([], m)
  | o :: r =>
      let parent :=
        if child then resolve_parent m (Py.strip (c_parent_option_id o)) else None in
      let '(new, m') := linked sid child (<[c_option_id o := seq]> m) (seq + 1) r in
      ((seq, option_params sid parent o) :: new, m')
  end.

End Linked.

(** the numeric keys of the rows, read as [int] reads them (0 where it
    does not) *)
Definition int_or_zero (s : string) : Z := try_except (Py.int_of_str s) 0.

Definition key_id (o : OptionCsv) : Z := int_or_zero (c_option_id o).
Definition key_parent (o : OptionCsv) : Z := int_or_zero (c_parent_option_id o).
Definition key_display (o : OptionCsv) : Z := int_or_zero (c_display_order o).

(** the id map after the first [k] of the rows [full] were inserted from
    the counter [seq0] *)
Definition maps_done (seq0 : Z) (full : list OptionCsv) (k : nat)
    (m : gmap string Z) : Prop :=
  forall key,
    m !! key = if (index_of key full <? k)%nat
               then Some (storage_id seq0 full key) else None.

(** the sort key of a child row *)
Definition key3 (o : OptionCsv) : Z * Z * Z := (key_parent o, key_display o, key_id o).

(** the sort key of a top-level row *)
Definition key2 (o : OptionCsv) : Z * Z := (key_display o, key_id o).

(** what the option inserts leave: the services and the committed tables
    as they were, the rows [new] after the options, the counter advanced *)
Definition option_step {F : Type} (d d' : Db (F := F))
    (new : list (Z * OptionParams (F := F))) : Prop :=
  committed d' = committed d
  /\ t_services (working d') = t_services (working d)
  /\ t_options (working d') = t_options (working d) ++ new
  /\ option_seq d' = option_seq d + Z.of_nat (length new).

(** the integer [pd.to_numeric(...).fillna(0).astype(int)] gives the cell
    of the row [o] in the column [col] of the frame [rows] *)
Definition numeric_key (to_numeric_int : list string -> string -> Res Z)
    (col : OptionCsv -> string) (rows : list OptionCsv) (o : OptionCsv) : Z :=
  try_except (to_numeric_int (map col rows) (col o)) 0.

(** [df_opts_raw[~is_parent]] *)
Definition children_of (raw : list OptionCsv) : list OptionCsv :=
  List.filter (fun o => negb (is_parent_row o)) raw.

(** three levels of one service: a group, one of its values, and a group
    that the value reveals *)
Module LinkDemo.

Definition services : ServicesFrame :=
  mkServicesFrame true [Demo.service "1" "Raid Carry"].

Definition options : list OptionCsv :=
  [Demo.option_row "3" "1" "2" "checkbox" "extras" "3";
   Demo.option_row "2" "1" "1" "radio" "difficulty_hard" "2";
   Demo.option_row "1" "1" "" "radio" "difficulty" "1"].

End LinkDemo.

(** ** The coordinating script ([run_scrape_and_import.py]) *)
Module RunScrape.

(** [ensure_services_csv]: only the services file is created *)
Definition ensure_services_csv (fs : Files) : Files :=
  match services_csv fs with
  | None => mkFiles (Some [services_header]) (options_csv fs)
  | Some _ => fs
  end.

(** [int(row.get("service_id") or 0)] *)
Definition int_or_0 (cell : option string) : Res Z :=
  match cell with
  | Some s => if nonempty s then Py.int_of_str s else Ok 0
  | None => Ok 0
  end.

(** [get_next_service_id_from_services_csv] *)
Definition get_next_service_id_from_services_csv (fs : Files) : Z :=
  match services_csv fs with
  | None => 1
  | Some f =>
      fold_left
        (fun max_id cell =>
           match int_or_0 cell with
           | Ok sid => if max_id <? sid then sid else max_id
           | Raise _ => max_id
           end)
        (column "service_id" f) 0
      + 1
  end.

(** [append_service_row] *)
Definition append_service_row (service_id : Z)
    (name description price_per_unit sale_price icon_url category game_id
       game_name : string) (fs : Files) : Files :=
  let fs := ensure_services_csv fs in
  mkFiles (Some (file_lines (services_csv fs)
                 ++ [[Py.str_of_int service_id; game_id; name; description;
                      price_per_unit; sale_price; icon_url; category; game_name]]))
          (options_csv fs).

(** the services file, if there is one, has the header of this program *)
Definition services_headed (fs : Files) : Prop :=
  match services_csv fs with
  | Some f => exists rows, f = services_header :: rows
  | None => True
  end.

End RunScrape.

(** ** Product links *)

(** the loop [if u not in seen: seen.add(u); deduped.append(u)], which is
    also the order of the keys of [dict.fromkeys]: first occurrences *)
Fixpoint dedupe_from (seen : gset string) (l : list string) : list string :=
  match l with
  | [] => []
  | u :: r =>
      if decide (u ∈ seen) then dedupe_from seen r
      else u :: dedupe_from ({[u]} ∪ seen) r
  end.

Definition dedupe (l : list string) : list string := dedupe_from ∅ l.

(** the body of the inner loop of [extract_product_links_from_page] on
    [link.get('href')]: the link appended, if any *)
Definition product_link (href : option string) : option string :=
  match href with
  | None => None
  | Some href =>
      if nonempty href then
        let href :=
          if Py.startswith href "/" then "https://skycoach.gg" +:+ href else href in
        if is_infix "/products/" href && Py.startswith href "https://skycoach.gg/"
        then Some href else None
      else None
  end.

(** [extract_product_links_from_page], on the outcome of the request:
    for each of the four selectors, in order, the [href] attributes of the
    elements it selects *)
Definition extract_product_links_from_page
    (page : Res (list (list (option string)))) : list string :=
  match page with
  | Ok selected => dedupe (omap product_link (concat selected))
  | Raise _ => []
  end.

(** [scrapper_db.get_nested_links_from_listing], on the outcome of loading
    the listing: the products container if there is one, and for each of
    its [li] elements the [href] of its first link that has one *)
Definition get_nested_links_from_listing
    (page : Res (option (list (option string)))) : list string :=
  match page with
  | Ok (Some items) => dedupe (omap (fmap normalize_url) items)
  | Ok None => []
  | Raise _ => []
  end.

(** * Properties *)

(** ** Price-modifier parsing *)

Lemma parse_modifier_percent {F} `{PyFloatOps F} (raw : string) :
  raw <> "" ->
  Py.endswith (trimmed raw) "%" = true ->
  _parse_modifier (Some raw)
  = mkModifier percent
      <$> float_of_str (Py.replace "," "." (Py.strip (Py.drop_last 1 (trimmed raw)))).
Proof.
  intros Hne Hend. unfold _parse_modifier.
  destruct raw as [| c r]; [congruence |].
  fold (trimmed (String c r)). rewrite Hend. unfold py_float.
  destruct (float_of_str _); reflexivity.
Qed.

Lemma parse_modifier_absolute {F} `{PyFloatOps F} (raw : string) :
  raw <> "" ->
  Py.endswith (trimmed raw) "%" = false ->
  _parse_modifier (Some raw)
  = match Py.filter price_char (trimmed raw) with
    | EmptyString => None
    | num => mkModifier absolute <$> float_of_str (fix_separators num)
    end.
Proof.
  intros Hne Hend. unfold _parse_modifier.
  destruct raw as [| c r]; [congruence |].
  fold (trimmed (String c r)). rewrite Hend. unfold py_float.
  destruct (Py.filter price_char _); [reflexivity |].
  destruct (float_of_str _); reflexivity.
Qed.




(** ** Normalization *)

Lemma normalize_option_type_not_button (t : string) :
  Py.mem (normalize_option_type t) ["button"; "buttons"] = false.
Proof.
  unfold normalize_option_type.
  set (u := if Py.endswith _ _ then _ else _).
  destruct (Py.mem u ["button"; "buttons"]) eqn:E; [reflexivity | exact E].
Qed.

Lemma normalize_option_type_settled (t : string) :
  settled t ->
  normalize_option_type (normalize_option_type t) = normalize_option_type t.
Proof.
  intros [Hs He].
  pose proof (normalize_option_type_not_button t) as Hb.
  set (u := normalize_option_type t) in *.
  unfold normalize_option_type at 1. rewrite Hs, He, Hb. reflexivity.
Qed.

Lemma emitted_types_settled (t : string) : In t emitted_types -> settled t.
Proof.
  unfold emitted_types. simpl.
  intros [<- | [<- | [<- | [<- | [<- | [<- | [<- | []]]]]]]];
    split; vm_compute; reflexivity.
Qed.

Lemma emitted_types_normalized (t : string) :
  In t emitted_types -> In (normalize_option_type t) vocabulary.
Proof.
  unfold emitted_types, vocabulary. simpl.
  intros [<- | [<- | [<- | [<- | [<- | [<- | [<- | []]]]]]]];
    vm_compute; tauto.
Qed.

Lemma vocabulary_clean (t : string) :
  In t vocabulary -> clean_option_type t = t.
Proof.
  unfold vocabulary. simpl.
  intros [<- | [<- | [<- | [<- | [<- | []]]]]]; vm_compute; reflexivity.
Qed.

(** ** The writers emit blocks *)

Section WriterFacts.
Context {F : Type} `{PyFloatOps F}.
Variable now_at : nat -> string.

Implicit Types (rows new : list (OptionRow F)) (mks : list (Z -> Z -> OptionRow F)).

Lemma emit_all_number mks oid disp rows :
  emit_all mks (oid, disp, rows)
  = (oid + Z.of_nat (length mks), disp + Z.of_nat (length mks),
     rows ++ number mks oid disp).
Proof.
  revert oid disp rows. induction mks as [| mk mks IH]; intros oid disp rows.
  - simpl. rewrite app_nil_r, !Z.add_0_r. reflexivity.
  - unfold emit_all in *. simpl fold_left. rewrite IH. simpl number.
    rewrite <- app_assoc. simpl.
    replace (oid + 1 + Z.of_nat (length mks)) with (oid + Z.of_nat (S (length mks))) by lia.
    replace (disp + 1 + Z.of_nat (length mks)) with (disp + Z.of_nat (S (length mks))) by lia.
    reflexivity.
Qed.

Lemma number_Forall (P : OptionRow F -> Prop) mks :
  Forall (fun mk => forall i d, P (mk i d)) mks ->
  forall oid disp, Forall P (number mks oid disp).
Proof.
  induction 1 as [| mk mks Hmk _ IH]; intros oid disp; simpl; constructor; auto.
Qed.

Lemma Forall_omap_some {A B} (P : B -> Prop) (f : A -> option B) (xs : list A) :
  (forall x y, f x = Some y -> P y) -> Forall P (omap f xs).
Proof.
  intros Hf. induction xs as [| x xs IH]; simpl; [constructor |].
  destruct (f x) eqn:E; simpl; [constructor; eauto | assumption].
Qed.

Lemma Forall_imap_all {A B} (P : B -> Prop) (f : nat -> A -> B) (xs : list A) :
  (forall i x, P (f i x)) -> Forall P (imap f xs).
Proof.
  revert f. induction xs as [| x xs IH]; intros f Hf; simpl; constructor; auto.
  apply IH. intros i y. apply Hf.
Qed.

Lemma number_is_block parent start disp pty cty
    (pm : Z -> Z -> OptionRow F) (cms : list (Z -> Z -> OptionRow F)) :
  In pty emitted_types -> In cty emitted_types ->
  group_maker parent pty pm ->
  Forall (choice_maker start cty) cms ->
  block parent start (number (pm :: cms) start disp)
  /\ Forall (fun r => In (option_type r) emitted_types)
            (number (pm :: cms) start disp).
Proof.
  intros Hp Hc Hpm Hcms. simpl. destruct (Hpm start disp) as (H1 & H2 & H3 & H4).
  split.
  - repeat split; try assumption.
    apply number_Forall. eapply Forall_impl; [exact Hcms |].
    intros mk Hmk i d. destruct (Hmk i d) as (? & ? & ?). auto.
  - constructor; [rewrite H4; exact Hp |].
    apply number_Forall. eapply Forall_impl; [exact Hcms |].
    intros mk Hmk i d. destruct (Hmk i d) as (_ & _ & ->). exact Hc.
Qed.

Lemma parent_row_group_maker sid parent ty name label req now :
  group_maker parent ty (parent_row sid parent ty name label req now).
Proof. intros i d. repeat split. Qed.

Lemma length_number mks oid disp : length (number mks oid disp) = length mks.
Proof.
  revert oid disp. induction mks as [| mk mks IH]; intros; simpl; [| rewrite IH]; reflexivity.
Qed.

Lemma emit_block parent start disp rows pty cty
    (pm : Z -> Z -> OptionRow F) (cms : list (Z -> Z -> OptionRow F)) :
  In pty emitted_types -> In cty emitted_types ->
  group_maker parent pty pm ->
  Forall (choice_maker start cty) cms ->
  appends_block parent start disp rows
    (let '(oid, d, r) := emit_all (pm :: cms) (start, disp, rows) in
     (oid, d, Some start, r)).
Proof.
  intros Hp Hc Hpm Hcms. rewrite emit_all_number.
  exists (number (pm :: cms) start disp). split.
  - rewrite length_number. reflexivity.
  - apply (number_is_block _ _ _ pty cty); assumption.
Qed.

Lemma write_radios_block g label parent sid start disp rows :
  appends_block parent start disp rows
    (write_radios now_at g label parent sid start disp rows).
Proof.
  unfold write_radios.
  apply (emit_block _ _ _ _ "radio" "radio");
    [simpl; tauto | simpl; tauto | apply parent_row_group_maker |].
  apply Forall_omap_some. intros ro mk. unfold radio_row.
  destruct (negb (ro_visible ro)); [discriminate |].
  destruct (ro_inputs ro) as [| inp inps]; [discriminate |].
  intros [= <-] i d. repeat split. discriminate.
Qed.

Lemma write_buttons_block g label parent sid start disp rows :
  appends_block parent start disp rows
    (write_buttons_as_radio now_at g label parent sid start disp rows).
Proof.
  unfold write_buttons_as_radio.
  apply (emit_block _ _ _ _ "radio" "radio");
    [simpl; tauto | simpl; tauto | apply parent_row_group_maker |].
  apply Forall_omap_some. intros b mk. unfold button_row.
  destruct (negb (btn_visible b)); [discriminate |].
  intros [= <-] i d. repeat split. discriminate.
Qed.

Lemma write_checkboxes_block g label parent sid start disp rows :
  appends_block parent start disp rows
    (write_checkboxes now_at g label parent sid start disp rows).
Proof.
  unfold write_checkboxes.
  apply (emit_block _ _ _ _ "checkbox" "checkbox");
    [simpl; tauto | simpl; tauto | apply parent_row_group_maker |].
  apply Forall_omap_some. intros co mk. unfold checkbox_row.
  destruct (negb (co_visible co)); [discriminate |].
  destruct (co_inputs co) as [| inp inps]; [discriminate |].
  intros [= <-] i d. repeat split. discriminate.
Qed.

Lemma write_slider_or_range_block g kind label parent sid start disp rows :
  kind = "slider" \/ kind = "range" ->
  appends_block parent start disp rows
    (write_slider_or_range now_at g kind label parent sid start disp rows).
Proof.
  intros Hk. unfold write_slider_or_range.
  destruct (match extract_slider_labels g with
            | [] => _ | [l0] => _ | _ => _ end) as [pname plabel].
  destruct (scale_bounds g) as [lo hi].
  apply (emit_block _ _ _ _ kind (kind +:+ "_value"));
    [destruct Hk as [-> | ->]; simpl; tauto
    |destruct Hk as [-> | ->]; simpl; tauto
    |apply parent_row_group_maker |].
  apply Forall_imap_all. intros n l i d. repeat split. discriminate.
Qed.

Lemma parse_group_to_rows_fixed_block g kind label parent sid start disp rows :
  appends_block parent start disp rows
    (parse_group_to_rows_fixed now_at g kind label parent sid start disp rows).
Proof.
  unfold parse_group_to_rows_fixed.
  destruct (Py.mem kind ["slider"; "range"]) eqn:Hsr.
  { apply write_slider_or_range_block. simpl in Hsr.
    rewrite orb_false_r in Hsr. apply orb_true_iff in Hsr.
    destruct Hsr as [E | E]; apply String.eqb_eq in E; auto. }
  destruct (String.eqb kind "radio"); [apply write_radios_block |].
  destruct (String.eqb kind "buttons"); [apply write_buttons_block |].
  destruct (String.eqb kind "checkbox"); [apply write_checkboxes_block |].
  destruct (String.eqb kind "select").
  - apply (emit_block _ _ _ _ "dropdown" "dropdown");
      [simpl; tauto | simpl; tauto | apply parent_row_group_maker |].
    apply Forall_forall. intros mk Hin.
    apply list_elem_of_In, in_map_iff in Hin as (o & <- & _).
    intros i d. repeat split. discriminate.
  - exists []. rewrite app_nil_r, !Z.add_0_r. repeat split. constructor.
Qed.

End WriterFacts.

(** ** Batches stay well formed *)

Section BatchFacts.
Context {F : Type}.
Implicit Types (rows new : list (OptionRow F)).

Lemma batch_ok_nil : batch_ok (F := F) [].
Proof.
  split; [| constructor]. intros i r Hi. rewrite lookup_nil in Hi. discriminate.
Qed.

Lemma tree_ok_app_block rows new parent start :
  tree_ok rows -> block parent start new ->
  (forall p, parent = Some p -> exists q, q ∈ rows /\ option_id q = p) ->
  tree_ok (rows ++ new).
Proof.
  intros Hrows Hblock Hparent i r Hi.
  apply lookup_app_Some in Hi as [Hi | [Hge Hi]].
  - specialize (Hrows i r Hi). destruct (parent_option_id r) as [p |]; [| exact Hrows].
    destruct Hrows as (j & q & Hj & Hq & Hid). exists j, q.
    repeat split; try assumption. apply lookup_app_l_Some. exact Hq.
  - destruct new as [| g cs]; [rewrite lookup_nil in Hi; discriminate |].
    destruct Hblock as (Hid & Hpar & Hgrp & Hcs).
    destruct (i - length rows)%nat as [| k] eqn:Hk; simpl in Hi.
    + injection Hi as <-. rewrite Hpar. destruct parent as [p |]; [| exact Hgrp].
      destruct (Hparent p eq_refl) as (q & Hq & Hqid).
      apply list_elem_of_lookup in Hq as [j Hj]. exists j, q.
      repeat split; try assumption.
      * apply lookup_lt_Some in Hj. lia.
      * apply lookup_app_l_Some. exact Hj.
    + rewrite Forall_forall in Hcs.
      destruct (Hcs r) as [Hp _]; [eapply list_elem_of_lookup_2; exact Hi |].
      rewrite Hp. exists (length rows), g. repeat split; try assumption; [lia |].
      rewrite lookup_app_r by lia. rewrite Nat.sub_diag. reflexivity.
Qed.

Lemma batch_ok_app_block rows new parent start :
  batch_ok rows -> block parent start new ->
  Forall (fun r => In (option_type r) emitted_types) new ->
  (forall p, parent = Some p -> exists q, q ∈ rows /\ option_id q = p) ->
  batch_ok (rows ++ new).
Proof.
  intros [Ht Hty] Hb Hnew Hp. split.
  - eapply tree_ok_app_block; eassumption.
  - apply Forall_app. split; assumption.
Qed.

End BatchFacts.

Section EngineFacts.
Context {F : Type} `{PyFloatOps F}.
Variable h : string -> string.
Variable now_at : nat -> string.
Variable St : Type.
Variable has_container : St -> bool.
Variable groups_of : St -> list OptionGroup.
Variable click : St -> string -> option St.

Implicit Types (rows : list (OptionRow F)) (e : Engine (F := F)).

Lemma write_baseline_ok sid oid disp rows b :
  batch_ok rows ->
  batch_ok (snd (write_baseline now_at sid (oid, disp, rows) b)).
Proof.
  intros Hok. destruct b as [[el kind] label]. unfold write_baseline.
  destruct (parse_group_to_rows_fixed_block now_at el kind label None sid oid disp rows)
    as (new & -> & Hb & Hty).
  simpl. eapply batch_ok_app_block; eauto. intros p [=].
Qed.

Lemma fold_write_baseline_ok sid bs :
  forall c, batch_ok (snd c) ->
            batch_ok (snd (fold_left (write_baseline now_at sid) bs c)).
Proof.
  induction bs as [| b bs IH]; intros c Hc; simpl; [exact Hc |].
  apply IH. destruct c as [[oid disp] rows]. apply write_baseline_ok. exact Hc.
Qed.

(** the key of the trigger map is the value of a radio row of the batch *)
Lemma radio_value_parent_row_ids_sound sid rows (v : string) (pid : Z) :
  radio_value_parent_row_ids sid rows !! v = Some pid ->
  exists r, r ∈ rows /\ is_trigger_choice_row sid r = true
            /\ Py.str_of_opt (option_value r) = v /\ option_id r = pid.
Proof.
  unfold radio_value_parent_row_ids.
  assert (G : forall (m : gmap string Z),
             fold_left
               (fun m r => if is_trigger_choice_row sid r
                           then <[Py.str_of_opt (option_value r) := option_id r]> m
                           else m) rows m !! v = Some pid ->
             m !! v = Some pid
             \/ exists r, r ∈ rows /\ is_trigger_choice_row sid r = true
                          /\ Py.str_of_opt (option_value r) = v /\ option_id r = pid).
  { induction rows as [| r rows IH]; intros m Hm; simpl in Hm; [left; exact Hm |].
    destruct (IH _ Hm) as [Hhere | (r' & Hin & Hrest)].
    - destruct (is_trigger_choice_row sid r) eqn:Ht; [| left; exact Hhere].
      destruct (decide (Py.str_of_opt (option_value r) = v)) as [Heq | Hne].
      + subst v. rewrite lookup_insert_eq in Hhere. injection Hhere as <-.
        right. exists r. repeat split; try assumption. apply list_elem_of_here.
      + rewrite lookup_insert_ne in Hhere by exact Hne. left; exact Hhere.
    - right. exists r'. split; [apply list_elem_of_further; exact Hin | exact Hrest]. }
  intros Hm. destruct (G ∅ Hm) as [Hempty | Hr]; [| exact Hr].
  rewrite lookup_empty in Hempty. discriminate.
Qed.

(** one rescanned group keeps the batch well formed and only appends *)
Lemma rescan_group_ok sid pid e g :
  batch_ok (e_rows e) ->
  (exists q, q ∈ e_rows e /\ option_id q = pid) ->
  batch_ok (e_rows (rescan_group h now_at sid pid e g))
  /\ e_rows e `prefix_of` e_rows (rescan_group h now_at sid pid e g).
Proof.
  intros Hok Hq. unfold rescan_group.
  destruct (visible_inner g) as [el |]; [| split; [exact Hok | reflexivity]].
  destruct (group_kind_and_signature h el) as [[kind label] sig].
  destruct (is_difficulty kind label); [split; [exact Hok | reflexivity] |].
  destruct (unchanged (e_sigs e) kind label sig); [split; [exact Hok | reflexivity] |].
  destruct (parse_group_to_rows_fixed_block now_at el kind label (Some pid) sid
              (e_option_id e) (e_display_order e) (e_rows e))
    as (new & -> & Hb & Hty).
  simpl. split.
  - eapply batch_ok_app_block; eauto. intros p [= <-]. exact Hq.
  - exists new. reflexivity.
Qed.

Lemma fold_rescan_group_ok sid pid gs :
  forall e,
    batch_ok (e_rows e) ->
    (exists q, q ∈ e_rows e /\ option_id q = pid) ->
    batch_ok (e_rows (fold_left (rescan_group h now_at sid pid) gs e))
    /\ e_rows e `prefix_of` e_rows (fold_left (rescan_group h now_at sid pid) gs e).
Proof.
  induction gs as [| g gs IH]; intros e Hok Hq; simpl; [split; [exact Hok | reflexivity] |].
  destruct (rescan_group_ok sid pid e g Hok Hq) as [Hok' Hpre].
  destruct (IH (rescan_group h now_at sid pid e g) Hok') as [Hok'' Hpre'].
  - destruct Hq as (q & Hin & Hid). exists q. split; [| exact Hid].
    destruct Hpre as [k ->]. apply elem_of_app. left; exact Hin.
  - split; [exact Hok'' | etrans; eassumption].
Qed.

Lemma snapshot_value_ok sid rows0 s (val : string) :
  batch_ok (e_rows (snd s)) -> rows0 `prefix_of` e_rows (snd s) ->
  let s' := snapshot_value h now_at St groups_of click sid
              (radio_value_parent_row_ids sid rows0) s val in
  batch_ok (e_rows (snd s')) /\ rows0 `prefix_of` e_rows (snd s').
Proof.
  intros Hok Hpre. unfold snapshot_value.
  destruct (radio_value_parent_row_ids sid rows0 !! val) as [pid |] eqn:Hid;
    [| split; assumption].
  destruct (pid =? 0); [split; assumption |].
  destruct (click (fst s) val) as [st' |]; [| split; assumption].
  simpl.
  apply radio_value_parent_row_ids_sound in Hid as (r & Hin & _ & _ & Hrid).
  destruct (fold_rescan_group_ok sid pid (groups_of st') (snd s) Hok) as [Hok' Hpre'].
  - exists r. split; [| exact Hrid]. destruct Hpre as [k ->].
    apply elem_of_app. left; exact Hin.
  - split; [exact Hok' | etrans; eassumption].
Qed.

Lemma fold_snapshot_value_ok sid rows0 vals :
  forall s,
    batch_ok (e_rows (snd s)) -> rows0 `prefix_of` e_rows (snd s) ->
    batch_ok
      (e_rows (snd (fold_left
                      (snapshot_value h now_at St groups_of click sid
                         (radio_value_parent_row_ids sid rows0)) vals s))).
Proof.
  induction vals as [| v vals IH]; intros s Hok Hpre; simpl; [exact Hok |].
  destruct (snapshot_value_ok sid rows0 s v Hok Hpre) as [Hok' Hpre'].
  apply IH; assumption.
Qed.

Lemma extract_options_batch_ok next_option_id sid st :
  batch_ok (extract_options_with_snapshots_fixed h now_at St has_container
              groups_of click next_option_id sid st).
Proof.
  unfold extract_options_with_snapshots_fixed.
  destruct (negb (has_container st)); [apply batch_ok_nil |].
  destruct (baseline_scan h (groups_of st)) as [sigs bgs].
  pose proof (fold_write_baseline_ok sid bgs (next_option_id, 1, [])
                (batch_ok_nil (F := F))) as Hbase.
  destruct (fold_left (write_baseline now_at sid) bgs (next_option_id, 1, []))
    as [[oid disp] rows0].
  simpl in Hbase.
  destruct (List.find _ bgs) as [[[el k] l] |]; [| exact Hbase].
  apply fold_snapshot_value_ok; simpl; [exact Hbase | reflexivity].
Qed.

End EngineFacts.

(** C3. Every row of a batch produced by one extraction pass and then
    normalized carries one of the five option types slider, range, radio,
    checkbox, dropdown, and the cleaning the importer applies before it
    inserts leaves such a type as it is. *)
Theorem C3_vocabulary_closure :
  forall (F : Type) (ops : PyFloatOps F) (h : string -> string)
         (now_at : nat -> string) (St : Type) (has_container : St -> bool)
         (groups_of : St -> list OptionGroup) (click : St -> string -> option St)
         (next_option_id sid : Z) (st : St),
    Forall (fun r => In (option_type r) vocabulary
                     /\ clean_option_type (option_type r) = option_type r)
           (normalize_option_types_in_rows
              (extract_options_with_snapshots_fixed h now_at St has_container
                 groups_of click next_option_id sid st)).
Proof.
  intros. unfold normalize_option_types_in_rows.
  destruct (extract_options_batch_ok h now_at St has_container groups_of click
              next_option_id sid st) as [_ Hty].
  apply Forall_fmap. eapply Forall_impl; [exact Hty |].
  intros r Hr. simpl.
  pose proof (emitted_types_normalized _ Hr) as Hv.
  split; [exact Hv | apply vocabulary_clean; exact Hv].
Qed.

(** C4. In every batch produced by one extraction pass, a row with a
    parent is preceded by the row whose [option_id] is that parent, and a
    row without a parent is a group row. *)
Theorem C4_tree_integrity :
  forall (F : Type) (ops : PyFloatOps F) (h : string -> string)
         (now_at : nat -> string) (St : Type) (has_container : St -> bool)
         (groups_of : St -> list OptionGroup) (click : St -> string -> option St)
         (next_option_id sid : Z) (st : St) (i : nat) (r : OptionRow F),
    extract_options_with_snapshots_fixed h now_at St has_container groups_of
      click next_option_id sid st !! i = Some r ->
    match parent_option_id r with
    | None => is_group_row r
    | Some p =>
        exists (j : nat) (q : OptionRow F),
          (j < i)%nat
          /\ extract_options_with_snapshots_fixed h now_at St has_container
               groups_of click next_option_id sid st !! j = Some q
          /\ option_id q = p
    end.
Proof.
  intros F ops h now_at St has_container groups_of click next_option_id sid st.
  exact (proj1 (extract_options_batch_ok h now_at St has_container groups_of
                  click next_option_id sid st)).
Qed.

(** ** Snapshot diff *)

Lemma group_signature_is_digest (h : string -> string) (el : GroupEl)
    (kind label sig : string) :
  group_kind_and_signature h el = (kind, label, sig) ->
  exists canonical, group_kind_and_canonical el = (kind, label, canonical)
                    /\ sig = h canonical.
Proof.
  unfold group_kind_and_signature.
  destruct (group_kind_and_canonical el) as [[k l] c].
  intros [= <- <- <-]. exists c. split; reflexivity.
Qed.

Lemma unchanged_true_iff (h : string -> string)
    (sigs : gmap (string * string) string) (kind label canonical : string) :
  h canonical <> "" ->
  unchanged sigs kind label (h canonical) = true
  <-> sigs !! (kind, label) = Some (h canonical).
Proof.
  intros Hne. unfold unchanged. destruct (sigs !! (kind, label)) as [b |].
  - split.
    + intros Hb. apply andb_true_iff in Hb as [_ Hb].
      apply String.eqb_eq in Hb. congruence.
    + intros [= ->]. apply andb_true_iff. split.
      * unfold nonempty. destruct (String.eqb_spec (h canonical) ""); [contradiction | reflexivity].
      * apply String.eqb_refl.
  - split; discriminate.
Qed.

(** X24. In the rescan loop, for a visible group other than the trigger
    and a digest that is never empty: a group whose new signature equals
    the one recorded under its [(kind, label)] key leaves the batch, the
    cursor and the recorded signatures untouched; one whose signature
    differs or is not recorded appends the rows the writer gives for it,
    as a block under the parent id of the loop, moves the cursor past
    them and records the new signature under its key. *)
Theorem rescan_appends_changed_groups_only :
  forall (F : Type) (ops : PyFloatOps F) (h : string -> string)
         (now_at : nat -> string) (sid : Z)
         (parent_radio_row_id : Z) (e : Engine) (g : OptionGroup)
         (el : GroupEl) (kind label sig : string),
    (forall s, h s <> "") ->
    visible_inner g = Some el ->
    group_kind_and_signature h el = (kind, label, sig) ->
    is_difficulty kind label = false ->
    (e_sigs e !! (kind, label) = Some sig ->
     rescan_group h now_at sid parent_radio_row_id e g = e)
    /\ (e_sigs e !! (kind, label) <> Some sig ->
        exists new,
          rescan_group h now_at sid parent_radio_row_id e g
          = mkEngine (<[(kind, label) := sig]> (e_sigs e))
                     (e_option_id e + Z.of_nat (length new))
                     (e_display_order e + Z.of_nat (length new))
                     (e_rows e ++ new)
          /\ block (Some parent_radio_row_id) (e_option_id e) new
          /\ snd (parse_group_to_rows_fixed now_at el kind label
                    (Some parent_radio_row_id) sid (e_option_id e)
                    (e_display_order e) (e_rows e))
             = e_rows e ++ new).
Proof.
  intros F ops h now_at sid pid e g el kind label sig Hh Hvis Hsig Hdiff.
  destruct (group_signature_is_digest h el kind label sig Hsig) as (c & _ & ->).
  split.
  - intros Hrec. unfold rescan_group. rewrite Hvis, Hsig, Hdiff.
    apply (unchanged_true_iff h) in Hrec; [| apply Hh]. rewrite Hrec. reflexivity.
  - intros Hrec. unfold rescan_group. rewrite Hvis, Hsig, Hdiff.
    destruct (unchanged (e_sigs e) kind label (h c)) eqn:Hu.
    { apply (unchanged_true_iff h) in Hu; [contradiction | apply Hh]. }
    destruct (parse_group_to_rows_fixed_block now_at el kind label (Some pid) sid
                (e_option_id e) (e_display_order e) (e_rows e))
      as (new & -> & Hb & _).
    exists new. repeat split. exact Hb.
Qed.

(** ** Strings *)

Lemma append_cons (c : ascii) (s t : string) :
  String c s +:+ t = String c (s +:+ t).
Proof. reflexivity. Qed.

Lemma append_nil_r (s : string) : s +:+ "" = s.
Proof. induction s as [| c s IH]; [reflexivity |]. rewrite append_cons, IH. reflexivity. Qed.

Lemma append_assoc (s t u : string) : (s +:+ t) +:+ u = s +:+ (t +:+ u).
Proof.
  induction s as [| c s IH]; [reflexivity |]. rewrite !append_cons, IH. reflexivity.
Qed.

Lemma chars_append (s t : string) :
  list_ascii_of_string (s +:+ t) = list_ascii_of_string s ++ list_ascii_of_string t.
Proof.
  induction s as [| c s IH]; [reflexivity |].
  rewrite append_cons. simpl. rewrite IH. reflexivity.
Qed.

Lemma chars_inj (s t : string) :
  list_ascii_of_string s = list_ascii_of_string t -> s = t.
Proof.
  intros E. rewrite <- (string_of_list_ascii_of_string s),
                    <- (string_of_list_ascii_of_string t), E. reflexivity.
Qed.

Lemma append_inv_head (s t u : string) : s +:+ t = s +:+ u -> t = u.
Proof. apply String.app_inj. Qed.

Lemma append_inv_tail (s t u : string) : s +:+ u = t +:+ u -> s = t.
Proof.
  intros E. apply chars_inj. apply (f_equal list_ascii_of_string) in E.
  rewrite !chars_append in E. eapply app_inv_tail. exact E.
Qed.

Lemma join_cons (sep x : string) (l : list string) :
  Py.join sep (x :: l) = x +:+ join_after sep l.
Proof. destruct l; simpl; [rewrite append_nil_r |]; reflexivity. Qed.

Lemma join_middle (sep : string) (pre post : list string) (x : string) :
  Py.join sep (pre ++ x :: post)
  = join_before sep pre +:+ x +:+ join_after sep post.
Proof.
  induction pre as [| y pre IH].
  - simpl app. apply join_cons.
  - change ((y :: pre) ++ x :: post) with (y :: (pre ++ x :: post)).
    rewrite join_cons. unfold join_after at 1.
    destruct (pre ++ x :: post) eqn:E; [destruct pre; discriminate |].
    rewrite IH. simpl join_before. rewrite !append_assoc. reflexivity.
Qed.

Lemma join_middle_inj (sep : string) (pre post : list string) (x y : string) :
  Py.join sep (pre ++ x :: post) = Py.join sep (pre ++ y :: post) -> x = y.
Proof.
  rewrite !join_middle. intros E.
  apply append_inv_head in E. eapply append_inv_tail. exact E.
Qed.

(** ** Signature content *)

Lemma format_choice_inj_one (c c' : Choice) :
  differ_in_one c c' -> format_choice c <> format_choice c'.
Proof.
  destruct c as [[l v] p], c' as [[l' v'] p']. unfold differ_in_one, format_choice.
  simpl. intros [(Hl & -> & ->) | [(-> & Hv & ->) | (-> & -> & Hp)]] E.
  - apply append_inv_tail in E. contradiction.
  - apply append_inv_head, append_inv_head in E.
    apply append_inv_tail in E. contradiction.
  - do 4 apply append_inv_head in E. contradiction.
Qed.

Lemma choices_canonical_sensitive (kind slug : string) (pre post : list Choice)
    (c c' : Choice) :
  differ_in_one c c' ->
  choices_canonical kind slug (pre ++ c :: post)
  <> choices_canonical kind slug (pre ++ c' :: post).
Proof.
  intros Hd E. unfold choices_canonical in E.
  do 4 apply append_inv_head in E.
  rewrite !map_app in E. simpl map in E.
  apply join_middle_inj in E. revert E. apply format_choice_inj_one. exact Hd.
Qed.

Lemma omap_pointwise {A B C} (k : A -> option C) (f : A -> option B)
    (g : B -> C) (l : list A) :
  (forall x, k x = option_map g (f x)) -> omap k l = map g (omap f l).
Proof.
  intros Hk. induction l as [| x l IH]; [reflexivity |].
  cbn [omap list_omap]. fold (omap k l). fold (omap f l).
  rewrite Hk, IH. destruct (f x); reflexivity.
Qed.

Lemma radio_items_choices (radios : list RadioOption) :
  omap radio_item radios = map format_choice (omap radio_choice radios).
Proof.
  apply omap_pointwise. intros ro. unfold radio_item, radio_choice.
  destruct (ro_visible ro); simpl; [| reflexivity].
  destruct (ro_inputs ro); reflexivity.
Qed.

Lemma checkbox_items_choices (checks : list CheckboxOption) :
  omap checkbox_item checks = map format_choice (omap checkbox_choice checks).
Proof.
  apply omap_pointwise. intros co. unfold checkbox_item, checkbox_choice.
  destruct (co_visible co); reflexivity.
Qed.

Lemma button_items_labels (bs : list Button) :
  omap button_item bs = visible_button_labels bs.
Proof.
  unfold visible_button_labels.
  induction bs as [| b bs IH]; [reflexivity |].
  cbn [omap list_omap List.filter map]. fold (omap button_item bs).
  unfold button_item at 1.
  destruct (btn_visible b); simpl; [rewrite IH; reflexivity | exact IH].
Qed.

Lemma canonical_after_range (g : GroupEl) :
  skips_range g ->
  group_kind_and_canonical g
  = match g_radios_q g with
    | radios :: _ =>
        ("radio", group_label g,
         choices_canonical "radio" (label_slug g) (omap radio_choice radios))
    | [] =>
    match g_buttons_q g with
    | cluster :: _ =>
        ("buttons", group_label g,
         "buttons|" +:+ label_slug g +:+ "|items:"
         +:+ Py.join "||" (visible_button_labels (flat_map buttons_of_item cluster)))
    | [] =>
    match g_checks_q g with
    | checks :: _ =>
        ("checkbox", group_label g,
         choices_canonical "checkbox" (label_slug g) (omap checkbox_choice checks))
    | [] =>
    match g_select_q g with
    | sel :: _ =>
        ("select", group_label g,
         "select|" +:+ label_slug g +:+ "|items:"
         +:+ Py.join "||" (map (fun o => clean_text (opt_text o)) sel))
    | [] =>
        ("unknown", group_label g,
         "unknown|" +:+ label_slug g +:+ "|" +:+ Py.take 500 (g_outer_html g))
    end end end end.
Proof.
  intros Hskip.
  assert (E : group_kind_and_canonical g = choice_canonical g).
  { unfold group_kind_and_canonical.
    destruct Hskip as [-> | ->]; [reflexivity |]. destruct (g_range_q g); reflexivity. }
  rewrite E. unfold choice_canonical, choices_canonical.
  destruct (g_radios_q g) as [| radios ?];
    [| rewrite radio_items_choices; reflexivity].
  destruct (g_buttons_q g) as [| cluster ?];
    [| rewrite button_items_labels; reflexivity].
  destruct (g_checks_q g) as [| checks ?];
    [reflexivity | rewrite checkbox_items_choices; reflexivity].
Qed.

Lemma db_canonical_after_range (g : GroupEl) :
  g_range_q g = [] ->
  ScrapperDb.group_kind_and_canonical g
  = match g_radios_q g with
    | radios :: _ =>
        ("radio", ScrapperDb.label_or g "Radios",
         choices_canonical "radio" (ScrapperDb.label_or g "Radios")
           (omap radio_choice radios))
    | [] =>
    match g_buttons_q g with
    | cluster :: _ =>
        ("buttons", ScrapperDb.label_or g "Buttons",
         "buttons|" +:+ ScrapperDb.label_or g "Buttons" +:+ "|items:"
         +:+ Py.join "|" (visible_button_labels (flat_map buttons_of_item cluster)))
    | [] =>
    match g_checks_q g with
    | checks :: _ =>
        ("checkbox", ScrapperDb.label_or g "Checkboxes",
         choices_canonical "checkbox" (ScrapperDb.label_or g "Checkboxes")
           (omap checkbox_choice checks))
    | [] => ScrapperDb.choice_branch g
    end end end.
Proof.
  intros Hr. unfold ScrapperDb.group_kind_and_canonical, ScrapperDb.range_branch.
  rewrite Hr. unfold ScrapperDb.choice_branch, choices_canonical.
  destruct (g_radios_q g) as [| radios ?];
    [| rewrite radio_items_choices; reflexivity].
  destruct (g_buttons_q g) as [| cluster ?];
    [| rewrite button_items_labels; reflexivity].
  destruct (g_checks_q g) as [| checks ?];
    [reflexivity | rewrite checkbox_items_choices; reflexivity].
Qed.

(** C5 (as amended). For a group classified by its radio or checkbox
    cluster the string that is hashed is the kind, the label slug (the
    label, in [scrapper_db.py]) and, for each visible choice in document
    order, its label, its underlying value and its price text; changing
    exactly one of the three for one choice changes that string. For a
    group classified by its buttons cluster the hashed string holds the
    labels of the visible buttons and nothing else of them. *)
Theorem C5_choice_signature_content :
  forall (h : string -> string) (g : GroupEl),
    skips_range g ->
    (forall radios rest,
        g_radios_q g = radios :: rest ->
        group_kind_and_signature h g
        = ("radio", group_label g,
           h (choices_canonical "radio" (label_slug g) (omap radio_choice radios))))
    /\ (forall checks rest,
           g_radios_q g = [] -> g_buttons_q g = [] ->
           g_checks_q g = checks :: rest ->
           group_kind_and_signature h g
           = ("checkbox", group_label g,
              h (choices_canonical "checkbox" (label_slug g)
                   (omap checkbox_choice checks))))
    /\ (forall cluster rest,
           g_radios_q g = [] -> g_buttons_q g = cluster :: rest ->
           group_kind_and_signature h g
           = ("buttons", group_label g,
              h ("buttons|" +:+ label_slug g +:+ "|items:"
                 +:+ Py.join "||"
                       (visible_button_labels (flat_map buttons_of_item cluster)))))
    /\ (g_range_q g = [] ->
        (forall radios rest,
            g_radios_q g = radios :: rest ->
            ScrapperDb.group_kind_and_canonical g
            = ("radio", ScrapperDb.label_or g "Radios",
               choices_canonical "radio" (ScrapperDb.label_or g "Radios")
                 (omap radio_choice radios)))
        /\ (forall checks rest,
               g_radios_q g = [] -> g_buttons_q g = [] ->
               g_checks_q g = checks :: rest ->
               ScrapperDb.group_kind_and_canonical g
               = ("checkbox", ScrapperDb.label_or g "Checkboxes",
                  choices_canonical "checkbox" (ScrapperDb.label_or g "Checkboxes")
                    (omap checkbox_choice checks)))
        /\ (forall cluster rest,
               g_radios_q g = [] -> g_buttons_q g = cluster :: rest ->
               ScrapperDb.group_kind_and_canonical g
               = ("buttons", ScrapperDb.label_or g "Buttons",
                  "buttons|" +:+ ScrapperDb.label_or g "Buttons" +:+ "|items:"
                  +:+ Py.join "|"
                        (visible_button_labels (flat_map buttons_of_item cluster)))))
    /\ (forall kind slug pre post c c',
           differ_in_one c c' ->
           choices_canonical kind slug (pre ++ c :: post)
           <> choices_canonical kind slug (pre ++ c' :: post)).
Proof.
  intros h g Hskip. unfold group_kind_and_signature.
  rewrite (canonical_after_range g Hskip).
  split; [intros radios rest ->; reflexivity |].
  split; [intros checks rest -> -> ->; reflexivity |].
  split; [intros cluster rest -> ->; reflexivity |].
  split.
  - intros Hr. rewrite (db_canonical_after_range g Hr).
    split; [intros radios rest ->; reflexivity |].
    split; [intros checks rest -> -> ->; reflexivity |].
    intros cluster rest -> ->; reflexivity.
  - intros kind slug pre post c c'. apply choices_canonical_sensitive.
Qed.

Lemma C5_choice_signature_content_witness :
  group_kind_and_signature Demo.digest Demo.difficulty
  = ("radio", "Difficulty",
     Demo.digest
       "radio|difficulty|items:Easy|easy|Free||Normal|normal|+10%||Hard|hard|+6,43 €")
  /\ ScrapperDb.group_kind_and_canonical Demo.difficulty
     = ("radio", "Difficulty",
        "radio|Difficulty|items:Easy|easy|Free||Normal|normal|+10%||Hard|hard|+6,43 €")
  /\ choices_canonical "radio" "difficulty"
       ([("Easy", "easy", "Free")] ++ ("Normal", "normal", "+10%") :: [("Hard", "hard", "+6,43 €")])
     <> choices_canonical "radio" "difficulty"
          ([("Easy", "easy", "Free")] ++ ("Normal", "normal", "+15%") :: [("Hard", "hard", "+6,43 €")]).
Proof.
  destruct (C5_choice_signature_content Demo.digest Demo.difficulty
              (or_introl eq_refl)) as (Hradio & _ & _ & Hdb & Hsens).
  split; [| split].
  - rewrite (Hradio _ [] eq_refl). reflexivity.
  - destruct (Hdb eq_refl) as (Hdbradio & _). rewrite (Hdbradio _ [] eq_refl).
    reflexivity.
  - apply Hsens. right; right. repeat split. discriminate.
Defined.

(** C5 as stated fails for buttons: the hashed string of a buttons group
    is made of the button labels only. It does not hold the value the
    writer stores for a button, and two groups that differ in the value
    of a visible button have the same hashed string, in both variants of
    the classifier. *)
Lemma C5_buttons_hash_labels_only :
  group_kind_and_canonical (Demo.mode_buttons "2")
  = ("buttons", "Mode", "buttons|mode|items:Solo Play||Duo")
  /\ is_infix "solo_play" "buttons|mode|items:Solo Play||Duo" = false
  /\ Demo.mode_buttons "2" <> Demo.mode_buttons "3"
  /\ group_kind_and_canonical (Demo.mode_buttons "2")
     = group_kind_and_canonical (Demo.mode_buttons "3")
  /\ ScrapperDb.group_kind_and_canonical (Demo.mode_buttons "2")
     = ScrapperDb.group_kind_and_canonical (Demo.mode_buttons "3").
Proof.
  split; [reflexivity |]. split; [reflexivity |].
  split; [discriminate |]. split; reflexivity.
Qed.

(** ** Range and slider *)

Lemma detect_slider_kind_spec (g : GroupEl) :
  detect_slider_kind g
  = if (2 <=? knob_count g)%nat || (2 <=? numeric_input_count g)%nat
    then "range" else "slider".
Proof. reflexivity. Qed.

Lemma range_or_slider_cases (a b : nat) :
  let kind := if (2 <=? a)%nat || (2 <=? b)%nat then "range" else "slider" in
  (kind = "range" <-> (2 <= a)%nat \/ (2 <= b)%nat)
  /\ (~ ((2 <= a)%nat \/ (2 <= b)%nat) -> kind = "slider").
Proof.
  destruct (Nat.leb_spec 2 a) as [Ha | Ha]; destruct (Nat.leb_spec 2 b) as [Hb | Hb];
    simpl; split; try (split; intros; first [reflexivity | lia | discriminate]);
    intros Hno; first [reflexivity | exfalso; apply Hno; lia].
Qed.

(** C6 (as amended). [detect_slider_kind] answers range exactly when the
    range clusters of the group hold at least two knobs or at least two
    numeric inputs, and slider otherwise. For a visible group with a range
    cluster the classifier of [complete_code.py] returns that answer as
    the kind; the classifier of [scrapper_db.py] does so for every group
    with a range cluster, counting the knobs and the inputs of the first
    cluster. *)
Theorem C6_range_or_slider :
  (forall g : GroupEl,
      (detect_slider_kind g = "range"
       <-> (2 <= knob_count g)%nat \/ (2 <= numeric_input_count g)%nat)
      /\ (~ ((2 <= knob_count g)%nat \/ (2 <= numeric_input_count g)%nat) ->
          detect_slider_kind g = "slider"))
  /\ (forall g : GroupEl,
         g_range_q g <> [] -> g_visible g = true ->
         (kind_of g = "range"
          <-> (2 <= knob_count g)%nat \/ (2 <= numeric_input_count g)%nat)
         /\ (~ ((2 <= knob_count g)%nat \/ (2 <= numeric_input_count g)%nat) ->
             kind_of g = "slider"))
  /\ (forall (g : GroupEl) (cluster : RangeCluster) (rest : list RangeCluster),
         g_range_q g = cluster :: rest ->
         (fst (fst (ScrapperDb.group_kind_and_canonical g)) = "range"
          <-> (2 <= rc_knobs cluster)%nat
              \/ (2 <= length (cluster_inputs cluster))%nat)
         /\ (~ ((2 <= rc_knobs cluster)%nat
                \/ (2 <= length (cluster_inputs cluster))%nat) ->
             fst (fst (ScrapperDb.group_kind_and_canonical g)) = "slider")).
Proof.
  split; [| split].
  - intros g. rewrite detect_slider_kind_spec. apply range_or_slider_cases.
  - intros g Hq Hvis. unfold kind_of, group_kind_and_canonical.
    destruct (g_range_q g) as [| cluster rest] eqn:E; [contradiction |].
    rewrite Hvis. unfold range_canonical. cbn [fst].
    rewrite detect_slider_kind_spec.
    apply range_or_slider_cases.
  - intros g cluster rest E.
    unfold ScrapperDb.group_kind_and_canonical, ScrapperDb.range_branch. rewrite E.
    pose proof (range_or_slider_cases (rc_knobs cluster)
                  (length (cluster_inputs cluster))) as Hc.
    destruct ((2 <=? rc_knobs cluster)%nat
              || (2 <=? length (cluster_inputs cluster))%nat); exact Hc.
Qed.

Lemma C6_range_or_slider_witness :
  (g_range_q Demo.hours <> [] /\ g_visible Demo.hours = true
   /\ kind_of Demo.hours = "range")
  /\ fst (fst (ScrapperDb.group_kind_and_canonical Demo.hidden_hours)) = "range".
Proof.
  destruct C6_range_or_slider as (_ & Hcc & Hdb). split.
  - split; [discriminate |]. split; [reflexivity |].
    destruct (Hcc Demo.hours) as [[_ Hr] _]; [discriminate | reflexivity |].
    apply Hr. left. apply le_n.
  - destruct (Hdb Demo.hidden_hours _ _ eq_refl) as [[_ Hr] _].
    apply Hr. left. apply le_n.
Defined.

(** C6 as stated fails on a group that is not displayed: its range cluster
    has two knobs, yet the classifier of [complete_code.py] does not enter
    the range branch and answers unknown. *)
Lemma C6_hidden_group_is_not_range :
  g_range_q Demo.hidden_hours <> []
  /\ (2 <= knob_count Demo.hidden_hours)%nat
  /\ kind_of Demo.hidden_hours = "unknown"
  /\ kind_of Demo.hidden_hours <> "range".
Proof.
  split; [discriminate |]. split; [apply le_n |].
  split; [reflexivity | discriminate].
Qed.

Lemma C4_tree_integrity_witness :
  Demo.batch !! 7%nat = Some Demo.extras_group_row
  /\ exists (j : nat) (q : OptionRow DecFloat.pyfloat),
       (j < 7)%nat /\ Demo.batch !! j = Some q /\ option_id q = 7.
Proof.
  assert (Hrow : Demo.batch !! 7%nat = Some Demo.extras_group_row)
    by (vm_compute; reflexivity).
  split; [exact Hrow |].
  exact (C4_tree_integrity DecFloat.pyfloat DecFloat.ops Demo.digest Demo.clock
           string (fun _ => true) Demo.groups_of Demo.click 1 7 "" 7%nat
           Demo.extras_group_row Hrow).
Defined.

Lemma demo_digest_nonempty (s : string) : Demo.digest s <> "".
Proof. unfold Demo.digest. rewrite append_cons. discriminate. Qed.

Lemma rescan_appends_changed_groups_only_witness :
  e_sigs Demo.baseline_engine !! ("checkbox", "Hardcore Extras") = None
  /\ exists new,
       e_rows (rescan_group Demo.digest Demo.clock 7 7 Demo.baseline_engine
                 (Demo.shown Demo.extras))
       = e_rows Demo.baseline_engine ++ new
       /\ block (Some 7) 8 new.
Proof.
  assert (Hnone : e_sigs Demo.baseline_engine !! ("checkbox", "Hardcore Extras") = None)
    by (vm_compute; reflexivity).
  split; [exact Hnone |].
  destruct (rescan_appends_changed_groups_only DecFloat.pyfloat DecFloat.ops
              Demo.digest Demo.clock 7 7 Demo.baseline_engine
              (Demo.shown Demo.extras) Demo.extras "checkbox" "Hardcore Extras"
              (Demo.digest "checkbox|hardcore extras|items:Flawless|flawless|+5 €")
              demo_digest_nonempty eq_refl eq_refl eq_refl)
    as (_ & Hchanged).
  destruct Hchanged as (new & Hstep & Hblock & _).
  - rewrite Hnone. discriminate.
  - exists new. rewrite Hstep. split; [reflexivity | exact Hblock].
Defined.

(** C2. The rows of a group that selecting a trigger value reveals can
    hang under a row of another group. On the page with the radio groups
    Difficulty (Normal 1, Heroic 2) and Difficulty Mode (Solo 1, Group 2),
    where selecting Heroic reveals Hardcore Extras: the trigger choice
    Heroic is row 3, and the revealed group, row 7, is written under row
    6, the choice Group of Difficulty Mode, whose name also starts with
    [difficulty_] and whose value is 2 as well. *)
Lemma C2_revealed_group_hangs_under_another_group :
  map (fun r => (option_id r, parent_option_id r, option_name r, option_value r))
      Demo.batch_with_mode
  = [(1, None, "difficulty", None);
     (2, Some 1, "difficulty_normal", Some "1");
     (3, Some 1, "difficulty_heroic", Some "2");
     (4, None, "difficulty_mode", None);
     (5, Some 4, "difficulty_mode_solo", Some "1");
     (6, Some 4, "difficulty_mode_group", Some "2");
     (7, Some 6, "hardcore_extras", None);
     (8, Some 7, "hardcore_extras_flawless", Some "flawless")].
Proof. vm_compute. reflexivity. Qed.

(** ** Normalization is idempotent on settled types *)

Lemma normalize_rows_settled {F} (rows : list (OptionRow F)) :
  Forall (fun r => settled (option_type r)) rows ->
  normalize_option_types_in_rows (normalize_option_types_in_rows rows)
  = normalize_option_types_in_rows rows.
Proof.
  intros Hs. unfold normalize_option_types_in_rows. rewrite map_map.
  apply map_ext_Forall. eapply Forall_impl; [exact Hs |].
  intros r Hr. simpl. rewrite (normalize_option_type_settled _ Hr). reflexivity.
Qed.




(** ** The importer *)

Section ImporterFacts.
Context {F : Type} `{PyFloatOps F}.
Variable fails : list (Stmt (F := F)) -> Stmt (F := F) -> bool.
Variable name_matches : string -> string -> bool.
Variable to_numeric_int : list string -> string -> Res Z.

Implicit Types (d : Db (F := F)).

Lemma mbind_inv {A B} (m : M (F := F) A) (k : A -> M (F := F) B) d d' (r : Res B) :
  mbind m k d = (d', r) ->
  (exists e, m d = (d', Raise e) /\ r = Raise e)
  \/ (exists d1 a, m d = (d1, Ok a) /\ k a d1 = (d', r)).
Proof.
  unfold mbind. destruct (m d) as [d1 [a | e]]; intros E.
  - right. eauto.
  - left. injection E as <- <-. eauto.
Qed.

Lemma mbind_ok_inv {A B} (m : M (F := F) A) (k : A -> M (F := F) B) d d' (b : B) :
  mbind m k d = (d', Ok b) ->
  exists d1 a, m d = (d1, Ok a) /\ k a d1 = (d', Ok b).
Proof.
  intros E. apply mbind_inv in E as [(e & _ & [=]) | Hok]. exact Hok.
Qed.

Lemma send_inv {A} (s : Stmt (F := F)) (apply : Db (F := F) -> Db (F := F) * A) d d' (r : Res A) :
  send fails s apply d = (d', r) ->
  let d1 := mkDb (committed d) (working d) (service_seq d) (option_seq d)
                 (trace d ++ [s]) (printed d) (imported_services d)
                 (imported_options d) in
  (fails (trace d) s = true /\ r = Raise StorageError /\ d' = d1)
  \/ (fails (trace d) s = false /\ exists a, r = Ok a /\ apply d1 = (d', a)).
Proof.
  unfold send. destruct (fails (trace d) s).
  - intros [= <- <-]. left. auto.
  - destruct (apply _) as [d2 a] eqn:E. intros [= <- <-]. right. eauto.
Qed.

(** *** Nothing but [commit] commits *)

Lemma calm_ret {A} (a : A) : calm (F := F) (ret a).
Proof. intros d d' r [= <- _]. reflexivity. Qed.

Lemma calm_lift {A} (x : Res A) : calm (F := F) (lift x).
Proof. intros d d' r [= <- _]. reflexivity. Qed.

Lemma calm_print (x : Diag) : calm (F := F) (print x).
Proof. intros d d' r [= <- _]. reflexivity. Qed.

Lemma calm_count_option : calm (F := F) count_option.
Proof. intros d d' r [= <- _]. reflexivity. Qed.

Lemma calm_bind {A B} (m : M (F := F) A) (k : A -> M (F := F) B) :
  calm m -> (forall a, calm (k a)) -> calm (mbind m k).
Proof.
  intros Hm Hk d d' r E.
  apply mbind_inv in E as [(e & E & _) | (d1 & a & E1 & E2)].
  - eapply Hm; exact E.
  - rewrite (Hk a _ _ _ E2). eapply Hm; exact E1.
Qed.

Lemma calm_send {A} (s : Stmt (F := F)) (apply : Db (F := F) -> Db (F := F) * A) :
  (forall d, committed (fst (apply d)) = committed d) -> calm (send fails s apply).
Proof.
  intros Ha d d' r E.
  apply send_inv in E as [(_ & _ & ->) | (_ & a & _ & E)]; [reflexivity |].
  specialize (Ha (mkDb (committed d) (working d) (service_seq d) (option_seq d)
                       (trace d ++ [s]) (printed d) (imported_services d)
                       (imported_options d))).
  rewrite E in Ha. exact Ha.
Qed.

Lemma calm_foldM {A S} (f : S -> A -> M (F := F) S) (xs : list A) :
  (forall s x, calm (f s x)) -> forall s, calm (foldM f xs s).
Proof.
  intros Hf. induction xs as [| x xs IH]; intros s; simpl.
  - apply calm_ret.
  - apply calm_bind; [apply Hf | exact IH].
Qed.

Lemma calm_insert_option (p : OptionParams (F := F)) : calm (execute_insert_option fails p).
Proof. apply calm_send. reflexivity. Qed.

Lemma calm_insert_service (row : ServiceCsv) :
  calm (insert_service fails name_matches row).
Proof.
  unfold insert_service.
  destruct (if REUSE_EXISTING_SERVICE_BY_NAME then _ else _).
  - apply calm_bind; [apply calm_send; reflexivity |].
    intros [id |]; [apply calm_ret | apply calm_send; reflexivity].
  - apply calm_send; reflexivity.
Qed.

Lemma calm_insert_parent sid m prow : calm (insert_parent fails sid m prow).
Proof.
  unfold insert_parent, insert_one_option.
  apply calm_bind; [apply calm_insert_option | intros id].
  apply calm_bind; [apply calm_count_option | intros _; apply calm_ret].
Qed.

Lemma calm_insert_child sid m crow : calm (insert_child fails sid m crow).
Proof.
  unfold insert_child, insert_one_option.
  apply calm_bind; [destruct (resolve_parent _ _); [apply calm_ret | apply calm_print] |].
  intros _. apply calm_bind; [apply calm_insert_option | intros id].
  apply calm_bind; [apply calm_count_option | intros _; apply calm_ret].
Qed.

Lemma calm_import_rows df opts srow :
  calm (import_rows fails name_matches to_numeric_int df opts srow).
Proof.
  unfold import_rows.
  apply calm_bind; [apply calm_send; reflexivity | intros _].
  apply calm_bind; [apply calm_insert_service | intros sid].
  apply calm_bind; [apply calm_lift | intros raw].
  apply calm_bind; [apply calm_lift | intros split].
  apply calm_bind; [apply calm_lift | intros ps].
  apply calm_bind; [apply calm_lift | intros cs].
  apply calm_bind; [apply calm_foldM; intros; apply calm_insert_parent | intros m].
  apply calm_bind; [apply calm_foldM; intros; apply calm_insert_child | intros m'].
  apply calm_ret.
Qed.

(** a failed iteration of the services loop has committed nothing *)
Lemma import_service_raise_committed df opts srow d d' e :
  import_service fails name_matches to_numeric_int df opts srow d = (d', Raise e) ->
  committed d' = committed d.
Proof.
  unfold import_service. intros E.
  apply mbind_inv in E as [(e' & E & _) | (d1 & done & E1 & E2)].
  { eapply calm_import_rows; exact E. }
  rewrite <- (calm_import_rows _ _ _ _ _ _ E1).
  apply mbind_inv in E2 as [(e' & E & _) | (d2 & [] & _ & E2)].
  - apply send_inv in E as [(_ & _ & ->) | (_ & a & [=] & _)]. reflexivity.
  - unfold mbind, count_service, print in E2. discriminate E2.
Qed.

(** *** What a successful run has inserted *)

Lemma grows_refl d : grows d d [] [].
Proof. unfold grows. rewrite !app_nil_r. auto. Qed.

Lemma grows_trans d d1 d2 svcs svcs' opts opts' :
  grows d d1 svcs opts -> grows d1 d2 svcs' opts' ->
  grows d d2 (svcs ++ svcs') (opts ++ opts').
Proof.
  intros (C1 & S1 & O1) (C2 & S2 & O2). unfold grows.
  rewrite C2, C1, S2, S1, O2, O1, !app_assoc. auto.
Qed.

Lemma grows_same d d' :
  committed d' = committed d -> working d' = working d -> grows d d' [] [].
Proof. intros C W. unfold grows. rewrite C, W, !app_nil_r. auto. Qed.

Lemma print_inv (x : Diag) d d' (r : Res unit) :
  print x d = (d', r) ->
  r = Ok tt /\ grows d d' [] [] /\ printed d' = printed d ++ [x].
Proof.
  intros [= <- <-]. split; [reflexivity |].
  split; [apply grows_same; reflexivity | reflexivity].
Qed.

Lemma count_option_inv d d' (r : Res unit) :
  count_option d = (d', r) ->
  r = Ok tt /\ grows d d' [] [] /\ printed d' = printed d.
Proof.
  intros [= <- <-]. split; [reflexivity |].
  split; [apply grows_same; reflexivity | reflexivity].
Qed.

Lemma execute_insert_option_ok (p : OptionParams (F := F)) d d' (id : Z) :
  execute_insert_option fails p d = (d', Ok id) ->
  fails (trace d) (InsertOption p) = false
  /\ grows d d' [] [(id, p)] /\ printed d' = printed d.
Proof.
  intros E. apply send_inv in E as [(_ & [=] & _) | (Hf & a & [= <-] & E)].
  injection E as <- <-. split; [exact Hf |]. split; [| reflexivity].
  unfold grows. simpl. rewrite app_nil_r. auto.
Qed.

Lemma execute_insert_service_ok (p : ServiceParams (F := F)) d d' (id : Z) :
  execute_insert_service fails p d = (d', Ok id) ->
  grows d d' [(id, p)] [] /\ printed d' = printed d.
Proof.
  intros E. apply send_inv in E as [(_ & [=] & _) | (Hf & a & [= <-] & E)].
  injection E as <- <-. split; [| reflexivity].
  unfold grows. simpl. rewrite app_nil_r. auto.
Qed.

Lemma select_service_ok (game_id : Z) (name : string) d d' (res : option Z) :
  select_service fails name_matches game_id name d = (d', Ok res) ->
  grows d d' [] [] /\ printed d' = printed d
  /\ forall id, res = Some id -> exists p, (id, p) ∈ t_services (working d).
Proof.
  intros E. apply send_inv in E as [(_ & [=] & _) | (Hf & a & [= <-] & E)].
  injection E as <- <-. split; [apply grows_same; reflexivity |].
  split; [reflexivity |]. simpl. intros id Hid.
  destruct (List.find _ (t_services (working d))) as [[id' p] |] eqn:Hfind;
    [| discriminate].
  injection Hid as <-. apply find_some in Hfind as [Hin _].
  exists p. apply list_elem_of_In. exact Hin.
Qed.

Lemma insert_service_ok (row : ServiceCsv) d d' (id : Z) :
  insert_service fails name_matches row d = (d', Ok id) ->
  exists svcs, grows d d' svcs [] /\ printed d' = printed d
               /\ exists p, (id, p) ∈ t_services (working d').
Proof.
  unfold insert_service.
  assert (Hins : forall d0 d1,
             execute_insert_service fails (service_params row) d0 = (d1, Ok id) ->
             exists svcs, grows d0 d1 svcs [] /\ printed d1 = printed d0
                          /\ exists p, (id, p) ∈ t_services (working d1)).
  { intros d0 d1 E. apply execute_insert_service_ok in E as [Hg Hp].
    exists [(id, service_params row)]. split; [exact Hg |]. split; [exact Hp |].
    exists (service_params row). destruct Hg as (_ & -> & _).
    apply elem_of_app. right. apply list_elem_of_here. }
  destruct (if REUSE_EXISTING_SERVICE_BY_NAME then _ else _) as [name |];
    [| apply Hins].
  intros E. apply mbind_ok_inv in E as (d1 & res & E1 & E2).
  apply select_service_ok in E1 as (Hg & Hp & Hres).
  destruct res as [id' |].
  - injection E2 as <- <-. exists []. split; [exact Hg |]. split; [exact Hp |].
    destruct (Hres id' eq_refl) as [p Hin]. exists p.
    destruct Hg as (_ & -> & _). rewrite app_nil_r. exact Hin.
  - destruct (Hins _ _ E2) as (svcs & Hg2 & Hp2 & Hin).
    exists svcs. split; [exact (grows_trans _ _ _ _ _ _ _ Hg Hg2) |].
    split; [congruence | exact Hin].
Qed.

(** the service row: a new row with the fields of the CSV row, numbered
    by the counter, or the stored row of the collection that the lookup
    by name found *)
Lemma insert_service_row (row : ServiceCsv) d d' (id : Z) :
  insert_service fails name_matches row d = (d', Ok id) ->
  (id = service_seq d
   /\ t_services (working d') = t_services (working d) ++ [(id, service_params row)])
  \/ (t_services (working d') = t_services (working d)
      /\ exists p n, (id, p) ∈ t_services (working d)
                     /\ sp_game_id p = FORCE_GAME_ID /\ sp_name p = Some n
                     /\ name_matches n (s_name row) = true).
Proof.
  unfold insert_service.
  assert (Hins : forall d0 d1,
             execute_insert_service fails (service_params row) d0 = (d1, Ok id) ->
             id = service_seq d0
             /\ t_services (working d1)
                = t_services (working d0) ++ [(id, service_params row)]).
  { intros d0 d1 E. apply send_inv in E as [(_ & [=] & _) | (_ & a & [= <-] & E)].
    injection E as <- <-. simpl. auto. }
  destruct (if REUSE_EXISTING_SERVICE_BY_NAME then _ else _) as [name |] eqn:Hname;
    [| intros E; left; apply (Hins _ _ E)].
  assert (Hn : name = s_name row).
  { simpl in Hname. unfold to_nullable_str in Hname.
    destruct (is_nullish (s_name row)); congruence. }
  subst name. intros E. apply mbind_ok_inv in E as (d1 & res & E1 & E2).
  apply send_inv in E1 as [(_ & [=] & _) | (_ & a & [= <-] & E1)].
  injection E1 as <- Ha. simpl in Ha.
  destruct (List.find _ (t_services (working d))) as [[id' p] |] eqn:Hfind.
  - simpl in Ha. subst res. injection E2 as <- <-. right. simpl.
    split; [reflexivity |]. apply find_some in Hfind as [Hin Hp]. simpl in Hp.
    apply andb_true_iff in Hp as [Hg Hm]. apply Z.eqb_eq in Hg.
    destruct (sp_name p) as [n |] eqn:Hpn; [| discriminate].
    exists p, n. split; [apply list_elem_of_In; exact Hin |]. auto.
  - simpl in Ha. subst res. left. destruct (Hins _ _ E2) as [Hid Hs].
    simpl in Hid, Hs. auto.
Qed.

Lemma insert_parent_ok sid (m m' : gmap string Z) prow d d' :
  insert_parent fails sid m prow d = (d', Ok m') ->
  exists id, m' = <[c_option_id prow := id]> m
             /\ grows d d' [] [(id, option_params sid None prow)]
             /\ printed d' = printed d.
Proof.
  unfold insert_parent, insert_one_option. intros E.
  apply mbind_ok_inv in E as (d1 & id & E1 & E2).
  apply mbind_ok_inv in E2 as (d2 & [] & E2 & E3).
  injection E3 as <- <-.
  apply execute_insert_option_ok in E1 as (_ & Hg1 & Hp1).
  apply count_option_inv in E2 as (_ & Hg2 & Hp2).
  exists id. split; [reflexivity |].
  split; [exact (grows_trans _ _ _ _ _ _ _ Hg1 Hg2) | congruence].
Qed.

Lemma insert_child_ok sid (m m' : gmap string Z) crow d d' :
  insert_child fails sid m crow d = (d', Ok m') ->
  let csv_parent := Py.strip (c_parent_option_id crow) in
  exists id,
    m' = <[c_option_id crow := id]> m
    /\ grows d d' []
         [(id, option_params sid (resolve_parent m csv_parent) crow)]
    /\ printed d'
       = printed d ++ match resolve_parent m csv_parent with
                      | None => [MissingParent (c_option_id crow) csv_parent]
                      | Some _ => []
                      end.
Proof.
  unfold insert_child, insert_one_option. cbv zeta.
  set (csv_parent := Py.strip (c_parent_option_id crow)). intros E.
  apply mbind_ok_inv in E as (d0 & [] & E0 & E).
  apply mbind_ok_inv in E as (d1 & id & E1 & E2).
  apply mbind_ok_inv in E2 as (d2 & [] & E2 & E3).
  injection E3 as <- <-.
  apply execute_insert_option_ok in E1 as (_ & Hg1 & Hp1).
  apply count_option_inv in E2 as (_ & Hg2 & Hp2).
  assert (H0 : grows d d0 [] []
               /\ printed d0
                  = printed d ++ match resolve_parent m csv_parent with
                                 | None => [MissingParent (c_option_id crow) csv_parent]
                                 | Some _ => []
                                 end).
  { destruct (resolve_parent m csv_parent).
    - injection E0 as <-. rewrite app_nil_r. split; [apply grows_refl | reflexivity].
    - apply print_inv in E0 as (_ & Hg & Hp). split; assumption. }
  destruct H0 as [Hg0 Hp0].
  exists id. split; [reflexivity |]. split.
  - exact (grows_trans _ _ _ _ _ _ _ Hg0 (grows_trans _ _ _ _ _ _ _ Hg1 Hg2)).
  - congruence.
Qed.

Lemma foldM_parents_ok sid ps :
  forall (m m' : gmap string Z) d d',
    foldM (insert_parent fails sid) ps m d = (d', Ok m') ->
    exists new,
      grows d d' [] new
      /\ map (fun x => without_parent (snd x)) new = map (option_params sid None) ps.
Proof.
  induction ps as [| prow ps IH]; intros m m' d d' E; simpl in E.
  - injection E as <- <-. exists []. split; [apply grows_refl | reflexivity].
  - apply mbind_ok_inv in E as (d1 & m1 & E1 & E2).
    apply insert_parent_ok in E1 as (id & _ & Hg1 & _).
    apply IH in E2 as (new & Hg2 & Hnew).
    exists ((id, option_params sid None prow) :: new). split.
    + exact (grows_trans _ _ _ _ _ _ _ Hg1 Hg2).
    + simpl. rewrite Hnew. reflexivity.
Qed.

Lemma foldM_children_ok sid cs :
  forall (m m' : gmap string Z) d d',
    foldM (insert_child fails sid) cs m d = (d', Ok m') ->
    exists new,
      grows d d' [] new
      /\ map (fun x => without_parent (snd x)) new = map (option_params sid None) cs.
Proof.
  induction cs as [| crow cs IH]; intros m m' d d' E; simpl in E.
  - injection E as <- <-. exists []. split; [apply grows_refl | reflexivity].
  - apply mbind_ok_inv in E as (d1 & m1 & E1 & E2).
    apply insert_child_ok in E1 as (id & _ & Hg1 & _).
    apply IH in E2 as (new & Hg2 & Hnew).
    eexists (_ :: new). split.
    + exact (grows_trans _ _ _ _ _ _ _ Hg1 Hg2).
    + simpl. rewrite Hnew. reflexivity.
Qed.

(** *** A row whose parent is in no row *)

Lemma foldM_parents_keeps sid ps (key : string) :
  forall (m m' : gmap string Z) d d',
    foldM (insert_parent fails sid) ps m d = (d', Ok m') ->
    m !! key = None -> (forall o, o ∈ ps -> c_option_id o <> key) ->
    m' !! key = None /\ printed d' = printed d.
Proof.
  induction ps as [| prow ps IH]; intros m m' d d' E Hm Hps; simpl in E.
  - injection E as <- <-. auto.
  - apply mbind_ok_inv in E as (d1 & m1 & E1 & E2).
    apply insert_parent_ok in E1 as (id & -> & _ & Hp1).
    apply IH in E2 as [Hm' Hp2].
    + split; [exact Hm' | congruence].
    + rewrite lookup_insert_ne; [exact Hm |]. apply Hps, list_elem_of_here.
    + intros o Ho. apply Hps, list_elem_of_further, Ho.
Qed.

Lemma foldM_children_orphan sid cs (crow : OptionCsv) :
  forall (m m' : gmap string Z) d d',
    foldM (insert_child fails sid) cs m d = (d', Ok m') ->
    m !! Py.strip (c_parent_option_id crow) = None ->
    (forall o, o ∈ cs -> c_option_id o <> Py.strip (c_parent_option_id crow)) ->
    exists new diags,
      grows d d' [] new /\ printed d' = printed d ++ diags
      /\ (crow ∈ cs ->
          (exists id, (id, option_params sid None crow) ∈ new)
          /\ MissingParent (c_option_id crow) (Py.strip (c_parent_option_id crow))
             ∈ diags).
Proof.
  induction cs as [| o cs IH]; intros m m' d d' E Hm Hcs; simpl in E.
  - injection E as <- <-. exists [], []. split; [apply grows_refl |].
    split; [rewrite app_nil_r; reflexivity |].
    intros Hin. apply elem_of_nil in Hin. contradiction.
  - apply mbind_ok_inv in E as (d1 & m1 & E1 & E2).
    apply insert_child_ok in E1 as (id & -> & Hg1 & Hp1). cbv zeta in Hg1, Hp1.
    apply IH in E2 as (new & diags & Hg2 & Hp2 & Hrest).
    + eexists (_ :: new), (_ ++ diags). split; [| split].
      * exact (grows_trans _ _ _ _ _ _ _ Hg1 Hg2).
      * rewrite Hp2, Hp1, <- app_assoc. reflexivity.
      * intros Hin. apply elem_of_cons in Hin as [-> | Hin].
        -- assert (Hres : resolve_parent m (Py.strip (c_parent_option_id o)) = None).
           { unfold resolve_parent. rewrite Hm. reflexivity. }
           rewrite Hres. split.
           ++ exists id. apply list_elem_of_here.
           ++ apply elem_of_app. left. apply list_elem_of_here.
        -- destruct (Hrest Hin) as [[id' Hid'] Hd]. split.
           ++ exists id'. apply list_elem_of_further. exact Hid'.
           ++ apply elem_of_app. right. exact Hd.
    + rewrite lookup_insert_ne; [exact Hm |]. apply Hcs, list_elem_of_here.
    + intros o' Ho'. apply Hcs, list_elem_of_further, Ho'.
Qed.

(** *** Sorting keeps the rows *)

Lemma insert_by_perm {A K} (le : K -> K -> bool) (key : A -> K) (x : A) (l : list A) :
  insert_by le key x l ≡ₚ x :: l.
Proof.
  induction l as [| y l IH]; simpl; [reflexivity |].
  destruct (le (key x) (key y)); [reflexivity |].
  rewrite IH. apply Permutation_swap.
Qed.

Lemma sort_values_perm {A K} (le : K -> K -> bool) (key : A -> K) (l : list A) :
  sort_values le key l ≡ₚ l.
Proof.
  induction l as [| x l IH]; simpl; [reflexivity |].
  rewrite insert_by_perm, IH. reflexivity.
Qed.

Lemma bind_ok_inv {A B} (r : Res A) (k : A -> Res B) (b : B) :
  bind r k = Ok b -> exists a, r = Ok a /\ k a = Ok b.
Proof. destruct r as [a | e]; simpl; [eauto | discriminate]. Qed.

Lemma mapM_res_length {A B} (f : A -> Res B) (xs : list A) :
  forall ys, mapM_res f xs = Ok ys -> length ys = length xs.
Proof.
  induction xs as [| x xs IH]; intros ys E; simpl in E.
  - injection E as <-. reflexivity.
  - apply bind_ok_inv in E as (y & _ & E).
    apply bind_ok_inv in E as (ys' & E & [= <-]).
    simpl. rewrite (IH _ E). reflexivity.
Qed.

Lemma numeric_column_length col rows ks :
  numeric_column to_numeric_int col rows = Ok ks -> length ks = length rows.
Proof.
  unfold numeric_column. intros E. apply mapM_res_length in E.
  rewrite length_map in E. exact E.
Qed.

Lemma sorted_zip_perm {K} (le : K -> K -> bool) (keys : list K) (rows : list OptionCsv) :
  length keys = length rows ->
  map snd (sort_values le fst (zip keys rows)) ≡ₚ rows.
Proof.
  intros Hlen. rewrite sort_values_perm.
  change (map snd (zip keys rows)) with ((zip keys rows).*2).
  rewrite snd_zip by lia. reflexivity.
Qed.

Lemma sort_parents_perm rows ps :
  sort_parents to_numeric_int rows = Ok ps -> ps ≡ₚ rows.
Proof.
  unfold sort_parents. intros E.
  apply bind_ok_inv in E as (ds & Hd & E).
  apply bind_ok_inv in E as (ids & Hi & [= <-]).
  apply numeric_column_length in Hd, Hi.
  apply sorted_zip_perm. rewrite length_zip. lia.
Qed.

Lemma sort_children_perm rows cs :
  sort_children to_numeric_int rows = Ok cs -> cs ≡ₚ rows.
Proof.
  unfold sort_children. intros E.
  apply bind_ok_inv in E as (ps & Hp & E).
  apply bind_ok_inv in E as (ds & Hd & E).
  apply bind_ok_inv in E as (ids & Hi & [= <-]).
  apply numeric_column_length in Hp, Hd, Hi.
  apply sorted_zip_perm. rewrite !length_zip. lia.
Qed.

Lemma filter_partition_perm {A} (p : A -> bool) (l : list A) :
  List.filter p l ++ List.filter (fun x => negb (p x)) l ≡ₚ l.
Proof.
  induction l as [| x l IH]; simpl; [reflexivity |].
  destruct (p x); simpl.
  - rewrite IH. reflexivity.
  - rewrite <- Permutation_middle, IH. reflexivity.
Qed.

Lemma lift_bind_ok_inv {A B} (r : Res A) (k : A -> M (F := F) B) d d' (b : B) :
  mbind (lift r) k d = (d', Ok b) -> exists a, r = Ok a /\ k a d = (d', Ok b).
Proof.
  unfold mbind, lift. destruct r as [a | e]; [eauto | discriminate].
Qed.

(** steps 1 to 4, when they return: the service row is in the session's
    view, and the view gained one option row per row of the service *)
Lemma split_parents_children_ok (raw : list OptionCsv) split :
  split_parents_children raw = Ok split ->
  raw <> []
  /\ split = (List.filter is_parent_row raw,
              List.filter (fun o => negb (is_parent_row o)) raw).
Proof.
  destruct raw as [| o raw]; [discriminate |]. intros [= <-].
  split; [discriminate | reflexivity].
Qed.

Lemma import_rows_ok df opts srow d d' (sid : Z) (n : nat) :
  import_rows fails name_matches to_numeric_int df opts srow d = (d', Ok (sid, n)) ->
  exists svcs new raw,
    options_of df opts srow = Ok raw /\ n = length raw
    /\ grows d d' svcs new
    /\ (exists p, (sid, p) ∈ t_services (working d'))
    /\ map (fun x => without_parent (snd x)) new
       ≡ₚ map (option_params sid None) raw
    /\ raw <> []
    /\ ((sid = service_seq d /\ svcs = [(sid, service_params srow)])
        \/ (svcs = []
            /\ exists p n, (sid, p) ∈ t_services (working d)
                           /\ sp_game_id p = FORCE_GAME_ID /\ sp_name p = Some n
                           /\ name_matches n (s_name srow) = true)).
Proof.
  unfold import_rows. intros E.
  apply mbind_ok_inv in E as (d1 & [] & E1 & E).
  apply mbind_ok_inv in E as (d2 & sid' & E2 & E).
  apply lift_bind_ok_inv in E as (raw & Hraw & E).
  apply lift_bind_ok_inv in E as (split & Hsplit & E).
  apply split_parents_children_ok in Hsplit as [Hne ->]. cbn [fst snd] in E.
  apply lift_bind_ok_inv in E as (ps & Hps & E).
  apply lift_bind_ok_inv in E as (cs & Hcs & E).
  apply mbind_ok_inv in E as (d3 & m & E3 & E).
  apply mbind_ok_inv in E as (d4 & m' & E4 & E).
  injection E as <- <- <-.
  apply send_inv in E1 as [(_ & [=] & _) | (_ & a & _ & [= <- _])].
  pose proof (insert_service_row _ _ _ _ E2) as Hrow. simpl in Hrow.
  apply insert_service_ok in E2 as (svcs & Hg2 & _ & p & Hin).
  apply foldM_parents_ok in E3 as (new1 & Hg3 & Hn1).
  apply foldM_children_ok in E4 as (new2 & Hg4 & Hn2).
  pose proof (grows_trans _ _ _ _ _ _ _ Hg2 (grows_trans _ _ _ _ _ _ _ Hg3 Hg4))
    as Hg.
  rewrite app_nil_r in Hg. simpl in Hg.
  exists svcs, (new1 ++ new2), raw.
  split; [exact Hraw |]. split; [reflexivity |].
  split.
  { destruct Hg as (C & S & O). unfold grows. simpl in *. auto. }
  split.
  { exists p. destruct Hg3 as (_ & S3 & _), Hg4 as (_ & S4 & _).
    rewrite S4, S3, !app_nil_r. exact Hin. }
  split.
  { rewrite map_app, Hn1, Hn2, <- map_app.
    apply Permutation_map.
    rewrite (sort_parents_perm _ _ Hps), (sort_children_perm _ _ Hcs).
    apply filter_partition_perm. }
  split; [exact Hne |].
  destruct Hg2 as (_ & S2 & _). simpl in S2.
  destruct Hrow as [[Hid Hs] | [Hs Hold]].
  - left. split; [exact Hid |]. rewrite S2 in Hs.
    apply app_inv_head in Hs. exact Hs.
  - right. split; [| exact Hold]. rewrite S2 in Hs.
    rewrite <- (app_nil_r (t_services (working d))) in Hs at 2.
    apply app_inv_head in Hs. exact Hs.
Qed.

(** a successful iteration of the services loop: everything it inserted is
    committed *)
Lemma import_service_ok df opts srow d d' :
  import_service fails name_matches to_numeric_int df opts srow d = (d', Ok tt) ->
  exists sid svcs new raw,
    options_of df opts srow = Ok raw
    /\ clean d'
    /\ t_services (committed d') = t_services (working d) ++ svcs
    /\ t_options (committed d') = t_options (working d) ++ new
    /\ (exists p, (sid, p) ∈ t_services (committed d'))
    /\ Forall (fun x => op_service_id (snd x) = sid) new
    /\ map (fun x => without_parent (snd x)) new
       ≡ₚ map (option_params sid None) raw
    /\ raw <> []
    /\ ((sid = service_seq d /\ svcs = [(sid, service_params srow)])
        \/ (svcs = []
            /\ exists p n, (sid, p) ∈ t_services (working d)
                           /\ sp_game_id p = FORCE_GAME_ID /\ sp_name p = Some n
                           /\ name_matches n (s_name srow) = true)).
Proof.
  unfold import_service. intros E.
  apply mbind_ok_inv in E as (d1 & [sid n] & E1 & E).
  apply mbind_ok_inv in E as (d2 & [] & E2 & E).
  apply import_rows_ok in E1
    as (svcs & new & raw & Hraw & _ & Hg & Hin & Hperm & Hne & Hrow).
  apply send_inv in E2 as [(_ & [=] & _) | (_ & a & _ & [= <- _])].
  unfold mbind, count_service, print in E. injection E as <-.
  destruct Hg as (_ & S & O). simpl.
  exists sid, svcs, new, raw. unfold clean. simpl.
  repeat split; try assumption.
  apply Forall_forall. intros x Hx.
  assert (Hx' : without_parent (snd x) ∈ map (fun x => without_parent (snd x)) new).
  { apply list_elem_of_In.
    apply (in_map (fun y : Z * OptionParams => without_parent (snd y)) new x).
    apply list_elem_of_In. exact Hx. }
  rewrite Hperm in Hx'. apply list_elem_of_In, in_map_iff in Hx' as (o & Ho & _).
  apply (f_equal op_service_id) in Ho. simpl in Ho. congruence.
Qed.

(** a successful iteration with a row whose parent id is the id of no
    row of the service: the row is committed without a parent, and the
    diagnostic is printed *)
Lemma import_service_orphan df opts srow raw (crow : OptionCsv) d d' :
  import_service fails name_matches to_numeric_int df opts srow d = (d', Ok tt) ->
  options_of df opts srow = Ok raw ->
  crow ∈ raw -> is_parent_row crow = false ->
  (forall o, o ∈ raw -> c_option_id o <> Py.strip (c_parent_option_id crow)) ->
  exists sid new,
    t_options (committed d') = t_options (working d) ++ new
    /\ (exists p, (sid, p) ∈ t_services (committed d'))
    /\ (exists id, (id, option_params sid None crow) ∈ new)
    /\ MissingParent (c_option_id crow) (Py.strip (c_parent_option_id crow))
       ∈ printed d'.
Proof.
  unfold import_service. intros E Hraw Hin Hchild Hid.
  apply mbind_ok_inv in E as (d1 & [sid n] & E1 & E).
  apply mbind_ok_inv in E as (d2 & [] & E2 & E).
  apply send_inv in E2 as [(_ & [=] & _) | (_ & a & _ & [= <- _])].
  unfold mbind, count_service, print in E. injection E as <-. simpl.
  unfold import_rows in E1.
  apply mbind_ok_inv in E1 as (d3 & [] & E3 & E1).
  apply mbind_ok_inv in E1 as (d4 & sid' & E4 & E1).
  apply lift_bind_ok_inv in E1 as (raw' & Hraw' & E1).
  rewrite Hraw in Hraw'. injection Hraw' as <-.
  apply lift_bind_ok_inv in E1 as (split & Hsplit & E1).
  apply split_parents_children_ok in Hsplit as [_ ->]. cbn [fst snd] in E1.
  apply lift_bind_ok_inv in E1 as (ps & Hps & E1).
  apply lift_bind_ok_inv in E1 as (cs & Hcs & E1).
  apply mbind_ok_inv in E1 as (d5 & m & E5 & E1).
  apply mbind_ok_inv in E1 as (d6 & m' & E6 & E1).
  injection E1 as <- <- <-.
  apply send_inv in E3 as [(_ & [=] & _) | (_ & a3 & _ & [= <- _])].
  apply insert_service_ok in E4 as (svcs & Hg4 & _ & p & Hp).
  pose proof (sort_parents_perm _ _ Hps) as Pps.
  pose proof (sort_children_perm _ _ Hcs) as Pcs.
  assert (Hps_id : forall o, o ∈ ps -> c_option_id o <> Py.strip (c_parent_option_id crow)).
  { intros o Ho. apply Hid. rewrite Pps in Ho.
    apply list_elem_of_In, filter_In in Ho as [Ho _]. apply list_elem_of_In, Ho. }
  assert (Hcs_id : forall o, o ∈ cs -> c_option_id o <> Py.strip (c_parent_option_id crow)).
  { intros o Ho. apply Hid. rewrite Pcs in Ho.
    apply list_elem_of_In, filter_In in Ho as [Ho _]. apply list_elem_of_In, Ho. }
  assert (Hcrow : crow ∈ cs).
  { rewrite Pcs. apply list_elem_of_In, filter_In. split.
    - apply list_elem_of_In, Hin.
    - rewrite Hchild. reflexivity. }
  pose proof (foldM_parents_ok _ _ _ _ _ _ E5) as (new1 & Hg5 & _).
  destruct (foldM_parents_keeps _ _ _ _ _ _ _ E5 (lookup_empty _) Hps_id) as [Hm _].
  destruct (foldM_children_orphan _ _ crow _ _ _ _ E6 Hm Hcs_id)
    as (new2 & diags & Hg6 & Hp6 & Horphan).
  destruct (Horphan Hcrow) as [[id Hrow] Hdiag].
  pose proof (grows_trans _ _ _ _ _ _ _ Hg4 (grows_trans _ _ _ _ _ _ _ Hg5 Hg6))
    as (_ & S & O).
  simpl in S, O. exists sid', (new1 ++ new2).
  split; [exact O |]. split; [| split].
  - exists p. rewrite S, app_nil_r.
    destruct Hg4 as (_ & S4 & _). simpl in S4. rewrite <- S4. exact Hp.
  - exists id. apply elem_of_app. right. exact Hrow.
  - apply elem_of_app. left. rewrite Hp6. apply elem_of_app. right. exact Hdiag.
Qed.

(** *** The services loop *)

Lemma import_loop_app df opts pre rest d :
  import_loop fails name_matches to_numeric_int df opts (pre ++ rest) d
  = match import_loop fails name_matches to_numeric_int df opts pre d with
    | (d0, Ok _) => import_loop fails name_matches to_numeric_int df opts rest d0
    | (d0, Raise e) => (d0, Raise e)
    end.
Proof.
  revert d. induction pre as [| s pre IH]; intros d.
  - simpl. reflexivity.
  - change ((s :: pre) ++ rest) with (s :: (pre ++ rest)).
    cbn [import_loop]. unfold mbind.
    destruct (import_service _ _ _ _ _ s d) as [d1 [[] | e]]; [apply IH | reflexivity].
Qed.

Lemma import_loop_clean df opts srows :
  forall d d',
    clean d ->
    import_loop fails name_matches to_numeric_int df opts srows d = (d', Ok tt) ->
    clean d'.
Proof.
  induction srows as [| s srows IH]; intros d d' Hc E; simpl in E.
  - injection E as <-. exact Hc.
  - apply mbind_ok_inv in E as (d1 & [] & E1 & E2).
    apply import_service_ok in E1 as (_ & _ & _ & _ & _ & Hc1 & _).
    eapply IH; eassumption.
Qed.

(** *** Without storage failures everything returns *)

Hypothesis never_fails : forall t s, fails t s = false.

Lemma succeeds_ret {A} (a : A) : succeeds (F := F) (ret a).
Proof. intros d. eexists _, _. reflexivity. Qed.

Lemma succeeds_bind {A B} (m : M (F := F) A) (k : A -> M (F := F) B) :
  succeeds m -> (forall a, succeeds (k a)) -> succeeds (mbind m k).
Proof.
  intros Hm Hk d. destruct (Hm d) as (d1 & a & E1).
  destruct (Hk a d1) as (d2 & b & E2).
  exists d2, b. unfold mbind. rewrite E1. exact E2.
Qed.

Lemma succeeds_send {A} (s : Stmt (F := F)) (apply : Db (F := F) -> Db (F := F) * A) :
  succeeds (send fails s apply).
Proof.
  intros d. unfold send. rewrite never_fails.
  destruct (apply _) as [d2 a]. eexists _, _. reflexivity.
Qed.

Lemma succeeds_foldM {A S} (f : S -> A -> M (F := F) S) (xs : list A) :
  (forall s x, succeeds (f s x)) -> forall s, succeeds (foldM f xs s).
Proof.
  intros Hf. induction xs as [| x xs IH]; intros s; simpl.
  - apply succeeds_ret.
  - apply succeeds_bind; [apply Hf | exact IH].
Qed.

Lemma succeeds_insert_service row : succeeds (insert_service fails name_matches row).
Proof.
  unfold insert_service.
  destruct (if REUSE_EXISTING_SERVICE_BY_NAME then _ else _);
    [| apply succeeds_send].
  apply succeeds_bind; [apply succeeds_send |].
  intros [id |]; [apply succeeds_ret | apply succeeds_send].
Qed.

Lemma succeeds_count_option : succeeds (F := F) count_option.
Proof. intros d. eexists _, _. reflexivity. Qed.

Lemma succeeds_print (x : Diag) : succeeds (F := F) (print x).
Proof. intros d. eexists _, _. reflexivity. Qed.

Lemma succeeds_insert_parent sid m prow : succeeds (insert_parent fails sid m prow).
Proof.
  unfold insert_parent, insert_one_option.
  apply succeeds_bind; [apply succeeds_send | intros id].
  apply succeeds_bind; [apply succeeds_count_option | intros _; apply succeeds_ret].
Qed.

Lemma succeeds_insert_child sid m crow : succeeds (insert_child fails sid m crow).
Proof.
  unfold insert_child, insert_one_option.
  apply succeeds_bind;
    [destruct (resolve_parent _ _); [apply succeeds_ret | apply succeeds_print] |].
  intros _. apply succeeds_bind; [apply succeeds_send | intros id].
  apply succeeds_bind; [apply succeeds_count_option | intros _; apply succeeds_ret].
Qed.

Lemma succeeds_lift_ok {A B} (a : A) (k : A -> M (F := F) B) :
  succeeds (k a) -> succeeds (mbind (lift (Ok a)) k).
Proof. intros Hk d. exact (Hk d). Qed.

Lemma import_service_succeeds df opts srow raw ps cs d :
  options_of df opts srow = Ok raw ->
  raw <> [] ->
  sort_parents to_numeric_int (List.filter is_parent_row raw) = Ok ps ->
  sort_children to_numeric_int (List.filter (fun o => negb (is_parent_row o)) raw)
  = Ok cs ->
  exists d', import_service fails name_matches to_numeric_int df opts srow d
             = (d', Ok tt).
Proof.
  intros Hraw Hne Hps Hcs.
  assert (Hsplit : split_parents_children raw
                   = Ok (List.filter is_parent_row raw,
                         List.filter (fun o => negb (is_parent_row o)) raw)).
  { destruct raw; [congruence | reflexivity]. }
  assert (Hs : succeeds (import_service fails name_matches to_numeric_int df opts srow)).
  { unfold import_service, import_rows.
    apply succeeds_bind; [| intros done].
    - apply succeeds_bind; [apply succeeds_send | intros _].
      apply succeeds_bind; [apply succeeds_insert_service | intros sid].
      rewrite Hraw. apply succeeds_lift_ok.
      rewrite Hsplit. apply succeeds_lift_ok. cbn [fst snd].
      rewrite Hps. apply succeeds_lift_ok.
      rewrite Hcs. apply succeeds_lift_ok.
      apply succeeds_bind;
        [apply succeeds_foldM; intros; apply succeeds_insert_parent | intros m].
      apply succeeds_bind;
        [apply succeeds_foldM; intros; apply succeeds_insert_child | intros m'].
      apply succeeds_ret.
    - apply succeeds_bind; [apply succeeds_send | intros _].
      apply succeeds_bind; [intros d0; eexists _, _; reflexivity | intros _].
      apply succeeds_print. }
  destruct (Hs d) as (d' & [] & E). exists d'. exact E.
Qed.

End ImporterFacts.

(** when the selection or the split raises, steps 1 to 4 raise: that
    exception, unless the storage refused a statement before *)
Lemma import_rows_raises {F} `{PyFloatOps F}
    (fails : list (Stmt (F := F)) -> Stmt (F := F) -> bool)
    (name_matches : string -> string -> bool)
    (to_numeric_int : list string -> string -> Res Z)
    df opts srow (e0 : Exn) (d : Db (F := F)) :
  bind (options_of df opts srow) split_parents_children = Raise e0 ->
  exists d1 e,
    import_rows fails name_matches to_numeric_int df opts srow d = (d1, Raise e)
    /\ ((forall t s, fails t s = false) -> e = e0).
Proof.
  intros Hraise. unfold import_rows.
  unfold mbind at 1. destruct (start_transaction fails d) as [d1 [[] | e1]] eqn:E1.
  - unfold mbind at 1.
    destruct (insert_service fails name_matches srow d1) as [d2 [sid | e2]] eqn:E2.
    + destruct (options_of df opts srow) as [raw | e] eqn:Hraw; simpl in Hraise.
      * unfold mbind, lift. rewrite Hraise. exists d2, e0.
        split; [reflexivity | auto].
      * injection Hraise as ->. unfold mbind, lift. exists d2, e0.
        split; [reflexivity | auto].
    + exists d2, e2. split; [reflexivity |]. intros Hnever.
      destruct (succeeds_insert_service fails name_matches Hnever srow d1)
        as (d' & a & E). rewrite E in E2. discriminate.
  - exists d1, e1. split; [reflexivity |].
    apply send_inv in E1 as [(Hf & _ & ->) | (_ & a & [=] & _)].
    intros Hnever. rewrite Hnever in Hf. discriminate.
Qed.

(** X23. The import is atomic per service. For a service that the
    import reaches (the services before it went through): if anything
    raises between [start_transaction] and [commit], the import ends with
    that exception, and what is committed and what is visible afterwards
    are exactly the tables as they were committed before this service; if
    nothing raises, the service has option rows, and the tables are
    committed with its service row (a new row with the fields of the CSV
    row and the collection 21, or the stored row of the collection that
    the lookup by name found) and with one new option row, owned by that
    service and with the fields of the CSV row, for each of its option
    rows. Nothing raises when the storage refuses no statement and the
    service has option rows that can be keyed; a service without option
    rows always raises, by the [KeyError] of the split when the storage
    refuses nothing. *)
Theorem import_is_atomic_per_service :
  forall (F : Type) (ops : PyFloatOps F)
         (fails : list (Stmt (F := F)) -> Stmt (F := F) -> bool)
         (name_matches : string -> string -> bool)
         (to_numeric_int : list string -> string -> Res Z)
         (df : ServicesFrame) (opts : list OptionCsv)
         (pre post : list ServiceCsv) (srow : ServiceCsv)
         (stored : Tables) (sseq oseq : Z) (d0 : Db),
    service_rows df = pre ++ srow :: post ->
    import_loop fails name_matches to_numeric_int df (clean_option_types opts) pre
      (connect stored sseq oseq) = (d0, Ok tt) ->
    (forall (d1 : Db) (r : Res unit),
        import_service fails name_matches to_numeric_int df
          (clean_option_types opts) srow d0 = (d1, r) ->
        match r with
        | Raise e =>
            exists dfin,
              import_csv_to_database fails name_matches to_numeric_int df opts
                (connect stored sseq oseq) = (dfin, Raise e)
              /\ committed dfin = committed d0 /\ working dfin = committed d0
        | Ok _ =>
            exists sid svcs new raw,
              options_of df (clean_option_types opts) srow = Ok raw
              /\ raw <> []
              /\ working d1 = committed d1
              /\ t_services (committed d1) = t_services (committed d0) ++ svcs
              /\ ((sid = service_seq d0
                   /\ svcs
                      = [(sid,
                          mkServiceParams 21
                            (to_nullable_str (s_name srow))
                            (to_nullable_str (s_description srow))
                            (to_nullable_decimal (s_price_per_unit srow))
                            (to_nullable_decimal (s_sale_price srow))
                            (to_nullable_str (s_icon_url srow))
                            (to_nullable_str (s_category srow)))])
                  \/ (svcs = []
                      /\ exists p n,
                           (sid, p) ∈ t_services (committed d0)
                           /\ sp_game_id p = 21 /\ sp_name p = Some n
                           /\ name_matches n (s_name srow) = true))
              /\ t_options (committed d1) = t_options (committed d0) ++ new
              /\ Forall (fun x => op_service_id (snd x) = sid) new
              /\ map (fun x => without_parent (snd x)) new
                 ≡ₚ map (fun o =>
                           mkOptionParams sid None
                             (to_nullable_str (c_option_type o))
                             (to_nullable_str (c_option_name o))
                             (to_nullable_str (c_option_label o))
                             (to_nullable_str (c_option_value o))
                             (to_nullable_decimal (c_price_modifier o))
                             (to_nullable_int (c_min_value o))
                             (to_nullable_int (c_max_value o))
                             (to_nullable_str (c_default_value o))
                             (to_nullable_int (c_is_required o))
                             (to_nullable_int (c_display_order o))
                             (to_nullable_int (c_is_active o))
                             (to_nullable_str (c_created_at o))
                             (to_nullable_str (c_updated_at o))) raw
        end)
    /\ (forall raw ps cs : list OptionCsv,
           (forall t s, fails t s = false) ->
           options_of df (clean_option_types opts) srow = Ok raw ->
           raw <> [] ->
           sort_parents to_numeric_int (List.filter is_parent_row raw) = Ok ps ->
           sort_children to_numeric_int
             (List.filter (fun o => negb (is_parent_row o)) raw) = Ok cs ->
           exists d1,
             import_service fails name_matches to_numeric_int df
               (clean_option_types opts) srow d0 = (d1, Ok tt))
    /\ (options_of df (clean_option_types opts) srow = Ok [] ->
        exists d1 e,
          import_service fails name_matches to_numeric_int df
            (clean_option_types opts) srow d0 = (d1, Raise e)
          /\ ((forall t s, fails t s = false) -> e = KeyError "display_order")).
Proof.
  intros F ops fails name_matches to_numeric_int df opts pre post srow stored
         sseq oseq d0 Hrows Hpre.
  assert (Hclean : clean d0).
  { eapply import_loop_clean; [| exact Hpre]. reflexivity. }
  split; [| split].
  - intros d1 r Hsvc. destruct r as [[] | e].
    + apply import_service_ok in Hsvc
        as (sid & svcs & new & raw & Hraw & Hc & S & O & Hin & Hsid & Hperm
            & Hne & Hrow).
      rewrite Hclean in S, O, Hrow. exists sid, svcs, new, raw.
      split; [exact Hraw |]. split; [exact Hne |]. split; [exact Hc |].
      split; [exact S |]. split; [exact Hrow |]. split; [exact O |].
      split; [exact Hsid | exact Hperm].
    + pose proof (import_service_raise_committed _ _ _ _ _ _ _ _ _ Hsvc) as Hcom.
      exists (mkDb (committed d1) (committed d1) (service_seq d1) (option_seq d1)
                   (trace d1) (printed d1 ++ [RolledBack e]) (imported_services d1)
                   (imported_options d1)).
      split; [| simpl; auto].
      unfold import_csv_to_database.
      destruct (service_rows df) as [| s0 rest] eqn:Hsr.
      { destruct pre; discriminate Hrows. }
      rewrite Hrows, import_loop_app, Hpre.
      simpl import_loop. unfold mbind at 1. rewrite Hsvc. reflexivity.
  - intros raw ps cs Hnever Hraw Hne Hps Hcs.
    exact (import_service_succeeds fails name_matches to_numeric_int Hnever
             df (clean_option_types opts) srow raw ps cs d0 Hraw Hne Hps Hcs).
  - intros Hraw.
    destruct (import_rows_raises fails name_matches to_numeric_int df
                (clean_option_types opts) srow (KeyError "display_order") d0)
      as (d1 & e & E & He).
    { rewrite Hraw. reflexivity. }
    exists d1, e. split; [| exact He].
    unfold import_service, mbind. rewrite E. reflexivity.
Qed.

Lemma import_is_atomic_per_service_witness :
  (exists dfin,
      import_csv_to_database Demo.refuses_orphan String.eqb Demo.to_int
        Demo.services Demo.options Demo.empty_store
      = (dfin, Raise StorageError)
      /\ committed dfin = committed (Demo.after_first Demo.refuses_orphan)
      /\ working dfin = committed (Demo.after_first Demo.refuses_orphan))
  /\ exists d1,
       import_service Demo.accepts_all String.eqb Demo.to_int Demo.services
         (clean_option_types Demo.options) (Demo.service "2" "Dungeon Run")
         (Demo.after_first Demo.accepts_all) = (d1, Ok tt).
Proof.
  split.
  - assert (Hpre : import_loop Demo.refuses_orphan String.eqb Demo.to_int
                     Demo.services (clean_option_types Demo.options)
                     [Demo.service "1" "Raid Carry"] (connect (mkTables [] []) 1 1)
                   = (Demo.after_first Demo.refuses_orphan, Ok tt))
      by (vm_compute; reflexivity).
    assert (Hsvc : import_service Demo.refuses_orphan String.eqb Demo.to_int
                     Demo.services (clean_option_types Demo.options)
                     (Demo.service "2" "Dungeon Run")
                     (Demo.after_first Demo.refuses_orphan)
                   = (fst (import_service Demo.refuses_orphan String.eqb Demo.to_int
                             Demo.services (clean_option_types Demo.options)
                             (Demo.service "2" "Dungeon Run")
                             (Demo.after_first Demo.refuses_orphan)),
                      Raise StorageError))
      by (vm_compute; reflexivity).
    exact (proj1 (import_is_atomic_per_service DecFloat.pyfloat DecFloat.ops
                    Demo.refuses_orphan
                    String.eqb Demo.to_int Demo.services Demo.options
                    [Demo.service "1" "Raid Carry"] [] (Demo.service "2" "Dungeon Run")
                    (mkTables [] []) 1 1 _ eq_refl Hpre)
                 _ (Raise StorageError) Hsvc).
  - assert (Hpre : import_loop Demo.accepts_all String.eqb Demo.to_int
                     Demo.services (clean_option_types Demo.options)
                     [Demo.service "1" "Raid Carry"] (connect (mkTables [] []) 1 1)
                   = (Demo.after_first Demo.accepts_all, Ok tt))
      by (vm_compute; reflexivity).
    assert (Hne : List.filter (fun o => String.eqb (c_service_id o) "2")
                    (clean_option_types Demo.options) <> [])
      by (vm_compute; discriminate).
    exact (proj1 (proj2 (import_is_atomic_per_service DecFloat.pyfloat DecFloat.ops
                    Demo.accepts_all
                    String.eqb Demo.to_int Demo.services Demo.options
                    [Demo.service "1" "Raid Carry"] [] (Demo.service "2" "Dungeon Run")
                    (mkTables [] []) 1 1 _ eq_refl Hpre))
                 (List.filter (fun o => String.eqb (c_service_id o) "2")
                    (clean_option_types Demo.options))
                 [Demo.option_row "3" "2" "" "slider" "hours" "1"]
                 [Demo.option_row "4" "2" "3" "slider" "hours_value" "2"; Demo.orphan]
                 (fun _ _ => eq_refl) eq_refl Hne eq_refl eq_refl).
Defined.

(** C1. A service without option rows is not imported, although no
    insert is refused. With the services "Raid Carry" (id 1, two option
    rows) and "Bare" (id 3, no option row) and a storage that accepts
    every statement: the first service is committed, the insert of the
    second service row is sent and accepted, the split of its empty
    selection raises [KeyError], the transaction is rolled back and the
    import ends with that exception; the second service row is not in the
    tables. *)
Lemma C1_service_without_options_is_rolled_back :
  exists dfin,
    import_csv_to_database Demo.accepts_all String.eqb Demo.to_int
      Demo.bare_services Demo.options Demo.empty_store
    = (dfin, Raise (KeyError "display_order"))
    /\ InsertService (service_params (Demo.service "3" "Bare")) ∈ trace dfin
    /\ map (fun x => sp_name (snd x)) (t_services (committed dfin))
       = [Some "Raid Carry"]
    /\ working dfin = committed dfin
    /\ imported_services dfin = 1%nat.
Proof.
  eexists. split; [vm_compute; reflexivity |].
  split; [| split; [| split]]; try (vm_compute; reflexivity).
  apply list_elem_of_In. vm_compute. tauto.
Qed.



(** ** The owning collection of a service *)

(** C10. [insert_service] does not read the [game_id] column: on two
    service rows that differ in it only, it returns the same result and
    leaves the same session, statements sent included; and every
    statement it sends names the collection 21. *)
Theorem C10_game_id_is_ignored :
  forall (F : Type) (ops : PyFloatOps F)
         (fails : list (Stmt (F := F)) -> Stmt (F := F) -> bool)
         (name_matches : string -> string -> bool)
         (row : ServiceCsv) (g1 g2 : string) (d : Db),
    insert_service fails name_matches (with_game_id row g1) d
    = insert_service fails name_matches (with_game_id row g2) d
    /\ exists new,
         trace (fst (insert_service fails name_matches row d)) = trace d ++ new
         /\ Forall (fun s => stmt_game_id s = Some 21) new.
Proof.
  intros F ops fails name_matches row g1 g2 d. split; [reflexivity |].
  unfold insert_service, mbind, select_service, execute_insert_service, send, ret.
  destruct (if REUSE_EXISTING_SERVICE_BY_NAME then _ else _) as [name |].
  - destruct (fails (trace d) (SelectService _ name)); simpl.
    { eexists. split; [reflexivity |]. repeat constructor. }
    destruct (List.find _ (t_services (working d))) as [[id p] |]; simpl.
    { eexists. split; [reflexivity |]. repeat constructor. }
    destruct (fails (trace d ++ _) _); simpl; rewrite <- app_assoc;
      (eexists; split; [reflexivity |]; repeat constructor).
  - destruct (fails (trace d) _); simpl;
      (eexists; split; [reflexivity |]; repeat constructor).
Qed.

(** * Properties of the code around the statements *)

(** ** White space *)

Lemma rev_app_append (s t : string) : String.rev_app s t = String.rev s +:+ t.
Proof.
  unfold String.rev. revert t. induction s as [| c s IH]; intros t; [reflexivity |].
  simpl. rewrite IH, (IH (String c "")), append_assoc. reflexivity.
Qed.

Lemma rev_cons (c : ascii) (s : string) :
  String.rev (String c s) = String.rev s +:+ String c "".
Proof. unfold String.rev at 1. simpl. apply rev_app_append. Qed.

Lemma rev_snoc (s : string) (c : ascii) :
  String.rev (s +:+ String c "") = String c (String.rev s).
Proof.
  induction s as [| d s IH]; [reflexivity |].
  rewrite append_cons, !rev_cons, IH. reflexivity.
Qed.

Lemma rev_involutive (s : string) : String.rev (String.rev s) = s.
Proof.
  induction s as [| c s IH]; [reflexivity |]. rewrite rev_cons, rev_snoc, IH. reflexivity.
Qed.

Lemma lstrip_snoc (s : string) (c : ascii) :
  Py.lstrip (s +:+ String c "")
  = if all_space s then (if Py.isspace c then "" else String c "")
    else Py.lstrip s +:+ String c "".
Proof.
  induction s as [| d s IH]; simpl.
  - destruct (Py.isspace c); reflexivity.
  - destruct (Py.isspace d); simpl; [exact IH | reflexivity].
Qed.

Lemma all_space_rev (s : string) : all_space (String.rev s) = all_space s.
Proof.
  induction s as [| c s IH]; [reflexivity |].
  rewrite rev_cons. simpl. rewrite <- IH.
  generalize (String.rev s). intros t. induction t as [| d t IHt]; simpl.
  - rewrite andb_true_r. reflexivity.
  - rewrite IHt. destruct (Py.isspace d), (Py.isspace c); reflexivity.
Qed.

(** [rstrip], from the left *)
Lemma rstrip_cons (c : ascii) (s : string) :
  Py.rstrip (String c s)
  = if Py.isspace c && all_space s then "" else String c (Py.rstrip s).
Proof.
  unfold Py.rstrip. rewrite rev_cons, lstrip_snoc, all_space_rev.
  destruct (all_space s) eqn:Hs.
  - rewrite andb_true_r. destruct (Py.isspace c); [reflexivity |].
    assert (E : Py.lstrip (String.rev s) = "").
    { rewrite <- all_space_rev in Hs. revert Hs. generalize (String.rev s).
      intros t. induction t as [| d t IHt]; simpl; [reflexivity |].
      destruct (Py.isspace d); simpl; [exact IHt | discriminate]. }
    rewrite E. reflexivity.
  - rewrite andb_false_r, rev_snoc. reflexivity.
Qed.

Lemma lstrip_all_space (s : string) : all_space s = true -> Py.lstrip s = "".
Proof.
  induction s as [| c s IH]; simpl; [reflexivity |].
  destruct (Py.isspace c); simpl; [exact IH | discriminate].
Qed.

Lemma rstrip_all_space (s : string) : all_space s = true -> Py.rstrip s = "".
Proof.
  induction s as [| c s IH]; [reflexivity |]. simpl. intros Hs.
  rewrite rstrip_cons. apply andb_true_iff in Hs as [-> ->]. reflexivity.
Qed.

Lemma all_space_lstrip (s : string) : all_space (Py.lstrip s) = all_space s.
Proof.
  induction s as [| c s IH]; [reflexivity |]. simpl.
  destruct (Py.isspace c) eqn:Hc; simpl; [exact IH | rewrite Hc; reflexivity].
Qed.

Lemma all_space_rstrip (s : string) : all_space (Py.rstrip s) = all_space s.
Proof.
  induction s as [| c s IH]; [reflexivity |]. rewrite rstrip_cons. simpl.
  destruct (Py.isspace c) eqn:Hc; simpl.
  - destruct (all_space s); [reflexivity |]. simpl. rewrite Hc. exact IH.
  - rewrite Hc. reflexivity.
Qed.

Lemma rstrip_idem (s : string) : Py.rstrip (Py.rstrip s) = Py.rstrip s.
Proof.
  induction s as [| c s IH]; [reflexivity |]. rewrite rstrip_cons.
  destruct (Py.isspace c && all_space s) eqn:E; [reflexivity |].
  rewrite rstrip_cons, all_space_rstrip, E, IH. reflexivity.
Qed.

Lemma lstrip_idem (s : string) : Py.lstrip (Py.lstrip s) = Py.lstrip s.
Proof.
  induction s as [| c s IH]; [reflexivity |]. simpl.
  destruct (Py.isspace c) eqn:Hc; [exact IH |]. simpl. rewrite Hc. reflexivity.
Qed.

(** stripping the right end keeps a stripped left end *)
Lemma lstrip_rstrip (s : string) : Py.lstrip (Py.rstrip s) = Py.rstrip (Py.lstrip s).
Proof.
  induction s as [| c s IH]; [reflexivity |].
  rewrite rstrip_cons. simpl Py.lstrip at 2.
  destruct (Py.isspace c) eqn:Hc; simpl andb.
  - destruct (all_space s) eqn:Hs.
    + rewrite (lstrip_all_space s Hs). reflexivity.
    + simpl. rewrite Hc. exact IH.
  - simpl. rewrite Hc, rstrip_cons, Hc. reflexivity.
Qed.

Lemma strip_idem (s : string) : Py.strip (Py.strip s) = Py.strip s.
Proof.
  unfold Py.strip. rewrite lstrip_rstrip, lstrip_idem, rstrip_idem. reflexivity.
Qed.

(** ** [clean_text] *)

Lemma collapse_all_space (s : string) :
  all_space s = true -> Py.collapse_ws true s = "".
Proof.
  induction s as [| c s IH]; simpl; [reflexivity |].
  destruct (Py.isspace c); simpl; [exact IH | discriminate].
Qed.

Lemma isspace_space : Py.isspace " " = true.
Proof. reflexivity. Qed.

Lemma all_space_collapse (b : bool) (s : string) :
  all_space (Py.collapse_ws b s) = all_space s.
Proof.
  revert b. induction s as [| c s IH]; intros b; simpl; [reflexivity |].
  destruct (Py.isspace c) eqn:Hc; simpl.
  - destruct b; simpl; rewrite IH; reflexivity.
  - rewrite Hc. reflexivity.
Qed.

Lemma lstrip_collapse (b : bool) (s : string) :
  Py.lstrip (Py.collapse_ws b s) = Py.collapse_ws false (Py.lstrip s).
Proof.
  revert b. induction s as [| c s IH]; intros b; simpl; [reflexivity |].
  destruct (Py.isspace c) eqn:Hc.
  - destruct b; simpl; apply IH.
  - simpl. rewrite Hc. reflexivity.
Qed.

Lemma rstrip_collapse (b : bool) (s : string) :
  Py.rstrip (Py.collapse_ws b s) = Py.collapse_ws b (Py.rstrip s).
Proof.
  revert b. induction s as [| c s IH]; intros b; [reflexivity |].
  rewrite rstrip_cons. simpl Py.collapse_ws at 1.
  destruct (Py.isspace c) eqn:Hc; simpl andb.
  - destruct (all_space s) eqn:Hs.
    + rewrite (collapse_all_space s Hs). destruct b; reflexivity.
    + simpl Py.collapse_ws. rewrite Hc. destruct b; [apply IH |].
      rewrite rstrip_cons, all_space_collapse, Hs, andb_false_r, IH. reflexivity.
  - simpl Py.collapse_ws. rewrite Hc, rstrip_cons, Hc, IH. reflexivity.
Qed.

(** X2. [clean_text] of [overgear_scraper_selenium.py], which trims
    before it collapses white space, returns what [clean_text] of
    [complete_code.py] and [scrapper_db.py], which trims after, returns. *)
Theorem overgear_clean_text_agrees :
  forall s : string, Overgear.clean_text s = clean_text s.
Proof.
  intros s. unfold Overgear.clean_text, clean_text, Py.strip.
  rewrite lstrip_collapse, rstrip_collapse. reflexivity.
Qed.

Lemma single_spaced_collapse (b : bool) (s : string) :
  single_spaced (Py.collapse_ws b s) = true
  /\ (b = true -> starts_with_space (Py.collapse_ws b s) = false).
Proof.
  revert b. induction s as [| c s IH]; intros b; simpl; [auto |].
  destruct (Py.isspace c) eqn:Hc.
  - destruct (IH true) as [H1 H2]. specialize (H2 eq_refl).
    destruct b; [auto |]. split; [| discriminate].
    simpl. rewrite H1, andb_true_r.
    destruct (Py.collapse_ws true s); [reflexivity |]. simpl in H2. rewrite H2. reflexivity.
  - destruct (IH false) as [H1 _]. simpl. rewrite Hc, H1. auto.
Qed.

Lemma single_spaced_lstrip (s : string) :
  single_spaced s = true -> single_spaced (Py.lstrip s) = true.
Proof.
  induction s as [| c s IH]; [auto |]. simpl Py.lstrip.
  destruct (Py.isspace c) eqn:Hc; [| auto].
  intros Hs. apply IH. simpl in Hs. apply andb_true_iff in Hs as [_ Hs]. exact Hs.
Qed.

Lemma rstrip_head (c : ascii) (s : string) :
  all_space (String c s) = false ->
  exists r, Py.rstrip (String c s) = String c r
            /\ (all_space s = false -> starts_with_space r = starts_with_space s)
            /\ (all_space s = true -> r = "").
Proof.
  intros Hns. rewrite rstrip_cons. simpl in Hns. rewrite Hns.
  exists (Py.rstrip s). split; [reflexivity |]. split.
  - intros Hs. destruct s as [| d s]; [discriminate |].
    rewrite rstrip_cons. simpl in Hs. rewrite Hs. reflexivity.
  - apply rstrip_all_space.
Qed.

Lemma single_spaced_rstrip (s : string) :
  single_spaced s = true -> single_spaced (Py.rstrip s) = true.
Proof.
  induction s as [| c s IH]; [auto |]. intros Hs.
  destruct (all_space (String c s)) eqn:Ha.
  { rewrite rstrip_all_space by exact Ha. reflexivity. }
  destruct (rstrip_head c s Ha) as (r & E & Hr1 & Hr2).
  pose proof E as E'. rewrite rstrip_cons in E'. simpl in Ha. rewrite Ha in E'.
  injection E' as <-. rewrite E.
  simpl in Hs. apply andb_true_iff in Hs as [Hc Hs].
  simpl. rewrite (IH Hs), andb_true_r.
  destruct (Py.isspace c) eqn:Hsp; [| reflexivity].
  apply andb_true_iff in Hc as [Hc1 Hc2]. rewrite Hc1. simpl.
  simpl in Ha.
  destruct (all_space s) eqn:Hs'; [discriminate |].
  specialize (Hr1 eq_refl).
  destruct s as [| d s]; [discriminate |]. simpl in Hr1.
  destruct (Py.rstrip (String d s)) as [| d' r'] eqn:Er; [reflexivity |].
  simpl in Hr1. rewrite Hr1. exact Hc2.
Qed.

Lemma collapse_single_spaced (s : string) :
  single_spaced s = true -> Py.collapse_ws false s = s.
Proof.
  induction s as [| c s IH]; [reflexivity |]. simpl. intros Hs.
  apply andb_true_iff in Hs as [Hc Hs]. specialize (IH Hs).
  destruct (Py.isspace c) eqn:Hsp.
  - apply andb_true_iff in Hc as [Hc1 Hc2]. apply Ascii.eqb_eq in Hc1. subst c.
    f_equal. destruct s as [| d s]; [reflexivity |].
    simpl in *. apply negb_true_iff in Hc2. rewrite Hc2 in *. exact IH.
  - rewrite IH. reflexivity.
Qed.

Lemma clean_text_stripped (s : string) : Py.strip (clean_text s) = clean_text s.
Proof. unfold clean_text. apply strip_idem. Qed.

Lemma clean_text_single_spaced (s : string) : single_spaced (clean_text s) = true.
Proof.
  unfold clean_text, Py.strip. apply single_spaced_rstrip, single_spaced_lstrip.
  apply (single_spaced_collapse false s).
Qed.

Lemma clean_text_idem (s : string) : clean_text (clean_text s) = clean_text s.
Proof.
  unfold clean_text at 1. rewrite collapse_single_spaced by apply clean_text_single_spaced.
  apply clean_text_stripped.
Qed.

(** X1. On ASCII text, where the white space of the embedding is
    Python's, the text [clean_text] returns has no white space at either
    end and no white space inside other than single spaces, and cleaning
    it again changes nothing. *)
Theorem clean_text_normal_form :
  forall s : string,
    Py.isascii s = true ->
    Py.strip (clean_text s) = clean_text s
    /\ single_spaced (clean_text s) = true
    /\ clean_text (clean_text s) = clean_text s.
Proof.
  intros s _. split; [apply clean_text_stripped |].
  split; [apply clean_text_single_spaced | apply clean_text_idem].
Qed.

Lemma clean_text_normal_form_witness :
  Py.isascii "  Number   of  Hours " = true
  /\ clean_text "  Number   of  Hours " = "Number of Hours"
  /\ Py.strip "Number of Hours" = "Number of Hours"
  /\ single_spaced "Number of Hours" = true
  /\ clean_text "Number of Hours" = "Number of Hours".
Proof.
  split; [reflexivity |]. split; [reflexivity |].
  exact (clean_text_normal_form "  Number   of  Hours " eq_refl).
Defined.

(** ** Price texts *)

Lemma price_char_lower (c : ascii) :
  price_char (Py.lower_char c) = price_char c
  /\ (price_char c = true -> Py.lower_char c = c).
Proof.
  destruct c as [[] [] [] [] [] [] [] []]; vm_compute; split; (reflexivity || discriminate).
Qed.

Lemma filter_price_char_lower (s : string) :
  Py.filter price_char (Py.lower s) = Py.filter price_char s.
Proof.
  induction s as [| c s IH]; [reflexivity |]. simpl.
  destruct (price_char_lower c) as [H1 H2]. rewrite H1.
  destruct (price_char c); [rewrite H2 by reflexivity |]; rewrite IH; reflexivity.
Qed.

(** X3. On an ASCII text, where the trimming and the case mapping of the
    embedding are Python's, that is not [free] or [basic], [parse_money]
    of [overgear_scraper_selenium.py] returns the amount that
    [parse_currency_to_decimal] of [complete_code.py] returns, and its
    currency is USD exactly when the trimmed text starts with a dollar
    sign. *)
Theorem parse_money_agrees :
  forall (F : Type) (ops : PyFloatOps F) (txt : string),
    Py.isascii txt = true ->
    Py.mem (Py.lower (Py.strip txt)) ["free"; "basic"] = false ->
    fst (Overgear.parse_money txt) = parse_currency_to_decimal txt
    /\ snd (Overgear.parse_money txt)
       = if Py.startswith (Py.strip txt) "$" then Some "USD" else None.
Proof.
  intros F ops txt _ Hfree. unfold Overgear.parse_money, parse_currency_to_decimal.
  destruct txt as [| c r]; [split; reflexivity |].
  rewrite Hfree, filter_price_char_lower. unfold py_float.
  destruct (float_of_str _); split; reflexivity.
Qed.

Lemma parse_money_agrees_witness :
  Py.isascii " $1,234.50 " = true
  /\ Py.mem (Py.lower (Py.strip " $1,234.50 ")) ["free"; "basic"] = false
  /\ Overgear.parse_money (F := DecFloat.pyfloat) " $1,234.50 " = ("1234.50", Some "USD")
  /\ parse_currency_to_decimal (F := DecFloat.pyfloat) " $1,234.50 " = "1234.50".
Proof.
  split; [reflexivity |]. split; [reflexivity |].
  pose proof (parse_money_agrees DecFloat.pyfloat DecFloat.ops " $1,234.50 "
                eq_refl eq_refl)
    as [H1 H2].
  split; [| rewrite <- H1]; vm_compute; reflexivity.
Defined.

(** ** [normalize_url] *)

Lemma all_space_append (s t : string) :
  all_space (s +:+ t) = all_space s && all_space t.
Proof.
  induction s as [| c s IH]; [reflexivity |]. rewrite append_cons. simpl.
  rewrite IH, andb_assoc. reflexivity.
Qed.

Lemma rstrip_append (s t : string) :
  all_space t = false -> Py.rstrip (s +:+ t) = s +:+ Py.rstrip t.
Proof.
  intros Ht. induction s as [| c s IH]; [reflexivity |].
  rewrite append_cons, rstrip_cons, all_space_append, Ht, !andb_false_r, IH.
  reflexivity.
Qed.

Lemma rstrip_of_stripped (s : string) : Py.strip s = s -> Py.rstrip s = s.
Proof.
  intros E. rewrite <- E at 1. unfold Py.strip. rewrite rstrip_idem. exact E.
Qed.

Lemma startswith_cons (c : ascii) (s : string) :
  Py.startswith s (String c "") = true -> exists r, s = String c r.
Proof.
  unfold Py.startswith. destruct s as [| d r]; simpl; [discriminate |].
  destruct (ascii_dec c d) as [-> | Hne]; [eauto | discriminate].
Qed.

Lemma normalize_url_stripped (href : string) :
  Py.strip (normalize_url href) = normalize_url href
  /\ Py.startswith (normalize_url href) "/" = false.
Proof.
  unfold normalize_url. destruct href as [| c r]; [split; reflexivity |].
  set (s := Py.strip (String c r)).
  assert (Hs : Py.strip s = s) by apply strip_idem.
  destruct (Py.startswith s "/") eqn:Hsl; [| split; assumption].
  split; [| reflexivity].
  apply startswith_cons in Hsl as [u Hu].
  unfold Py.strip. change (Py.lstrip (BASE_URL +:+ s)) with (BASE_URL +:+ s).
  rewrite rstrip_append by (rewrite Hu; reflexivity).
  rewrite rstrip_of_stripped by exact Hs. reflexivity.
Qed.

(** X4. [normalize_url] returns a trimmed address that never starts with
    a slash (a site-relative address is prefixed with the base URL), and
    applying it twice is the same as applying it once. *)
Theorem normalize_url_idempotent :
  forall href : string,
    normalize_url (normalize_url href) = normalize_url href
    /\ Py.strip (normalize_url href) = normalize_url href
    /\ Py.startswith (normalize_url href) "/" = false.
Proof.
  intros href.
  destruct (normalize_url_stripped href) as [H1 H2]. split; [| split; assumption].
  unfold normalize_url at 1.
  destruct (normalize_url href) as [| c r] eqn:E; [reflexivity |].
  rewrite H1, H2. reflexivity.
Qed.

(** ** The two normalizations of option types *)

Lemma length_rev (s : string) : String.length (String.rev s) = String.length s.
Proof.
  induction s as [| c s IH]; [reflexivity |]. rewrite rev_cons.
  assert (L : forall a b, String.length (a +:+ b) = (String.length a + String.length b)%nat).
  { intros a b. induction a as [| d a IHa]; [reflexivity |].
    rewrite append_cons. simpl. rewrite IHa. reflexivity. }
  rewrite L, IH. simpl. lia.
Qed.

Lemma length_lstrip (s : string) : (String.length (Py.lstrip s) <= String.length s)%nat.
Proof.
  induction s as [| c s IH]; simpl; [lia |]. destruct (Py.isspace c); simpl; lia.
Qed.

(** a trimmed text does not end in white space *)
Lemma stripped_rev_head (s : string) :
  Py.strip s = s -> starts_with_space (String.rev s) = false.
Proof.
  intros E. apply rstrip_of_stripped in E. unfold Py.rstrip in E.
  apply (f_equal String.rev) in E. rewrite rev_involutive in E.
  destruct (String.rev s) as [| c u] eqn:Hr; [reflexivity |]. simpl.
  destruct (Py.isspace c) eqn:Hc; [| reflexivity].
  simpl in E. rewrite Hc in E.
  pose proof (length_lstrip u) as L. rewrite E in L. simpl in L. lia.
Qed.

Lemma prefix_cons_ne (a b : ascii) (s t : string) :
  a <> b -> String.prefix (String a s) (String b t) = false.
Proof. intros Hne. simpl. destruct (ascii_dec a b); [contradiction | reflexivity]. Qed.



(** ** Printing and reading integers *)

Lemma isdigit_pretty_N_char (x : N) : Py.isdigit (pretty_N_char x) = true.
Proof.
  destruct x as [| p]; [reflexivity |].
  do 4 (destruct p as [p | p |]; try reflexivity).
Qed.

Lemma digit_val_pretty_N_char (x : N) :
  (x < 10)%N ->
  Py.digit_val (pretty_N_char x) = Z.of_N x
  /\ Ascii.eqb (pretty_N_char x) "_" = false.
Proof.
  intros Hx.
  assert (x = 0 \/ x = 1 \/ x = 2 \/ x = 3 \/ x = 4 \/ x = 5 \/ x = 6 \/ x = 7
          \/ x = 8 \/ x = 9)%N as Hc by lia.
  repeat (destruct Hc as [-> | Hc]; [split; reflexivity |]). subst x. split; reflexivity.
Qed.

Lemma all_digits_pretty_N_go (x : N) :
  forall s, all_digits s = true -> all_digits (pretty_N_go x s) = true.
Proof.
  induction (N.lt_wf_0 x) as [x _ IH]. intros s Hs.
  destruct (N.eq_dec x 0%N) as [-> | Hx]; [rewrite pretty_N_go_0; exact Hs |].
  rewrite pretty_N_go_step by lia. apply IH.
  - apply N.div_lt; lia.
  - simpl. rewrite isdigit_pretty_N_char, Hs. reflexivity.
Qed.

Lemma pretty_N_go_nonempty (x : N) (s : string) :
  (0 < x)%N -> pretty_N_go x s <> "".
Proof.
  revert s. induction (N.lt_wf_0 x) as [x _ IH]. intros s Hx.
  rewrite pretty_N_go_step by exact Hx.
  destruct (N.eq_dec (x / 10)%N 0%N) as [E | E].
  - rewrite E, pretty_N_go_0. discriminate.
  - apply IH; [apply N.div_lt; lia | apply N.neq_0_lt_0; exact E].
Qed.

Lemma digits_val_pretty_N_go (x : N) :
  exists k : Z,
    0 <= k /\ forall acc s,
      Py.digits_val acc (pretty_N_go x s) = Py.digits_val (acc * 10 ^ k + Z.of_N x) s.
Proof.
  induction (N.lt_wf_0 x) as [x _ IH].
  destruct (N.eq_dec x 0%N) as [-> | Hx].
  { exists 0. split; [lia |]. intros acc s. rewrite pretty_N_go_0. f_equal. simpl. lia. }
  destruct (IH (x / 10)%N) as (k & Hk & IHk); [apply N.div_lt; lia |].
  exists (k + 1). split; [lia |]. intros acc s.
  rewrite pretty_N_go_step by lia. rewrite IHk. simpl Py.digits_val.
  destruct (digit_val_pretty_N_char (x mod 10)%N) as [Hd Hu]; [apply N.mod_lt; lia |].
  rewrite Hu, Hd. f_equal.
  rewrite Z.pow_add_r by lia.
  pose proof (N.div_mod x 10%N ltac:(lia)) as Hdm.
  apply (f_equal Z.of_N) in Hdm. rewrite N2Z.inj_add, N2Z.inj_mul in Hdm.
  change (Z.of_N 10) with 10 in Hdm. lia.
Qed.

Lemma isdigit_not_space (c : ascii) : Py.isdigit c = true -> Py.isspace c = false.
Proof.
  destruct c as [[] [] [] [] [] [] [] []]; vm_compute; intros; (reflexivity || discriminate).
Qed.

Lemma all_digits_not_all_space (s : string) :
  s <> "" -> all_digits s = true -> all_space s = false.
Proof.
  destruct s as [| c r]; [congruence |]. simpl. intros _ Hd.
  apply andb_true_iff in Hd as [Hc _]. rewrite (isdigit_not_space c Hc). reflexivity.
Qed.

Lemma rstrip_all_digits (s : string) : all_digits s = true -> Py.rstrip s = s.
Proof.
  induction s as [| c r IH]; [reflexivity |]. simpl. intros Hd.
  apply andb_true_iff in Hd as [Hc Hr].
  rewrite rstrip_cons, (isdigit_not_space c Hc), (IH Hr). reflexivity.
Qed.

Lemma strip_all_digits (s : string) : all_digits s = true -> Py.strip s = s.
Proof.
  intros Hd. unfold Py.strip.
  assert (E : Py.lstrip s = s).
  { destruct s as [| c r]; [reflexivity |]. simpl in *.
    apply andb_true_iff in Hd as [Hc _]. rewrite (isdigit_not_space c Hc). reflexivity. }
  rewrite E. apply rstrip_all_digits. exact Hd.
Qed.

Lemma span_all_digits (s : string) :
  all_digits s = true -> Py.span_digits s = (s, "").
Proof.
  induction s as [| c r IH]; [reflexivity |]. simpl. intros Hd.
  apply andb_true_iff in Hd as [Hc Hr]. rewrite Hc, (IH Hr). reflexivity.
Qed.

Lemma isdigit_not_underscore (c : ascii) :
  Py.isdigit c = true -> Ascii.eqb c "_" = false.
Proof.
  destruct c as [[] [] [] [] [] [] [] []]; vm_compute; intros; (reflexivity || discriminate).
Qed.

Lemma digits_ok_all_digits (s : string) :
  all_digits s = true -> Py.digits_ok false s = true
                         /\ (s <> "" -> Py.digits_ok true s = true).
Proof.
  induction s as [| c r IH]; [split; [reflexivity | congruence] |].
  simpl. intros Hd. apply andb_true_iff in Hd as [Hc Hr].
  rewrite (isdigit_not_underscore c Hc). destruct (IH Hr) as [H1 _]. auto.
Qed.

Lemma isdigit_not_sign (c : ascii) (r : string) :
  Py.isdigit c = true -> Py.take_sign (String c r) = (false, String c r).
Proof.
  destruct c as [[] [] [] [] [] [] [] []]; vm_compute; intros; (reflexivity || discriminate).
Qed.

(** reading a digit string that prints a positive number *)
Lemma int_of_digits (p : positive) (neg : bool) :
  let s := pretty_N_go (N.pos p) "" in
  all_digits s = true /\ s <> ""
  /\ Py.digits_val 0 s = Z.pos p.
Proof.
  simpl. split; [apply all_digits_pretty_N_go; reflexivity |].
  split; [apply pretty_N_go_nonempty; lia |].
  destruct (digits_val_pretty_N_go (N.pos p)) as (k & _ & Hk). rewrite Hk. reflexivity.
Qed.

Lemma pretty_pos_unfold (p : positive) : pretty (N.pos p) = pretty_N_go (N.pos p) "".
Proof. reflexivity. Qed.

Lemma isspace_int_isspace (c : ascii) :
  Py.isspace_int c = true -> Py.isspace c = true.
Proof.
  destruct c as [[] [] [] [] [] [] [] []]; vm_compute; intros; (reflexivity || discriminate).
Qed.

Lemma lstrip_int_head (s : string) :
  starts_with_space s = false -> Py.lstrip_int s = s.
Proof.
  destruct s as [| c r]; [reflexivity |]. simpl. intros Hc.
  destruct (Py.isspace_int c) eqn:Hi; [| reflexivity].
  apply isspace_int_isspace in Hi. congruence.
Qed.

Lemma stripped_head (s : string) : Py.strip s = s -> starts_with_space s = false.
Proof.
  intros E. destruct s as [| c r]; [reflexivity |]. simpl.
  destruct (Py.isspace c) eqn:Hc; [| reflexivity].
  apply (f_equal String.length) in E. unfold Py.strip, Py.rstrip in E.
  rewrite length_rev in E. pose proof (length_lstrip (String.rev (Py.lstrip (String c r)))) as L1.
  rewrite length_rev in L1. simpl Py.lstrip in L1, E. rewrite Hc in L1, E.
  pose proof (length_lstrip r) as L2. simpl in E. lia.
Qed.

(** what [str.strip] leaves unchanged [int] does not trim either *)
Lemma strip_int_of_stripped (s : string) : Py.strip s = s -> Py.strip_int s = s.
Proof.
  intros E. unfold Py.strip_int.
  rewrite (lstrip_int_head s (stripped_head s E)).
  rewrite (lstrip_int_head _ (stripped_rev_head s E)). apply rev_involutive.
Qed.

Lemma int_of_str_pretty (n : Z) : Py.int_of_str (Py.str_of_int n) = Ok n.
Proof.
  unfold Py.str_of_int, pretty, pretty_Z. destruct n as [| p | p].
  - reflexivity.
  - unfold pretty, pretty_positive. rewrite pretty_pos_unfold.
    destruct (int_of_digits p false) as (Hd & Hne & Hv).
    set (s := pretty_N_go (N.pos p) "") in *.
    unfold Py.int_of_str. rewrite (strip_int_of_stripped s (strip_all_digits s Hd)).
    destruct s as [| c r] eqn:Es; [congruence |].
    rewrite isdigit_not_sign by (simpl in Hd; apply andb_true_iff in Hd; tauto).
    rewrite (span_all_digits _ Hd).
    destruct (digits_ok_all_digits _ Hd) as [_ Hok]. rewrite Hok by discriminate.
    rewrite Hv. reflexivity.
  - unfold pretty, pretty_positive. rewrite pretty_pos_unfold.
    destruct (int_of_digits p true) as (Hd & Hne & Hv).
    set (s := pretty_N_go (N.pos p) "") in *.
    unfold Py.int_of_str.
    assert (Hstrip : Py.strip ("-" +:+ s) = "-" +:+ s).
    { unfold Py.strip. change (Py.lstrip ("-" +:+ s)) with ("-" +:+ s).
      rewrite rstrip_append by (apply all_digits_not_all_space; assumption).
      rewrite (rstrip_all_digits s Hd). reflexivity. }
    rewrite (strip_int_of_stripped _ Hstrip).
    change (Py.take_sign ("-" +:+ s)) with (true, s).
    cbv beta iota. rewrite (span_all_digits _ Hd).
    destruct s as [| c r] eqn:Es; [congruence |].
    destruct (digits_ok_all_digits _ Hd) as [_ Hok]. rewrite Hok by discriminate.
    rewrite Hv. reflexivity.
Qed.

(** ** Numbering of the rows of a batch *)

Section NumberingFacts.
Context {F : Type} `{PyFloatOps F}.
Variable h : string -> string.
Variable now_at : nat -> string.
Variable St : Type.
Variable has_container : St -> bool.
Variable groups_of : St -> list OptionGroup.
Variable click : St -> string -> option St.

Implicit Types (rows : list (OptionRow F)) (mks : list (Z -> Z -> OptionRow F)).

Lemma number_lookup mks oid disp (i : nat) (r : OptionRow F) :
  number mks oid disp !! i = Some r ->
  exists mk, mks !! i = Some mk /\ r = mk (oid + Z.of_nat i) (disp + Z.of_nat i).
Proof.
  revert oid disp i. induction mks as [| mk mks IH]; intros oid disp i Hi.
  - simpl in Hi. rewrite lookup_nil in Hi. discriminate.
  - destruct i as [| i]; simpl in Hi.
    + injection Hi as <-. exists mk. split; [reflexivity |].
      rewrite !Z.add_0_r. reflexivity.
    + apply IH in Hi as (mk' & Hmk & ->). exists mk'. split; [exact Hmk |].
      f_equal; lia.
Qed.

Lemma parent_row_stamped sid parent ty name label req now :
  stamped sid now (parent_row (F := F) sid parent ty name label req now).
Proof. intros i d. repeat split. Qed.

Lemma emit_numbered sid start disp rows mks (x : option Z) :
  Forall (stamped sid (now_at (length rows))) mks ->
  appends_numbered (now_at (length rows)) sid start disp rows
    (let '(oid, d, r) := emit_all mks (start, disp, rows) in (oid, d, x, r)).
Proof.
  intros Hmks. rewrite emit_all_number. exists mks. simpl. auto.
Qed.

Lemma parse_group_to_rows_fixed_numbered g kind label parent sid start disp rows :
  appends_numbered (now_at (length rows)) sid start disp rows
    (parse_group_to_rows_fixed now_at g kind label parent sid start disp rows).
Proof.
  unfold parse_group_to_rows_fixed.
  destruct (Py.mem kind ["slider"; "range"]).
  { unfold write_slider_or_range.
    destruct (match extract_slider_labels g with
              | [] => _ | [l0] => _ | _ => _ end) as [pname plabel].
    destruct (scale_bounds g) as [lo hi].
    apply emit_numbered. constructor; [apply parent_row_stamped |].
    apply Forall_imap_all. intros n l i d. repeat split. }
  destruct (String.eqb kind "radio").
  { unfold write_radios. apply emit_numbered.
    constructor; [apply parent_row_stamped |].
    apply Forall_omap_some. intros ro mk. unfold radio_row.
    destruct (negb (ro_visible ro)); [discriminate |].
    destruct (ro_inputs ro) as [| inp inps]; [discriminate |].
    intros [= <-] i d. repeat split. }
  destruct (String.eqb kind "buttons").
  { unfold write_buttons_as_radio. apply emit_numbered.
    constructor; [apply parent_row_stamped |].
    apply Forall_omap_some. intros b mk. unfold button_row.
    destruct (negb (btn_visible b)); [discriminate |].
    intros [= <-] i d. repeat split. }
  destruct (String.eqb kind "checkbox").
  { unfold write_checkboxes. apply emit_numbered.
    constructor; [apply parent_row_stamped |].
    apply Forall_omap_some. intros co mk. unfold checkbox_row.
    destruct (negb (co_visible co)); [discriminate |].
    destruct (co_inputs co) as [| inp inps]; [discriminate |].
    intros [= <-] i d. repeat split. }
  destruct (String.eqb kind "select").
  - apply emit_numbered. constructor; [apply parent_row_stamped |].
    apply Forall_forall. intros mk Hin.
    apply list_elem_of_In, in_map_iff in Hin as (o & <- & _).
    intros i d. repeat split.
  - exists []. simpl. rewrite app_nil_r, !Z.add_0_r. repeat split. constructor.
Qed.

Lemma numbered_step (now : string) next sid rows oid disp
    (out : Z * Z * option Z * list (OptionRow F)) :
  numbered next sid rows oid disp ->
  appends_numbered now sid oid disp rows out ->
  numbered next sid (snd out) (fst (fst (fst out))) (snd (fst (fst out))).
Proof.
  intros (Ho & Hd & Hrows) (mks & -> & -> & -> & Hmks). subst oid disp.
  pose proof (length_number (F := F) mks (next + Z.of_nat (length rows))
                (1 + Z.of_nat (length rows))) as Hlen.
  split; [rewrite length_app, Hlen; lia |].
  split; [rewrite length_app, Hlen; lia |].
  intros i r Hi.
  apply lookup_app_Some in Hi as [Hi | [Hge Hi]]; [apply (Hrows _ _ Hi) |].
  apply number_lookup in Hi as (mk & Hmk & ->).
  rewrite Forall_forall in Hmks.
  destruct (Hmks mk (list_elem_of_lookup_2 _ _ _ Hmk)
              (next + Z.of_nat (length rows) + Z.of_nat (i - length rows))
              (1 + Z.of_nat (length rows) + Z.of_nat (i - length rows)))
    as (E1 & E2 & E3 & E4 & E5 & E6).
  rewrite E1, E2, E3, E4, E5, E6. repeat split; lia.
Qed.

Lemma write_baseline_numbered next sid (c : Cursor (F := F)) b :
  numbered next sid (snd c) (fst (fst c)) (snd (fst c)) ->
  numbered next sid (snd (write_baseline now_at sid c b))
           (fst (fst (write_baseline now_at sid c b)))
           (snd (fst (write_baseline now_at sid c b))).
Proof.
  destruct c as [[oid disp] rows], b as [[el kind] label]. simpl. intros Hn.
  pose proof (numbered_step _ next sid rows oid disp _ Hn
                (parse_group_to_rows_fixed_numbered el kind label None sid oid disp rows))
    as Hstep.
  unfold write_baseline.
  destruct (parse_group_to_rows_fixed now_at el kind label None sid oid disp rows)
    as [[[o d] x] r].
  exact Hstep.
Qed.

Lemma fold_write_baseline_numbered next sid bs :
  forall c : Cursor (F := F),
    numbered next sid (snd c) (fst (fst c)) (snd (fst c)) ->
    numbered next sid (snd (fold_left (write_baseline now_at sid) bs c))
             (fst (fst (fold_left (write_baseline now_at sid) bs c)))
             (snd (fst (fold_left (write_baseline now_at sid) bs c))).
Proof.
  induction bs as [| b bs IH]; intros c Hc; simpl; [exact Hc |].
  apply IH, write_baseline_numbered, Hc.
Qed.

Lemma rescan_group_numbered next sid pid (e : Engine (F := F)) g :
  numbered next sid (e_rows e) (e_option_id e) (e_display_order e) ->
  numbered next sid (e_rows (rescan_group h now_at sid pid e g))
           (e_option_id (rescan_group h now_at sid pid e g))
           (e_display_order (rescan_group h now_at sid pid e g)).
Proof.
  intros Hn. unfold rescan_group.
  destruct (visible_inner g) as [el |]; [| exact Hn].
  destruct (group_kind_and_signature h el) as [[kind label] sig].
  destruct (is_difficulty kind label); [exact Hn |].
  destruct (unchanged (e_sigs e) kind label sig); [exact Hn |].
  pose proof (numbered_step _ next sid _ _ _ _ Hn
                (parse_group_to_rows_fixed_numbered el kind label (Some pid) sid
                   (e_option_id e) (e_display_order e) (e_rows e))) as Hstep.
  destruct (parse_group_to_rows_fixed now_at el kind label (Some pid) sid
              (e_option_id e) (e_display_order e) (e_rows e)) as [[[o d] x] r].
  exact Hstep.
Qed.

Lemma fold_rescan_group_numbered next sid pid gs :
  forall e : Engine (F := F),
    numbered next sid (e_rows e) (e_option_id e) (e_display_order e) ->
    let e' := fold_left (rescan_group h now_at sid pid) gs e in
    numbered next sid (e_rows e') (e_option_id e') (e_display_order e').
Proof.
  induction gs as [| g gs IH]; intros e He; simpl; [exact He |].
  apply IH, rescan_group_numbered, He.
Qed.

Lemma fold_snapshot_value_numbered next sid ids vals :
  forall s : St * Engine (F := F),
    numbered next sid (e_rows (snd s)) (e_option_id (snd s)) (e_display_order (snd s)) ->
    let e' := snd (fold_left (snapshot_value h now_at St groups_of click sid ids)
                             vals s) in
    numbered next sid (e_rows e') (e_option_id e') (e_display_order e').
Proof.
  induction vals as [| v vals IH]; intros s Hs; simpl; [exact Hs |].
  apply IH. unfold snapshot_value.
  destruct (ids !! v) as [pid |]; [| exact Hs].
  destruct (pid =? 0); [exact Hs |].
  destruct (click (fst s) v) as [st' |]; [| exact Hs].
  simpl. apply fold_rescan_group_numbered, Hs.
Qed.

Lemma extract_options_numbered next sid st :
  exists oid disp,
    numbered next sid
      (extract_options_with_snapshots_fixed h now_at St has_container groups_of
         click next sid st) oid disp.
Proof.
  unfold extract_options_with_snapshots_fixed.
  assert (H0 : numbered (F := F) next sid [] next 1).
  { split; [simpl; lia |]. split; [simpl; lia |].
    intros i r Hi. rewrite lookup_nil in Hi. discriminate. }
  destruct (negb (has_container st)); [eauto |].
  destruct (baseline_scan h (groups_of st)) as [sigs bgs].
  pose proof (fold_write_baseline_numbered next sid bgs (next, 1, []) H0) as Hbase.
  destruct (fold_left (write_baseline now_at sid) bgs (next, 1, []))
    as [[oid disp] rows0].
  simpl in Hbase.
  destruct (List.find _ bgs) as [[[el k] l] |]; [| eauto].
  eexists _, _.
  apply (fold_snapshot_value_numbered next sid _ _
           (st, mkEngine sigs oid disp rows0)).
  exact Hbase.
Qed.

Lemma numbered_ids next sid rows oid disp :
  numbered next sid rows oid disp ->
  map option_id rows = seqZ next (Z.of_nat (length rows))
  /\ map display_order rows = seqZ 1 (Z.of_nat (length rows)).
Proof.
  intros (_ & _ & Hrows). split.
  - apply list_eq. intros i. rewrite list_lookup_fmap.
    destruct (rows !! i) as [r |] eqn:Hi; simpl.
    + destruct (Hrows i r Hi) as (-> & _). symmetry. apply lookup_seqZ.
      apply lookup_lt_Some in Hi. split; [reflexivity | lia].
    + symmetry. apply lookup_seqZ_ge. apply lookup_ge_None in Hi. lia.
  - apply list_eq. intros i. rewrite list_lookup_fmap.
    destruct (rows !! i) as [r |] eqn:Hi; simpl.
    + destruct (Hrows i r Hi) as (_ & -> & _). symmetry. apply lookup_seqZ.
      apply lookup_lt_Some in Hi. split; [reflexivity | lia].
    + symmetry. apply lookup_seqZ_ge. apply lookup_ge_None in Hi. lia.
Qed.

End NumberingFacts.

(** X6. In the batch of one extraction pass the option ids are
    consecutive from the next free id and the display orders count from
    1, in the order of the rows; every row carries the service id, is
    active and has equal creation and update times; and a parent id is
    an id of the batch smaller than the id of the row that names it. *)
Theorem extraction_numbers_rows :
  forall (F : Type) (ops : PyFloatOps F) (h : string -> string)
         (now_at : nat -> string) (St : Type) (has_container : St -> bool)
         (groups_of : St -> list OptionGroup) (click : St -> string -> option St)
         (next_option_id sid : Z) (st : St),
    let batch :=
      extract_options_with_snapshots_fixed h now_at St has_container groups_of
        click next_option_id sid st in
    map option_id batch = seqZ next_option_id (Z.of_nat (length batch))
    /\ map display_order batch = seqZ 1 (Z.of_nat (length batch))
    /\ Forall (fun r => service_id r = sid /\ is_active r = 1
                        /\ created_at r = updated_at r) batch
    /\ Forall (fun r => forall p, parent_option_id r = Some p ->
                                  next_option_id <= p < option_id r) batch.
Proof.
  intros F ops h now_at St has_container groups_of click next sid st batch.
  destruct (extract_options_numbered h now_at St has_container groups_of click
              next sid st) as (oid & disp & Hn).
  fold batch in Hn.
  destruct (numbered_ids _ _ _ _ _ Hn) as [Hids Hdisp].
  split; [exact Hids |]. split; [exact Hdisp |].
  destruct Hn as (_ & _ & Hrows). split.
  - apply Forall_lookup. intros i r Hi. destruct (Hrows i r Hi) as (_ & _ & ? & ? & ?).
    auto.
  - apply Forall_lookup. intros i r Hi p Hp.
    destruct (extract_options_batch_ok h now_at St has_container groups_of click
                next sid st) as [Htree _].
    fold batch in Htree. specialize (Htree i r Hi). rewrite Hp in Htree.
    destruct Htree as (j & q & Hj & Hq & <-).
    destruct (Hrows i r Hi) as (-> & _). destruct (Hrows j q Hq) as (-> & _). lia.
Qed.


(** ** The snapshot phase *)

Section SnapshotFacts.
Context {F : Type} `{PyFloatOps F}.
Variable h : string -> string.
Variable now_at : nat -> string.
Variable St : Type.
Variable has_container : St -> bool.
Variable groups_of : St -> list OptionGroup.
Variable click : St -> string -> option St.

Implicit Types (rows : list (OptionRow F)) (e : Engine (F := F)).

Lemma block_under_parent (p start : Z) (new : list (OptionRow F)) :
  block (Some p) start new -> Forall (fun r => parent_option_id r <> None) new.
Proof.
  destruct new as [| g cs]; [constructor |].
  intros (_ & Hp & _ & Hcs). constructor; [rewrite Hp; discriminate |].
  eapply Forall_impl; [exact Hcs |]. intros c [Hc _]. rewrite Hc. discriminate.
Qed.

Lemma rescan_group_grown rows0 sid pid e g :
  grown_under rows0 (e_rows e) ->
  grown_under rows0 (e_rows (rescan_group h now_at sid pid e g)).
Proof.
  intros Hg. unfold rescan_group.
  destruct (visible_inner g) as [el |]; [| exact Hg].
  destruct (group_kind_and_signature h el) as [[kind label] sig].
  destruct (is_difficulty kind label); [exact Hg |].
  destruct (unchanged (e_sigs e) kind label sig); [exact Hg |].
  destruct (parse_group_to_rows_fixed_block now_at el kind label (Some pid) sid
              (e_option_id e) (e_display_order e) (e_rows e))
    as (new & -> & Hb & _).
  simpl. destruct Hg as (extra & -> & Hex).
  exists (extra ++ new). split; [rewrite app_assoc; reflexivity |].
  apply Forall_app. split; [exact Hex | eapply block_under_parent; exact Hb].
Qed.

Lemma fold_snapshot_value_grown rows0 sid ids vals :
  forall s : St * Engine (F := F),
    grown_under rows0 (e_rows (snd s)) ->
    grown_under rows0
      (e_rows (snd (fold_left (snapshot_value h now_at St groups_of click sid ids)
                              vals s))).
Proof.
  induction vals as [| v vals IH]; intros s Hs; simpl; [exact Hs |].
  apply IH. unfold snapshot_value.
  destruct (ids !! v) as [pid |]; [| exact Hs].
  destruct (pid =? 0); [exact Hs |].
  destruct (click (fst s) v) as [st' |]; [| exact Hs].
  simpl. generalize (snd s) Hs. clear Hs.
  induction (groups_of st') as [| g gs IHg]; intros e He; simpl; [exact He |].
  apply IHg, rescan_group_grown, He.
Qed.

Lemma extract_options_grown next sid st :
  has_container st = true ->
  grown_under (baseline_rows h now_at (groups_of st) next sid)
    (extract_options_with_snapshots_fixed h now_at St has_container groups_of
       click next sid st).
Proof.
  intros Hc. unfold extract_options_with_snapshots_fixed, baseline_rows.
  rewrite Hc. simpl negb. cbv iota.
  destruct (baseline_scan h (groups_of st)) as [sigs bgs]. simpl snd.
  destruct (fold_left (write_baseline now_at sid) bgs (next, 1, []))
    as [[oid disp] rows0]. simpl snd.
  assert (H0 : grown_under rows0 rows0).
  { exists []. rewrite app_nil_r. split; [reflexivity | constructor]. }
  destruct (List.find _ bgs) as [[[el k] l] |]; [| exact H0].
  apply (fold_snapshot_value_grown rows0 sid _ _ (st, mkEngine sigs oid disp rows0)).
  exact H0.
Qed.

Lemma baseline_rows_top_level next sid groups :
  Forall (fun r => parent_option_id r = None <-> is_group_row r)
         (baseline_rows (F := F) h now_at groups next sid).
Proof.
  unfold baseline_rows.
  generalize (snd (baseline_scan h groups)). intros bgs.
  assert (G : forall c : Cursor (F := F),
             Forall (fun r => parent_option_id r = None <-> is_group_row r) (snd c) ->
             Forall (fun r => parent_option_id r = None <-> is_group_row r)
                    (snd (fold_left (write_baseline now_at sid) bgs c))).
  { induction bgs as [| b bgs IH]; intros c Hc; simpl; [exact Hc |].
    apply IH. destruct c as [[oid disp] rows], b as [[el kind] label].
    unfold write_baseline.
    destruct (parse_group_to_rows_fixed_block now_at el kind label None sid oid disp rows)
      as (new & -> & Hb & _).
    simpl in *. apply Forall_app. split; [exact Hc |].
    destruct new as [| g cs]; [constructor |].
    destruct Hb as (_ & Hp & Hg & Hcs). constructor; [tauto |].
    eapply Forall_impl; [exact Hcs |]. intros c [Hcp Hcg]. rewrite Hcp.
    split; [discriminate | contradiction]. }
  apply G. constructor.
Qed.

End SnapshotFacts.

(** X7. A batch begins with the rows of the baseline pass, in which the
    rows without a parent are exactly the group rows; every row the
    snapshot phase appends after them hangs under a parent, so the groups
    at the top level are those seen before any trigger value was selected.
    A page whose options container does not show up gives no row. *)
Theorem snapshots_append_below_baseline :
  forall (F : Type) (ops : PyFloatOps F) (h : string -> string)
         (now_at : nat -> string) (St : Type) (has_container : St -> bool)
         (groups_of : St -> list OptionGroup) (click : St -> string -> option St)
         (next_option_id sid : Z) (st : St),
    let batch :=
      extract_options_with_snapshots_fixed h now_at St has_container groups_of
        click next_option_id sid st in
    let base := baseline_rows h now_at (groups_of st) next_option_id sid in
    (has_container st = false -> batch = [])
    /\ (has_container st = true ->
        exists extra,
          batch = base ++ extra
          /\ Forall (fun r => parent_option_id r <> None) extra)
    /\ Forall (fun r => parent_option_id r = None <-> is_group_row r) base.
Proof.
  intros F ops h now_at St has_container groups_of click next sid st batch base.
  split; [| split].
  - intros Hc. unfold batch, extract_options_with_snapshots_fixed. rewrite Hc.
    reflexivity.
  - intros Hc. exact (extract_options_grown h now_at St has_container groups_of
                        click next sid st Hc).
  - apply baseline_rows_top_level.
Qed.

(** ** The rows a revealed group hangs under *)

Section AttachFacts.
Context {F : Type} `{PyFloatOps F}.
Variable h : string -> string.
Variable now_at : nat -> string.
Variable St : Type.
Variable has_container : St -> bool.
Variable groups_of : St -> list OptionGroup.
Variable click : St -> string -> option St.

Implicit Types (rows : list (OptionRow F)) (e : Engine (F := F)).

(** the map gives, for a value, the last row it takes for that value *)
Lemma radio_value_parent_row_ids_last sid rows (v : string) (pid : Z) :
  radio_value_parent_row_ids sid rows !! v = Some pid ->
  exists q, last_trigger_row sid rows v q /\ option_id q = pid.
Proof.
  unfold radio_value_parent_row_ids. revert pid.
  induction rows as [| r rows IH] using rev_ind; intros pid Hm.
  - simpl in Hm. rewrite lookup_empty in Hm. discriminate.
  - rewrite fold_left_app in Hm. simpl in Hm.
    destruct (is_trigger_choice_row sid r) eqn:Ht.
    + destruct (decide (Py.str_of_opt (option_value r) = v)) as [Heq | Hne].
      * subst v. rewrite lookup_insert_eq in Hm. injection Hm as <-.
        exists r. split; [| reflexivity].
        exists rows, []. repeat split; [exact Ht | constructor].
      * rewrite lookup_insert_ne in Hm by exact Hne.
        destruct (IH pid Hm) as (q & (pre & post & -> & Hq & Hv & Hpost) & Hid).
        exists q. split; [| exact Hid].
        exists pre, (post ++ [r]). split; [rewrite <- app_assoc; reflexivity |].
        split; [exact Hq |]. split; [exact Hv |].
        apply Forall_app. split; [exact Hpost |].
        constructor; [| constructor]. intros _. exact Hne.
    + destruct (IH pid Hm) as (q & (pre & post & -> & Hq & Hv & Hpost) & Hid).
      exists q. split; [| exact Hid].
      exists pre, (post ++ [r]). split; [rewrite <- app_assoc; reflexivity |].
      split; [exact Hq |]. split; [exact Hv |].
      apply Forall_app. split; [exact Hpost |].
      constructor; [| constructor]. intros Ht'. rewrite Ht in Ht'. discriminate.
Qed.

Lemma rescan_group_hung ids vals rows0 sid (v : string) pid e g :
  v ∈ vals -> ids !! v = Some pid ->
  hung_under ids vals rows0 (e_rows e) ->
  hung_under ids vals rows0 (e_rows (rescan_group h now_at sid pid e g)).
Proof.
  intros Hv Hid Hg. unfold rescan_group.
  destruct (visible_inner g) as [el |]; [| exact Hg].
  destruct (group_kind_and_signature h el) as [[kind label] sig].
  destruct (is_difficulty kind label); [exact Hg |].
  destruct (unchanged (e_sigs e) kind label sig); [exact Hg |].
  destruct (parse_group_to_rows_fixed_block now_at el kind label (Some pid) sid
              (e_option_id e) (e_display_order e) (e_rows e))
    as (new & -> & Hb & _).
  simpl. destruct Hg as (extra & -> & Hex).
  exists (extra ++ new). split; [rewrite app_assoc; reflexivity |].
  apply Forall_app. split; [exact Hex |].
  destruct new as [| p cs]; [constructor |].
  destruct Hb as (_ & Hp & _ & Hcs). constructor.
  - intros _. exists v, pid. repeat split; assumption.
  - eapply Forall_impl; [exact Hcs |]. intros c [_ Hc] Hc'. contradiction.
Qed.

Lemma fold_snapshot_value_hung ids all rows0 sid vals :
  (forall v, v ∈ vals -> v ∈ all) ->
  forall s : St * Engine (F := F),
    hung_under ids all rows0 (e_rows (snd s)) ->
    hung_under ids all rows0
      (e_rows (snd (fold_left (snapshot_value h now_at St groups_of click sid ids)
                              vals s))).
Proof.
  induction vals as [| v vals IH]; intros Hall s Hs; simpl; [exact Hs |].
  apply IH; [intros w Hw; apply Hall, list_elem_of_further, Hw |].
  assert (Hv : v ∈ all) by apply Hall, list_elem_of_here.
  unfold snapshot_value.
  destruct (ids !! v) as [pid |] eqn:Hid; [| exact Hs].
  destruct (pid =? 0); [exact Hs |].
  destruct (click (fst s) v) as [st' |]; [| exact Hs].
  simpl. generalize (snd s) Hs. clear Hs.
  induction (groups_of st') as [| g gs IHg]; intros e He; simpl; [exact He |].
  apply IHg. eapply rescan_group_hung; eassumption.
Qed.

End AttachFacts.

(** X25. Where a revealed group is attached. Every group row that the
    snapshot phase appends after the rows of the baseline pass hangs
    under the row the trigger map gives for a value [v] of the radio
    inputs of the trigger, the first baseline group that is a radio group
    labelled [difficulty...]: the last baseline row of the service whose
    type is radio, whose name starts with [difficulty_] and whose value
    prints as [v]. The row is found by its name and value, not by the
    group it belongs to. *)
Theorem revealed_groups_hang_under_mapped_rows :
  forall (F : Type) (ops : PyFloatOps F) (h : string -> string)
         (now_at : nat -> string) (St : Type) (has_container : St -> bool)
         (groups_of : St -> list OptionGroup) (click : St -> string -> option St)
         (next_option_id sid : Z) (st : St),
    let batch :=
      extract_options_with_snapshots_fixed h now_at St has_container groups_of
        click next_option_id sid st in
    let base := baseline_rows h now_at (groups_of st) next_option_id sid in
    has_container st = true ->
    exists extra,
      batch = base ++ extra
      /\ Forall
           (fun r =>
              is_group_row r ->
              exists el kind label v q,
                List.find (fun b => is_difficulty (snd (fst b)) (snd b))
                          (snd (baseline_scan h (groups_of st)))
                = Some (el, kind, label)
                /\ v ∈ radio_values el
                /\ last_trigger_row sid base v q
                /\ parent_option_id r = Some (option_id q))
           extra.
Proof.
  intros F ops h now_at St has_container groups_of click next sid st batch base Hc.
  unfold batch, base, extract_options_with_snapshots_fixed, baseline_rows.
  rewrite Hc. simpl negb. cbv iota.
  destruct (baseline_scan h (groups_of st)) as [sigs bgs]. simpl snd.
  destruct (fold_left (write_baseline now_at sid) bgs (next, 1, []))
    as [[oid disp] rows0]. simpl snd.
  destruct (List.find _ bgs) as [[[el k] l] |].
  - set (ids := radio_value_parent_row_ids sid rows0).
    assert (H0 : hung_under ids (radio_values el) rows0 rows0).
    { exists []. rewrite app_nil_r. split; [reflexivity | constructor]. }
    destruct (fold_snapshot_value_hung h now_at St groups_of click ids
                (radio_values el) rows0 sid (radio_values el) (fun v Hv => Hv)
                (st, mkEngine sigs oid disp rows0) H0)
      as (extra & Hrows & Hex).
    exists extra. split; [exact Hrows |].
    eapply Forall_impl; [exact Hex |]. intros r Hr Hg.
    destruct (Hr Hg) as (v & pid & Hv & Hid & Hp).
    destruct (radio_value_parent_row_ids_last sid rows0 v pid Hid) as (q & Hq & <-).
    exists el, k, l, v, q. repeat split; assumption.
  - exists []. rewrite app_nil_r. split; [reflexivity | constructor].
Qed.

Lemma revealed_groups_hang_under_mapped_rows_witness :
  exists extra,
    Demo.batch_with_mode
    = baseline_rows Demo.digest Demo.clock (Demo.groups_with_mode "") 1 7 ++ extra
    /\ Forall
         (fun r =>
            is_group_row r ->
            exists el kind label v q,
              List.find (fun b => is_difficulty (snd (fst b)) (snd b))
                        (snd (baseline_scan Demo.digest (Demo.groups_with_mode "")))
              = Some (el, kind, label)
              /\ v ∈ radio_values el
              /\ last_trigger_row 7
                   (baseline_rows Demo.digest Demo.clock (Demo.groups_with_mode "") 1 7)
                   v q
              /\ parent_option_id r = Some (option_id q))
         extra.
Proof.
  exact (revealed_groups_hang_under_mapped_rows DecFloat.pyfloat DecFloat.ops
           Demo.digest Demo.clock string (fun _ => true) Demo.groups_with_mode
           Demo.click 1 7 "" eq_refl).
Defined.

(** ** A page that does not change *)

Section StaticFacts.
Context {F : Type} `{PyFloatOps F}.
Variable h : string -> string.
Variable now_at : nat -> string.
Variable St : Type.
Variable has_container : St -> bool.
Variable groups_of : St -> list OptionGroup.
Variable click : St -> string -> option St.
Hypothesis h_nonempty : forall s, h s <> "".

Lemma scan_fold groups :
  forall acc,
    let out := fold_left (scan_step h) groups acc in
    (NoDup (map key_of (snd acc)) -> recorded h (fst acc) (snd acc)) ->
    (NoDup (map key_of (snd out)) -> recorded h (fst out) (snd out))
    /\ (forall g el kind label sig,
          g ∈ groups -> visible_inner g = Some el ->
          group_kind_and_signature h el = (kind, label, sig) ->
          (el, kind, label) ∈ snd out)
    /\ (forall b, b ∈ snd acc -> b ∈ snd out).
Proof.
  induction groups as [| g groups IH]; intros acc; simpl.
  - intros Hacc. split; [exact Hacc |]. split; [| auto].
    intros g el kind label sig Hg. apply elem_of_nil in Hg. contradiction.
  - intros Hacc.
    assert (Hstep : NoDup (map key_of (snd (scan_step h acc g))) ->
                    recorded h (fst (scan_step h acc g)) (snd (scan_step h acc g))).
    { unfold scan_step. destruct (visible_inner g) as [el |]; [| exact Hacc].
      destruct (group_kind_and_signature h el) as [[kind label] sig] eqn:Hsig.
      simpl. rewrite map_app. simpl. intros Hnd.
      apply NoDup_app in Hnd as (Hnd & Hfresh & _).
      intros el' k' l' Hin. apply elem_of_app in Hin as [Hin | Hin].
      - destruct (Hacc Hnd el' k' l' Hin) as (sig' & Hs' & Hm).
        exists sig'. split; [exact Hs' |].
        rewrite lookup_insert_ne; [exact Hm |].
        intros [= -> ->]. apply (Hfresh (k', l')).
        + apply list_elem_of_fmap. exists (el', k', l'). split; [reflexivity | exact Hin].
        + apply list_elem_of_here.
      - apply list_elem_of_singleton in Hin. injection Hin as -> -> ->.
        exists sig. split; [exact Hsig | apply lookup_insert_eq]. }
    destruct (IH (scan_step h acc g) Hstep) as (H1 & H2 & H3).
    split; [exact H1 |]. split.
    + intros g' el kind label sig Hg' Hvis Hsig. apply elem_of_cons in Hg' as [-> | Hg'].
      * apply H3. unfold scan_step. rewrite Hvis, Hsig. simpl.
        apply elem_of_app. right. apply list_elem_of_here.
      * apply (H2 g' el kind label sig Hg' Hvis Hsig).
    + intros b Hb. apply H3. unfold scan_step.
      destruct (visible_inner g) as [el |]; [| exact Hb].
      destruct (group_kind_and_signature h el) as [[kind label] sig].
      simpl. apply elem_of_app. left. exact Hb.
Qed.

Lemma baseline_scan_recorded groups :
  NoDup (baseline_keys h groups) ->
  forall g el kind label sig,
    g ∈ groups -> visible_inner g = Some el ->
    group_kind_and_signature h el = (kind, label, sig) ->
    fst (baseline_scan h groups) !! (kind, label) = Some sig.
Proof.
  intros Hnd g el kind label sig Hg Hvis Hsig.
  destruct (scan_fold groups (∅, [])) as (H1 & H2 & _).
  { intros _ el' k' l' Hin. apply elem_of_nil in Hin. contradiction. }
  change (fold_left (scan_step h) groups (∅, [])) with (baseline_scan h groups) in *.
  pose proof (H2 g el kind label sig Hg Hvis Hsig) as Hin.
  destruct (H1 Hnd el kind label Hin) as (sig' & Hs' & Hm).
  rewrite Hsig in Hs'. injection Hs' as <-. exact Hm.
Qed.

Lemma rescan_static sid pid (e : Engine (F := F)) groups :
  NoDup (baseline_keys h groups) ->
  e_sigs e = fst (baseline_scan h groups) ->
  forall gs, (forall g, g ∈ gs -> g ∈ groups) ->
             fold_left (rescan_group h now_at sid pid) gs e = e.
Proof.
  intros Hnd He gs. induction gs as [| g gs IH]; intros Hsub; [reflexivity |].
  simpl.
  assert (E : rescan_group h now_at sid pid e g = e).
  { unfold rescan_group. destruct (visible_inner g) as [el |] eqn:Hvis; [| reflexivity].
    destruct (group_kind_and_signature h el) as [[kind label] sig] eqn:Hsig.
    destruct (is_difficulty kind label); [reflexivity |].
    pose proof (baseline_scan_recorded groups Hnd g el kind label sig
                  (Hsub g (list_elem_of_here _ _)) Hvis Hsig) as Hm.
    destruct (group_signature_is_digest h el kind label sig Hsig) as (c & _ & ->).
    rewrite <- He in Hm. apply (unchanged_true_iff h) in Hm; [| apply h_nonempty].
    rewrite Hm. reflexivity. }
  rewrite E. apply IH. intros g' Hg'. apply Hsub. apply list_elem_of_further. exact Hg'.
Qed.

Hypothesis click_static :
  forall s v s', click s v = Some s' -> groups_of s' = groups_of s.

Lemma snapshot_static sid ids groups (e : Engine (F := F)) vals :
  NoDup (baseline_keys h groups) ->
  e_sigs e = fst (baseline_scan h groups) ->
  forall st, groups_of st = groups ->
             snd (fold_left (snapshot_value h now_at St groups_of click sid ids)
                            vals (st, e)) = e.
Proof.
  intros Hnd He. induction vals as [| v vals IH]; intros st Hst; [reflexivity |].
  simpl. unfold snapshot_value at 2. simpl fst. simpl snd.
  destruct (ids !! v) as [pid |]; [| apply IH; exact Hst].
  destruct (pid =? 0); [apply IH; exact Hst |].
  destruct (click st v) as [st' |] eqn:Hclick; [| apply IH; exact Hst].
  pose proof (click_static st v st' Hclick) as Hsame.
  rewrite (rescan_static sid pid e groups Hnd He).
  - apply IH. congruence.
  - intros g Hg. congruence.
Qed.

Lemma extract_options_static next sid st :
  NoDup (baseline_keys h (groups_of st)) ->
  has_container st = true ->
  extract_options_with_snapshots_fixed h now_at St has_container groups_of click
    next sid st
  = baseline_rows h now_at (groups_of st) next sid.
Proof.
  intros Hnd Hc. unfold extract_options_with_snapshots_fixed, baseline_rows.
  rewrite Hc. simpl negb. cbv iota.
  pose proof (snapshot_static sid) as Hsnap.
  specialize (fun ids e vals => Hsnap ids (groups_of st) e vals Hnd).
  destruct (baseline_scan h (groups_of st)) as [sigs bgs]. simpl snd. simpl fst in Hsnap.
  destruct (fold_left (write_baseline now_at sid) bgs (next, 1, []))
    as [[oid disp] rows0]. simpl snd.
  destruct (List.find _ bgs) as [[[el k] l] |]; [| reflexivity].
  rewrite Hsnap; reflexivity.
Qed.

End StaticFacts.

(** X8. On a page that selecting a trigger value does not change, and
    whose visible groups have pairwise different (kind, label) keys, the
    snapshot phase appends nothing: the batch is the rows of the baseline
    pass. (The digest is never empty, as a SHA-256 hex digest is.) *)
Theorem static_page_adds_nothing :
  forall (F : Type) (ops : PyFloatOps F) (h : string -> string)
         (now_at : nat -> string) (St : Type) (has_container : St -> bool)
         (groups_of : St -> list OptionGroup) (click : St -> string -> option St)
         (next_option_id sid : Z) (st : St),
    (forall s, h s <> "") ->
    (forall s v s', click s v = Some s' -> groups_of s' = groups_of s) ->
    NoDup (baseline_keys h (groups_of st)) ->
    has_container st = true ->
    extract_options_with_snapshots_fixed h now_at St has_container groups_of click
      next_option_id sid st
    = baseline_rows h now_at (groups_of st) next_option_id sid.
Proof.
  intros F ops h now_at St has_container groups_of click next sid st Hh Hstatic Hnd Hc.
  apply extract_options_static; assumption.
Qed.

Lemma static_page_adds_nothing_witness :
  StaticDemo.batch
  = baseline_rows Demo.digest Demo.clock (StaticDemo.groups_of "") 1 7
  /\ length StaticDemo.batch = 7%nat.
Proof.
  split; [| vm_compute; reflexivity].
  apply (static_page_adds_nothing DecFloat.pyfloat DecFloat.ops Demo.digest Demo.clock
           string (fun _ => true) StaticDemo.groups_of Demo.click 1 7 "").
  - apply demo_digest_nonempty.
  - intros s v s' _. reflexivity.
  - apply (bool_decide_unpack _). vm_compute. exact I.
  - reflexivity.
Defined.

(** ** The next free id *)

Lemma max_id_from_spec (cells : list (option string)) :
  forall mx,
    mx <= max_id_from mx cells
    /\ (forall s n, Some s ∈ cells -> Py.int_of_str s = Ok n -> n <= max_id_from mx cells)
    /\ (max_id_from mx cells = mx
        \/ exists s, Some s ∈ cells /\ Py.int_of_str s = Ok (max_id_from mx cells)).
Proof.
  unfold max_id_from.
  induction cells as [| cell cells IH]; intros mx; simpl.
  - split; [lia |]. split; [| left; reflexivity].
    intros s n Hin. apply elem_of_nil in Hin. contradiction.
  - set (mx' := match cell with
                | Some s => try_except (bind (Py.int_of_str s) (fun n => Ok (Z.max mx n))) mx
                | None => mx
                end).
    assert (Hmx : mx <= mx'
                  /\ (forall s n, cell = Some s -> Py.int_of_str s = Ok n -> n <= mx')
                  /\ (mx' = mx \/ exists s, cell = Some s /\ Py.int_of_str s = Ok mx')).
    { unfold mx'. destruct cell as [s |]; [| split; [lia |]; split; [discriminate | auto]].
      destruct (Py.int_of_str s) as [n | e] eqn:Hs; simpl.
      - split; [lia |]. split.
        + intros s' n' [= <-] Hn'. rewrite Hs in Hn'. injection Hn' as <-. lia.
        + destruct (Z.max_spec mx n) as [[_ ->] | [_ ->]]; [| auto].
          right. exists s. auto.
      - split; [lia |]. split; [| auto].
        intros s' n' [= <-] Hn'. rewrite Hs in Hn'. discriminate. }
    destruct Hmx as (H1 & H2 & H3). destruct (IH mx') as (I1 & I2 & I3).
    split; [lia |]. split.
    + intros s n Hin Hn. apply elem_of_cons in Hin as [Heq | Hin].
      * specialize (H2 s n (eq_sym Heq) Hn). lia.
      * apply (I2 s n Hin Hn).
    + destruct I3 as [I3 | (s & Hin & Hs)].
      * rewrite I3. destruct H3 as [H3 | (s & -> & Hs)]; [left; exact H3 |].
        right. exists s. split; [apply list_elem_of_here | exact Hs].
      * right. exists s. split; [apply list_elem_of_further; exact Hin | exact Hs].
Qed.

Lemma next_id_unfold (cells : list (option string)) :
  next_id cells = max_id_from 0 cells + 1.
Proof. reflexivity. Qed.

Lemma next_id_spec (cells : list (option string)) :
  1 <= next_id cells
  /\ (forall s n, Some s ∈ cells -> Py.int_of_str s = Ok n -> n < next_id cells)
  /\ (next_id cells = 1
      \/ exists s, Some s ∈ cells /\ Py.int_of_str s = Ok (next_id cells - 1)).
Proof.
  rewrite next_id_unfold.
  destruct (max_id_from_spec cells 0) as (H1 & H2 & H3).
  split; [lia |]. split.
  - intros s n Hin Hn. specialize (H2 s n Hin Hn). lia.
  - destruct H3 as [-> | (s & Hin & Hs)]; [left; reflexivity |].
    right. exists s. split; [exact Hin |].
    replace (max_id_from 0 cells + 1 - 1) with (max_id_from 0 cells) by lia. exact Hs.
Qed.

(** X9. With id columns of ASCII text, on which [Py.int_of_str] is
    Python's [int]: the next service id and the next option id are at
    least 1, greater than every id of the file that reads as an integer,
    and one more than such an id unless they are 1; when the file is
    missing the id is 1 and both files are reset to their headers. *)
Theorem next_ids_are_fresh :
  forall fs : Files,
    let services := column "service_id" (file_lines (services_csv (ensure_services_csv fs))) in
    let options := column "option_id" (file_lines (options_csv (ensure_options_csv fs))) in
    let next_service := snd (get_next_service_id_from_services_csv fs) in
    let next_option := snd (get_next_option_id_from_options_csv fs) in
    ascii_cells services -> ascii_cells options ->
    (1 <= next_service
     /\ (forall s n, Some s ∈ services -> Py.int_of_str s = Ok n -> n < next_service)
     /\ (next_service = 1
         \/ exists s, Some s ∈ services /\ Py.int_of_str s = Ok (next_service - 1)))
    /\ (1 <= next_option
        /\ (forall s n, Some s ∈ options -> Py.int_of_str s = Ok n -> n < next_option)
        /\ (next_option = 1
            \/ exists s, Some s ∈ options /\ Py.int_of_str s = Ok (next_option - 1)))
    /\ (services_csv fs = None ->
        get_next_service_id_from_services_csv fs
        = (mkFiles (Some [services_header]) (Some [options_header]), 1))
    /\ (options_csv fs = None ->
        get_next_option_id_from_options_csv fs
        = (mkFiles (Some [services_header]) (Some [options_header]), 1)).
Proof.
  intros fs services options next_service next_option _ _.
  split; [apply next_id_spec |]. split; [apply next_id_spec |]. split.
  - intros Hnone. unfold get_next_service_id_from_services_csv, ensure_services_csv.
    rewrite Hnone. reflexivity.
  - intros Hnone. unfold get_next_option_id_from_options_csv, ensure_options_csv.
    rewrite Hnone. reflexivity.
Qed.

Lemma next_ids_are_fresh_witness :
  let fs :=
    mkFiles (Some [services_header; ["4"; "21"; "Raid Carry"; ""; ""; ""; ""; ""; ""];
                   [" 7 "; "21"; "Dungeon Run"; ""; ""; ""; ""; ""; ""];
                   ["x"; "21"; "Trials"; ""; ""; ""; ""; ""; ""]])
            (Some [options_header]) in
  snd (get_next_service_id_from_services_csv fs) = 8
  /\ snd (get_next_option_id_from_options_csv fs) = 1
  /\ forall s n,
       Some s ∈ column "service_id" (file_lines (services_csv (ensure_services_csv fs))) ->
       Py.int_of_str s = Ok n -> n < 8.
Proof.
  intros fs.
  assert (Hs : ascii_cells
                 (column "service_id" (file_lines (services_csv (ensure_services_csv fs))))).
  { repeat constructor; intros s [= <-]; reflexivity. }
  assert (Ho : ascii_cells
                 (column "option_id" (file_lines (options_csv (ensure_options_csv fs)))))
    by constructor.
  destruct (next_ids_are_fresh fs Hs Ho) as ((_ & Hlt & _) & _).
  split; [reflexivity |]. split; [reflexivity | exact Hlt].
Defined.

(** ** Appending to the options file *)

Lemma column_option_id_app (lines : CsvFile) (cs : list OptionCsv) :
  column "option_id" (options_header :: lines ++ map cells_of cs)
  = column "option_id" (options_header :: lines)
    ++ map (fun c => Some (c_option_id c)) cs.
Proof.
  unfold column. rewrite List.filter_app, map_app. f_equal.
  induction cs as [| c cs IH]; [reflexivity |].
  simpl. rewrite IH. reflexivity.
Qed.

Lemma ensure_options_csv_headed (fs : Files) :
  options_headed fs ->
  exists lines, options_csv (ensure_options_csv fs) = Some (options_header :: lines)
                /\ (options_csv fs = None -> lines = [])
                /\ (options_csv fs <> None -> ensure_options_csv fs = fs).
Proof.
  unfold options_headed, ensure_options_csv.
  destruct (options_csv fs) as [f |] eqn:Hf.
  - intros [rows ->]. exists rows. rewrite Hf. repeat split; congruence.
  - intros _. exists []. repeat split; congruence.
Qed.

Lemma max_id_from_app mx (a b : list (option string)) :
  max_id_from mx (a ++ b) = max_id_from (max_id_from mx a) b.
Proof. unfold max_id_from. apply fold_left_app. Qed.

Lemma max_id_from_seq (n : nat) :
  forall mx (ids : list Z),
    ids = seqZ (mx + 1) (Z.of_nat n) ->
    max_id_from mx (map (fun i => Some (Py.str_of_int i)) ids) = mx + Z.of_nat n.
Proof.
  induction n as [| n IH]; intros mx ids ->.
  - rewrite seqZ_nil by lia. simpl. unfold max_id_from. simpl. lia.
  - rewrite seqZ_cons by lia. simpl map. unfold max_id_from. simpl fold_left.
    rewrite int_of_str_pretty. simpl.
    fold (max_id_from (Z.max mx (mx + 1))
            (map (fun i => Some (Py.str_of_int i))
                 (seqZ (Z.succ (mx + 1)) (Z.pred (Z.of_nat (S n)))))).
    replace (Z.max mx (mx + 1)) with (mx + 1) by lia.
    rewrite (IH (mx + 1)); [lia |]. f_equal; lia.
Qed.

Section AppendFacts.
Context {F : Type} `{PyFloatOps F}.

Lemma normalize_keeps_ids (rows : list (OptionRow F)) :
  map option_id (normalize_option_types_in_rows rows) = map option_id rows.
Proof.
  unfold normalize_option_types_in_rows. rewrite map_map. reflexivity.
Qed.

Lemma append_options_spec (rows : list (OptionRow F)) (fs : Files) :
  options_headed fs ->
  snd (append_options rows fs) = length rows
  /\ (rows = [] -> fst (append_options rows fs) = fs)
  /\ (rows <> [] ->
      exists lines,
        options_csv (ensure_options_csv fs) = Some (options_header :: lines)
        /\ fst (append_options rows fs)
           = mkFiles (services_csv (ensure_options_csv fs))
                     (Some (options_header :: lines
                            ++ map (fun o => cells_of (csv_row_of o)) rows))).
Proof.
  intros Hh. destruct rows as [| r rows]; [repeat split; congruence |].
  split; [reflexivity |]. split; [discriminate |]. intros _.
  destruct (ensure_options_csv_headed fs Hh) as (lines & Hl & _).
  exists lines. split; [exact Hl |]. unfold append_options. rewrite Hl. reflexivity.
Qed.

End AppendFacts.

(** X10. [append_options] returns the number of rows it is given; given
    none it touches no file; otherwise it makes sure the options file is
    there and adds one line per row, after the lines of the file, and
    what a [DictReader] then reads in the [option_id] column of these
    lines are the ids of the rows, in order, each of which [int] reads
    back as the id. *)
Theorem append_options_round_trip :
  forall (F : Type) (ops : PyFloatOps F) (rows : list (OptionRow F)) (fs : Files),
    options_headed fs ->
    let out := append_options rows fs in
    snd out = length rows
    /\ (rows = [] -> fst out = fs)
    /\ (rows <> [] ->
        services_csv (fst out) = services_csv (ensure_options_csv fs)
        /\ column "option_id" (file_lines (options_csv (fst out)))
           = column "option_id" (file_lines (options_csv (ensure_options_csv fs)))
             ++ map (fun r => Some (Py.str_of_int (option_id r))) rows)
    /\ Forall (fun r => Py.int_of_str (c_option_id (csv_row_of r)) = Ok (option_id r))
              rows.
Proof.
  intros F ops rows fs Hh out. subst out.
  destruct (append_options_spec rows fs Hh) as (H1 & H2 & H3).
  split; [exact H1 |]. split; [exact H2 |]. split.
  - intros Hne. destruct (H3 Hne) as (lines & Hl & E). rewrite E, Hl.
    cbn [services_csv options_csv file_lines]. split; [reflexivity |].
    rewrite <- (map_map csv_row_of cells_of), column_option_id_app, map_map. reflexivity.
  - apply Forall_forall. intros r _. apply int_of_str_pretty.
Qed.

Lemma append_options_round_trip_witness :
  snd (append_options Demo.batch (mkFiles None None)) = 9%nat
  /\ column "option_id"
       (file_lines (options_csv (fst (append_options Demo.batch (mkFiles None None)))))
     = map (fun n => Some (Py.str_of_int n)) (seqZ 1 9).
Proof.
  destruct (append_options_round_trip DecFloat.pyfloat DecFloat.ops Demo.batch
              (mkFiles None None) I) as (H1 & _ & H3 & _).
  split; [exact H1 |].
  destruct H3 as [_ ->]; [discriminate |]. vm_compute. reflexivity.
Defined.

Lemma ensure_options_csv_idem (fs : Files) :
  ensure_options_csv (ensure_options_csv fs) = ensure_options_csv fs.
Proof.
  unfold ensure_options_csv. destruct (options_csv fs) eqn:E; [rewrite E |]; reflexivity.
Qed.

(** X11. One pass of option scraping over a page adds to the options
    file, after what it holds, the ids [next], [next + 1], ... where
    [next] is the next free option id of the file before the pass; the
    next free id after the pass is [next] plus the number of rows added;
    and none of the ids already in the file is an id from [next] on, so
    the rows of successive passes never share an option id. *)
Theorem scrape_options_allocates_fresh_ids :
  forall (F : Type) (ops : PyFloatOps F) (h : string -> string)
         (now_at : nat -> string) (St : Type) (has_container : St -> bool)
         (groups_of : St -> list OptionGroup) (click : St -> string -> option St)
         (sid : Z) (st : St) (fs : Files),
    options_headed fs ->
    let next := snd (get_next_option_id_from_options_csv fs) in
    let old := column "option_id" (file_lines (options_csv (ensure_options_csv fs))) in
    let out := scrape_options h now_at St has_container groups_of click sid st fs in
    column "option_id" (file_lines (options_csv (fst out)))
    = old ++ map (fun n => Some (Py.str_of_int n)) (seqZ next (Z.of_nat (snd out)))
    /\ snd (get_next_option_id_from_options_csv (fst out)) = next + Z.of_nat (snd out)
    /\ (forall cell n, cell ∈ old -> next <= n -> cell <> Some (Py.str_of_int n)).
Proof.
  intros F ops h now_at St has_container groups_of click sid st fs Hh next old out.
  assert (Hnext : next = next_id old) by reflexivity.
  set (fs1 := ensure_options_csv fs).
  set (batch := normalize_option_types_in_rows
                  (extract_options_with_snapshots_fixed h now_at St has_container
                     groups_of click next sid st)).
  assert (Hout : out = append_options batch fs1) by reflexivity.
  destruct (ensure_options_csv_headed fs Hh) as (lines & Hl & _). fold fs1 in Hl.
  assert (Hh1 : options_headed fs1).
  { unfold options_headed. rewrite Hl. eauto. }
  assert (Hens : ensure_options_csv fs1 = fs1) by apply ensure_options_csv_idem.
  destruct (append_options_spec batch fs1 Hh1) as (Hn & Hnil & Hcons).
  assert (Hids : map option_id batch = seqZ next (Z.of_nat (length batch))).
  { unfold batch. rewrite normalize_keeps_ids.
    unfold normalize_option_types_in_rows. rewrite length_map.
    destruct (extract_options_numbered h now_at St has_container groups_of click
                next sid st) as (oid & disp & Hnum).
    apply (numbered_ids _ _ _ _ _ Hnum). }
  assert (Hcol : column "option_id" (file_lines (options_csv (fst out)))
                 = old ++ map (fun n => Some (Py.str_of_int n))
                              (seqZ next (Z.of_nat (snd out)))).
  { rewrite Hout, Hn. destruct batch as [| r batch'] eqn:Hb.
    - rewrite (Hnil eq_refl). simpl. rewrite app_nil_r. reflexivity.
    - destruct Hcons as (lines' & Hl' & ->); [discriminate |].
      rewrite Hens in Hl'. rewrite Hl' in Hl. injection Hl as <-.
      cbn [options_csv file_lines].
      rewrite <- (map_map csv_row_of cells_of), column_option_id_app.
      unfold old. fold fs1. rewrite Hl'. cbn [file_lines]. f_equal.
      rewrite map_map. rewrite <- Hids.
      rewrite (map_map option_id (fun n => Some (Py.str_of_int n))). reflexivity. }
  split; [exact Hcol |]. split.
  - unfold get_next_option_id_from_options_csv. cbn [snd].
    assert (Hout1 : ensure_options_csv (fst out) = fst out).
    { rewrite Hout. destruct batch as [| r batch'] eqn:Hb.
      - rewrite (Hnil eq_refl). exact Hens.
      - destruct Hcons as (lines' & _ & ->); [discriminate |]. reflexivity. }
    rewrite Hout1, Hcol, next_id_unfold, max_id_from_app.
    rewrite (max_id_from_seq (snd out) (max_id_from 0 old)
               (seqZ next (Z.of_nat (snd out)))).
    + rewrite Hnext, next_id_unfold. lia.
    + rewrite Hnext, next_id_unfold. reflexivity.
  - intros cell n Hin Hge ->.
    destruct (next_id_spec old) as (_ & Hfresh & _).
    specialize (Hfresh (Py.str_of_int n) n Hin (int_of_str_pretty n)).
    rewrite <- Hnext in Hfresh. lia.
Qed.

Lemma scrape_options_allocates_fresh_ids_witness :
  options_headed (mkFiles None None)
  /\ snd (get_next_option_id_from_options_csv
            (fst (scrape_options Demo.digest Demo.clock string (fun _ => true)
                    Demo.groups_of Demo.click 7 "" (mkFiles None None))))
     = 10.
Proof.
  split; [exact I |].
  destruct (scrape_options_allocates_fresh_ids DecFloat.pyfloat DecFloat.ops
              Demo.digest Demo.clock string (fun _ => true) Demo.groups_of Demo.click
              7 "" (mkFiles None None) I) as (_ & -> & _).
  vm_compute. reflexivity.
Defined.

(** ** Normalization keeps the tree *)

Lemma tree_ok_normalize {F} (rows : list (OptionRow F)) :
  tree_ok rows -> tree_ok (normalize_option_types_in_rows rows).
Proof.
  intros Ht i r Hi. unfold normalize_option_types_in_rows in *.
  rewrite list_lookup_fmap in Hi.
  destruct (rows !! i) as [r0 |] eqn:Hr0; [| discriminate]. injection Hi as <-.
  specialize (Ht i r0 Hr0). simpl.
  destruct (parent_option_id r0) as [p |]; [| exact Ht].
  destruct Ht as (j & q & Hj & Hq & Hid).
  exists j, (set_option_type q (normalize_option_type (option_type q))).
  split; [exact Hj |]. split; [| exact Hid].
  rewrite list_lookup_fmap, Hq. reflexivity.
Qed.

(** X12. Normalization rewrites option types only: the normalized batch
    of an extraction pass, which is what is appended to the options file,
    has the ids, parents and values of the batch, and is still a tree
    (every parent is an earlier row, every row without a parent is a
    group row). *)
Theorem normalized_batch_is_a_tree :
  forall (F : Type) (ops : PyFloatOps F) (h : string -> string)
         (now_at : nat -> string) (St : Type) (has_container : St -> bool)
         (groups_of : St -> list OptionGroup) (click : St -> string -> option St)
         (next_option_id sid : Z) (st : St),
    let batch :=
      extract_options_with_snapshots_fixed h now_at St has_container groups_of
        click next_option_id sid st in
    let out := normalize_option_types_in_rows batch in
    map option_id out = map option_id batch
    /\ map parent_option_id out = map parent_option_id batch
    /\ map option_value out = map option_value batch
    /\ tree_ok out.
Proof.
  intros F ops h now_at St has_container groups_of click next sid st batch out.
  subst out. unfold normalize_option_types_in_rows at 1 2 3. rewrite !map_map.
  repeat split; try reflexivity.
  apply tree_ok_normalize.
  apply (extract_options_batch_ok h now_at St has_container groups_of click next sid st).
Qed.

(** ** What the writers append *)

Section WriterShape.
Context {F : Type} `{PyFloatOps F}.
Variable now_at : nat -> string.

Implicit Types (rows : list (OptionRow F)) (mks : list (Z -> Z -> OptionRow F)).

Lemma number_map {B} (f : OptionRow F -> B) mks (v : list B) :
  Forall2 (fun mk b => forall i d, f (mk i d) = b) mks v ->
  forall oid disp, map f (number mks oid disp) = v.
Proof.
  induction 1 as [| mk b mks v Hmk _ IH]; intros oid disp; [reflexivity |].
  simpl. rewrite Hmk, IH. reflexivity.
Qed.

Lemma Forall2_imap {A B} (P : B -> A -> Prop) (f : nat -> A -> B) (xs : list A) :
  (forall i x, P (f i x) x) -> Forall2 P (imap f xs) xs.
Proof.
  revert f. induction xs as [| x xs IH]; intros f Hf; simpl; constructor; [apply Hf |].
  apply IH. intros i y. apply Hf.
Qed.

Lemma extract_slider_labels_nonempty (g : GroupEl) : extract_slider_labels g <> [].
Proof.
  unfold extract_slider_labels.
  destruct (List.filter nonempty _) as [| l ls]; [| discriminate].
  destruct (g_label_q g); discriminate.
Qed.

Lemma detect_slider_kind_cases (g : GroupEl) :
  detect_slider_kind g = "range" \/ detect_slider_kind g = "slider".
Proof. unfold detect_slider_kind. destruct (_ || _); auto. Qed.

Lemma kind_of_known (g : GroupEl) :
  (recognized g -> Py.mem (kind_of g) written_kinds = true)
  /\ (~ recognized g -> kind_of g = "unknown").
Proof.
  unfold recognized, kind_of, group_kind_and_canonical.
  assert (Hc : (g_radios_q g <> [] \/ g_buttons_q g <> [] \/ g_checks_q g <> []
                \/ g_select_q g <> [] ->
                Py.mem (fst (fst (choice_canonical g))) written_kinds = true)
               /\ (~ (g_radios_q g <> [] \/ g_buttons_q g <> [] \/ g_checks_q g <> []
                      \/ g_select_q g <> []) ->
                   fst (fst (choice_canonical g)) = "unknown")).
  { unfold choice_canonical.
    destruct (g_radios_q g); [| split; [reflexivity | intros Hn; exfalso; apply Hn; left; discriminate]].
    destruct (g_buttons_q g);
      [| split; [reflexivity | intros Hn; exfalso; apply Hn; right; left; discriminate]].
    destruct (g_checks_q g);
      [| split; [reflexivity | intros Hn; exfalso; apply Hn; right; right; left; discriminate]].
    destruct (g_select_q g);
      [| split; [reflexivity | intros Hn; exfalso; apply Hn; right; right; right; discriminate]].
    split; [| reflexivity]. intros [Hn | [Hn | [Hn | Hn]]]; congruence. }
  destruct Hc as [Hc1 Hc2].
  destruct (g_range_q g) as [| cluster clusters] eqn:Hr.
  - split.
    + intros [[Hn _] | Hrec]; [congruence | apply Hc1, Hrec].
    + intros Hn. apply Hc2. intros Hrec. apply Hn. right. exact Hrec.
  - destruct (g_visible g) eqn:Hv.
    + split; [| intros Hn; exfalso; apply Hn; left; split; [discriminate | reflexivity]].
      intros _. unfold range_canonical. cbn [fst].
      destruct (detect_slider_kind_cases g) as [-> | ->]; reflexivity.
    + split.
      * intros [[_ Hn] | Hrec]; [discriminate | apply Hc1, Hrec].
      * intros Hn. apply Hc2. intros Hrec. apply Hn. right. exact Hrec.
Qed.

Lemma parse_known_kind g kind label parent sid start disp rows :
  Py.mem kind written_kinds = true ->
  exists p cs,
    parse_group_to_rows_fixed now_at g kind label parent sid start disp rows
    = (start + 1 + Z.of_nat (length cs), disp + 1 + Z.of_nat (length cs),
       Some start, rows ++ p :: cs)
    /\ option_id p = start /\ parent_option_id p = parent /\ is_group_row p
    /\ display_order p = disp.
Proof.
  intros Hk.
  assert (G : forall pm cms,
             group_maker (F := F) parent (option_type (pm start disp)) pm ->
             (forall i d, display_order (pm i d) = d) ->
             exists p cs,
               (let '(oid, d, r) := emit_all (pm :: cms) (start, disp, rows) in
                (oid, d, Some start, r))
               = (start + 1 + Z.of_nat (length cs), disp + 1 + Z.of_nat (length cs),
                  Some start, rows ++ p :: cs)
               /\ option_id p = start /\ parent_option_id p = parent /\ is_group_row p
               /\ display_order p = disp).
  { intros pm cms Hpm Hd. rewrite emit_all_number. simpl number.
    exists (pm start disp), (number cms (start + 1) (disp + 1)).
    rewrite length_number. destruct (Hpm start disp) as (H1 & H2 & H3 & _).
    split; [| auto].
    replace (start + Z.of_nat (length (pm :: cms)))
      with (start + 1 + Z.of_nat (length cms)) by (simpl length; lia).
    replace (disp + Z.of_nat (length (pm :: cms)))
      with (disp + 1 + Z.of_nat (length cms)) by (simpl length; lia).
    reflexivity. }
  unfold parse_group_to_rows_fixed.
  destruct (Py.mem kind ["slider"; "range"]) eqn:Hsr.
  { unfold write_slider_or_range.
    destruct (match extract_slider_labels g with
              | [] => _ | [l0] => _ | _ => _ end) as [pname plabel].
    destruct (scale_bounds g) as [lo hi].
    apply G; [apply parent_row_group_maker | reflexivity]. }
  destruct (String.eqb kind "radio") eqn:E1.
  { unfold write_radios. apply G; [apply parent_row_group_maker | reflexivity]. }
  destruct (String.eqb kind "buttons") eqn:E2.
  { unfold write_buttons_as_radio. apply G; [apply parent_row_group_maker | reflexivity]. }
  destruct (String.eqb kind "checkbox") eqn:E3.
  { unfold write_checkboxes. apply G; [apply parent_row_group_maker | reflexivity]. }
  destruct (String.eqb kind "select") eqn:E4.
  { apply G; [apply parent_row_group_maker | reflexivity]. }
  exfalso. unfold written_kinds, Py.mem in Hk, Hsr. simpl in Hk, Hsr.
  rewrite E1, E2, E3, E4 in Hk. rewrite !orb_false_r in Hk, Hsr.
  apply orb_false_iff in Hsr as [Ha Hb]. rewrite Ha, Hb in Hk. discriminate.
Qed.

Lemma parse_unknown_kind g kind label parent sid start disp rows :
  Py.mem kind written_kinds = false ->
  parse_group_to_rows_fixed now_at g kind label parent sid start disp rows
  = (start, disp, None, rows).
Proof.
  unfold written_kinds, Py.mem. simpl. rewrite !orb_false_r. intros Hk.
  apply orb_false_iff in Hk as [H1 Hk]. apply orb_false_iff in Hk as [H2 Hk].
  apply orb_false_iff in Hk as [H3 Hk]. apply orb_false_iff in Hk as [H4 Hk].
  apply orb_false_iff in Hk as [H5 H6].
  unfold parse_group_to_rows_fixed, Py.mem. simpl.
  rewrite H1, H2, H3, H4, H5, H6. reflexivity.
Qed.

End WriterShape.

(** X13. A group in which the classifier finds a cluster it knows (a
    range cluster of a visible group, radios, buttons, checkboxes or a
    select) always gets its group row, numbered and ordered by the cursor
    and hanging under the given parent, even when it has no visible
    choice; any other group is classified [unknown] and nothing is
    written for it. *)
Theorem group_written_iff_recognized :
  forall (F : Type) (ops : PyFloatOps F) (now_at : nat -> string) (g : GroupEl)
         (parent : option Z) (sid start disp : Z) (rows : list (OptionRow F)),
    let out :=
      parse_group_to_rows_fixed now_at g (kind_of g) (group_label g) parent sid
        start disp rows in
    (recognized g ->
     exists p cs,
       out = (start + 1 + Z.of_nat (length cs), disp + 1 + Z.of_nat (length cs),
              Some start, rows ++ p :: cs)
       /\ option_id p = start /\ parent_option_id p = parent /\ is_group_row p
       /\ display_order p = disp)
    /\ (~ recognized g -> kind_of g = "unknown" /\ out = (start, disp, None, rows)).
Proof.
  intros F ops now_at g parent sid start disp rows out. subst out.
  destruct (kind_of_known g) as [Hk Hu]. split.
  - intros Hrec. apply parse_known_kind, Hk, Hrec.
  - intros Hn. split; [apply Hu, Hn |]. apply parse_unknown_kind.
    rewrite (Hu Hn). reflexivity.
Qed.

(** X14. For a slider or range group the writer appends the group row
    and then one value row per label of [extract_slider_labels], of which
    there is always at least one; each value row has the type of the
    group with the suffix [_value], hangs under the group row, carries
    the bounds read from the scale and has its default as its value. The
    label handed to the writer is not used. *)
Theorem slider_rows_shape :
  forall (F : Type) (ops : PyFloatOps F) (now_at : nat -> string) (g : GroupEl)
         (kind label : string) (parent : option Z) (sid start disp : Z)
         (rows : list (OptionRow F)),
    let out := write_slider_or_range now_at g kind label parent sid start disp rows in
    extract_slider_labels g <> []
    /\ (exists p cs,
           snd out = rows ++ p :: cs
           /\ option_type p = kind /\ option_id p = start
           /\ parent_option_id p = parent
           /\ map option_label cs = extract_slider_labels g
           /\ Forall (fun c => option_type c = kind +:+ "_value"
                               /\ parent_option_id c = Some start
                               /\ (min_value c, max_value c) = scale_bounds g
                               /\ default_value c = option_value c
                               /\ is_required c = 1) cs)
    /\ (forall label',
           write_slider_or_range now_at g kind label' parent sid start disp rows = out).
Proof.
  intros F ops now_at g kind label parent sid start disp rows out. subst out.
  split; [apply extract_slider_labels_nonempty |]. split; [| reflexivity].
  unfold write_slider_or_range.
  destruct (match extract_slider_labels g with
            | [] => _ | [l0] => _ | _ => _ end) as [pname plabel].
  destruct (scale_bounds g) as [lo hi].
  rewrite emit_all_number. simpl number. cbn [snd].
  eexists _, _. split; [reflexivity |]. repeat split.
  - apply number_map. apply Forall2_imap. reflexivity.
  - apply number_Forall. apply Forall_imap_all. intros n l i d. repeat split.
Qed.

(** ** Every visible trigger value has its row *)

Section TriggerFacts.
Context {F : Type} `{PyFloatOps F}.
Variable h : string -> string.
Variable now_at : nat -> string.

Implicit Types (rows : list (OptionRow F)) (mks : list (Z -> Z -> OptionRow F)).

Lemma number_elem mks (mk : Z -> Z -> OptionRow F) :
  mk ∈ mks -> forall oid disp, exists i d, mk i d ∈ number mks oid disp.
Proof.
  induction 1 as [mk mks | mk mk' mks _ IH]; intros oid disp; simpl.
  - exists oid, disp. apply list_elem_of_here.
  - destruct (IH (oid + 1) (disp + 1)) as (i & d & Hin).
    exists i, d. apply list_elem_of_further. exact Hin.
Qed.

Lemma write_radios_row g label parent sid start disp rows ro inp inps :
  ro ∈ concat (g_radios_q g) -> ro_visible ro = true -> ro_inputs ro = inp :: inps ->
  exists r,
    r ∈ snd (write_radios now_at g label parent sid start disp rows)
    /\ option_type r = "radio" /\ service_id r = sid
    /\ option_name r
       = slug_keep_colon label +:+ "_" +:+ slug_keep_colon (radio_label ro)
    /\ option_value r = Some (Py.or_else (in_value inp) "")
    /\ option_label r = radio_label ro.
Proof.
  intros Hin Hvis Hinp. unfold write_radios. rewrite emit_all_number. cbn [snd].
  set (now := now_at (length rows)).
  assert (Hmk : exists mk, radio_row sid start label now ro = Some mk
                           /\ forall i d,
                                option_type (mk i d) = "radio" /\ service_id (mk i d) = sid
                                /\ option_name (mk i d)
                                   = slug_keep_colon label +:+ "_"
                                     +:+ slug_keep_colon (radio_label ro)
                                /\ option_value (mk i d)
                                   = Some (Py.or_else (in_value inp) "")
                                /\ option_label (mk i d) = radio_label ro).
  { unfold radio_row. rewrite Hvis, Hinp. simpl. eexists. split; [reflexivity |].
    intros i d. repeat split. }
  destruct Hmk as (mk & Hmk & Hprops).
  assert (Hin' : mk ∈ omap (radio_row sid start label now) (concat (g_radios_q g))).
  { apply list_elem_of_omap. exists ro. split; assumption. }
  assert (Hin2 : mk ∈ parent_row sid parent "radio" (slug label) label 1 now
                       :: omap (radio_row sid start label now) (concat (g_radios_q g)))
    by (apply list_elem_of_further; exact Hin').
  destruct (number_elem _ mk Hin2 start disp) as (i & d & Hrow).
  exists (mk i d). split; [apply elem_of_app; right; exact Hrow | apply Hprops].
Qed.

Lemma write_baseline_prefix sid (c : Cursor (F := F)) b :
  snd c `prefix_of` snd (write_baseline now_at sid c b).
Proof.
  destruct c as [[oid disp] rows], b as [[el kind] label]. unfold write_baseline.
  destruct (parse_group_to_rows_fixed_block now_at el kind label None sid oid disp rows)
    as (new & -> & _).
  simpl. exists new. reflexivity.
Qed.

Lemma fold_write_baseline_prefix sid bs :
  forall c : Cursor (F := F),
    snd c `prefix_of` snd (fold_left (write_baseline now_at sid) bs c).
Proof.
  induction bs as [| b bs IH]; intros c; simpl; [reflexivity |].
  etrans; [apply (write_baseline_prefix sid c b) | apply IH].
Qed.

Lemma fold_write_baseline_contains sid bs b :
  b ∈ bs ->
  forall c : Cursor (F := F),
    exists c0, snd (write_baseline now_at sid c0 b)
               `prefix_of` snd (fold_left (write_baseline now_at sid) bs c).
Proof.
  induction 1 as [b bs | b b' bs _ IH]; intros c; simpl.
  - exists c. apply fold_write_baseline_prefix.
  - apply IH.
Qed.

Lemma radio_value_parent_row_ids_complete sid rows (r : OptionRow F) :
  r ∈ rows -> is_trigger_choice_row sid r = true ->
  is_Some (radio_value_parent_row_ids sid rows !! Py.str_of_opt (option_value r)).
Proof.
  unfold radio_value_parent_row_ids. intros Hin Ht.
  set (v := Py.str_of_opt (option_value r)).
  assert (G : forall (m : gmap string Z),
             is_Some (m !! v) \/ r ∈ rows ->
             is_Some (fold_left
                        (fun m r => if is_trigger_choice_row sid r
                                    then <[Py.str_of_opt (option_value r) := option_id r]> m
                                    else m) rows m !! v)).
  { clear Hin. induction rows as [| r' rows IH]; intros m [Hm | Hin]; simpl.
    - exact Hm.
    - apply elem_of_nil in Hin. contradiction.
    - apply IH. left. destruct (is_trigger_choice_row sid r'); [| exact Hm].
      destruct (decide (Py.str_of_opt (option_value r') = v)) as [-> | Hne].
      + rewrite lookup_insert_eq. eauto.
      + rewrite lookup_insert_ne by exact Hne. exact Hm.
    - apply IH. apply elem_of_cons in Hin as [<- | Hin]; [left | right; exact Hin].
      rewrite Ht. fold v. rewrite lookup_insert_eq. eauto. }
  apply G. right. exact Hin.
Qed.

Lemma canonical_label (g : GroupEl) :
  snd (fst (group_kind_and_canonical g)) = group_label g.
Proof.
  unfold group_kind_and_canonical, range_canonical, choice_canonical.
  destruct (g_range_q g); [| destruct (g_visible g); [reflexivity |]];
    destruct (g_radios_q g); try reflexivity;
    destruct (g_buttons_q g); try reflexivity;
    destruct (g_checks_q g); try reflexivity;
    destruct (g_select_q g); reflexivity.
Qed.

Lemma group_label_stripped (g : GroupEl) : Py.strip (group_label g) = group_label g.
Proof.
  unfold group_label. destruct (g_label_q g); [reflexivity |].
  unfold get_clean_text_el. apply clean_text_stripped.
Qed.

Lemma difficulty_name (label x : string) :
  Py.strip label = label -> is_difficulty "radio" label = true ->
  Py.startswith (slug_keep_colon label +:+ "_" +:+ x) "difficulty_" = true.
Proof.
  intros Hs Hd. unfold is_difficulty in Hd. rewrite Hs in Hd. simpl in Hd.
  apply String.eqb_eq in Hd. unfold slug_keep_colon. rewrite Hd.
  destruct x; reflexivity.
Qed.

End TriggerFacts.

(** X15. Every visible option of the trigger group (the radio group
    labelled Difficulty) that has an input gets a value row in the
    baseline, and the map of trigger values to parent rows has an entry
    for its value: the entry is the id, not below the first id of the
    batch, of a row of the baseline that carries this value. *)
Theorem visible_trigger_values_have_parent_rows :
  forall (F : Type) (ops : PyFloatOps F) (h : string -> string)
         (now_at : nat -> string) (groups : list OptionGroup) (next sid : Z)
         (g : OptionGroup) (el : GroupEl) (label sig : string)
         (ro : RadioOption) (inp : InputEl) (inps : list InputEl),
    g ∈ groups -> visible_inner g = Some el ->
    group_kind_and_signature h el = ("radio", label, sig) ->
    is_difficulty "radio" label = true ->
    ro ∈ concat (g_radios_q el) -> ro_visible ro = true ->
    ro_inputs ro = inp :: inps ->
    let v := Py.or_else (in_value inp) "" in
    let base := baseline_rows h now_at groups next sid in
    (exists r, r ∈ base /\ option_value r = Some v /\ option_type r = "radio"
               /\ option_label r = radio_label ro)
    /\ exists pid r,
         radio_value_parent_row_ids sid base !! v = Some pid
         /\ r ∈ base /\ option_id r = pid
         /\ Py.str_of_opt (option_value r) = v /\ next <= pid.
Proof.
  intros F ops h now_at groups next sid g el label sig ro inp inps
         Hg Hvis Hsig Hdiff Hro Hrv Hinp v base.
  assert (Hlabel : label = group_label el).
  { unfold group_kind_and_signature in Hsig.
    pose proof (canonical_label el) as Hl.
    destruct (group_kind_and_canonical el) as [[k l] c]. simpl in Hl.
    injection Hsig as _ <- _. exact Hl. }
  destruct (scan_fold h groups (∅, [])) as (_ & Hscan & _).
  { intros _ el' k' l' Hin. apply elem_of_nil in Hin. contradiction. }
  pose proof (Hscan g el "radio" label sig Hg Hvis Hsig) as Hb.
  change (fold_left (scan_step h) groups (∅, [])) with (baseline_scan h groups) in Hb.
  destruct (fold_write_baseline_contains now_at sid _ _ Hb (next, 1, []))
    as ([[oid disp] rows] & Hpre).
  fold (baseline_rows h now_at groups next sid) in Hpre. fold base in Hpre.
  assert (Hwr : snd (write_baseline now_at sid (oid, disp, rows) (el, "radio", label))
                = snd (write_radios now_at el label None sid oid disp rows)).
  { unfold write_baseline.
    change (parse_group_to_rows_fixed now_at el "radio" label None sid oid disp rows)
      with (write_radios now_at el label None sid oid disp rows).
    destruct (write_radios now_at el label None sid oid disp rows) as [[[a b] c] d].
    reflexivity. }
  rewrite Hwr in Hpre.
  destruct (write_radios_row now_at el label None sid oid disp rows ro inp inps
              Hro Hrv Hinp) as (r0 & Hr0 & Hty & Hsid & Hname & Hval & Hlab).
  assert (Hin0 : r0 ∈ base).
  { destruct Hpre as [k ->]. apply elem_of_app. left. exact Hr0. }
  split.
  { exists r0. fold v in Hval. repeat split; assumption. }
  assert (Ht : is_trigger_choice_row sid r0 = true).
  { unfold is_trigger_choice_row. rewrite Hty, Hsid, Hname, Z.eqb_refl.
    rewrite (difficulty_name label _); [reflexivity | | exact Hdiff].
    rewrite Hlabel. apply group_label_stripped. }
  destruct (radio_value_parent_row_ids_complete sid base r0 Hin0 Ht) as [pid Hpid].
  rewrite Hval in Hpid. simpl in Hpid. fold v in Hpid.
  destruct (radio_value_parent_row_ids_sound sid base v pid Hpid)
    as (r & Hin & _ & Hv & Hid).
  exists pid, r. repeat split; try assumption.
  pose proof (fold_write_baseline_numbered now_at next sid
                (snd (baseline_scan h groups)) (next, 1, [])) as Hnum.
  destruct Hnum as (_ & _ & Hrows).
  { split; [simpl; lia |]. split; [simpl; lia |].
    intros i r' Hi. simpl in Hi. rewrite lookup_nil in Hi. discriminate. }
  apply list_elem_of_lookup in Hin as [i Hi].
  destruct (Hrows i r Hi) as (Hri & _). lia.
Qed.

Lemma visible_trigger_values_have_parent_rows_witness :
  let base : list (OptionRow DecFloat.pyfloat) :=
    baseline_rows Demo.digest Demo.clock (Demo.groups_of "") 1 7 in
  (exists r, r ∈ base /\ option_value r = Some "hard" /\ option_type r = "radio"
             /\ option_label r = radio_label (Demo.radio "Hard" "hard" "+6,43 €" false))
  /\ exists pid r,
       radio_value_parent_row_ids 7 base !! "hard" = Some pid
       /\ r ∈ base /\ option_id r = pid
       /\ Py.str_of_opt (option_value r) = "hard" /\ 1 <= pid.
Proof.
  exact (visible_trigger_values_have_parent_rows DecFloat.pyfloat DecFloat.ops
           Demo.digest Demo.clock (Demo.groups_of "") 1 7
           (Demo.shown Demo.difficulty) Demo.difficulty "Difficulty"
           (snd (group_kind_and_signature Demo.digest Demo.difficulty))
           (Demo.radio "Hard" "hard" "+6,43 €" false)
           (mkInput (Some "radio") (Some "hard") false) []
           ltac:(apply list_elem_of_further, list_elem_of_here)
           ltac:(reflexivity) ltac:(vm_compute; reflexivity) ltac:(reflexivity)
           ltac:(apply list_elem_of_further, list_elem_of_further, list_elem_of_here)
           ltac:(reflexivity) ltac:(reflexivity)).
Defined.

(** ** Sorting *)

Section SortFacts.
Context {A K : Type}.
Variable le : K -> K -> bool.
Variable key : A -> K.
Hypothesis le_total : forall a b, le a b = true \/ le b a = true.
Hypothesis le_trans : forall a b c, le a b = true -> le b c = true -> le a c = true.

Lemma insert_by_sorted (x : A) (l : list A) :
  sorted_by (le_on le key) l -> sorted_by (le_on le key) (insert_by le key x l).
Proof.
  induction l as [| y l IH]; simpl; [intros _; split; [constructor | exact I] |].
  intros [Hy Hl]. destruct (le (key x) (key y)) eqn:Hxy.
  - simpl. split; [| split; assumption].
    constructor; [exact Hxy |].
    eapply Forall_impl; [exact Hy |]. intros z Hz. unfold le_on in *.
    eapply le_trans; eassumption.
  - simpl. split; [| apply IH, Hl].
    assert (Hyx : le_on le key y x = true).
    { unfold le_on. destruct (le_total (key x) (key y)); congruence. }
    rewrite (Forall_forall (fun z => le_on le key y z = true)).
    intros z Hz. rewrite insert_by_perm in Hz.
    apply elem_of_cons in Hz as [-> | Hz]; [exact Hyx |].
    rewrite Forall_forall in Hy. apply Hy, Hz.
Qed.

Lemma sort_values_sorted (l : list A) : sorted_by (le_on le key) (sort_values le key l).
Proof.
  induction l as [| x l IH]; simpl; [exact I |]. apply insert_by_sorted, IH.
Qed.

(** in a sorted list an element with a strictly smaller key comes first *)
Lemma sorted_before (l : list A) (x y : A) :
  sorted_by (le_on le key) l -> x ∈ l -> y ∈ l -> le (key y) (key x) = false ->
  exists l1 l2 l3, l = l1 ++ x :: l2 ++ y :: l3.
Proof.
  induction l as [| z l IH]; intros Hs Hx Hy Hlt.
  - apply elem_of_nil in Hx. contradiction.
  - destruct Hs as [Hz Hl]. rewrite Forall_forall in Hz.
    apply elem_of_cons in Hx as [-> | Hx].
    + apply elem_of_cons in Hy as [-> | Hy].
      * destruct (le_total (key z) (key z)); congruence.
      * apply list_elem_of_split in Hy as (l2 & l3 & ->).
        exists [], l2, l3. reflexivity.
    + apply elem_of_cons in Hy as [-> | Hy].
      * specialize (Hz x Hx). unfold le_on in Hz. congruence.
      * destruct (IH Hl Hx Hy Hlt) as (l1 & l2 & l3 & ->).
        exists (z :: l1), l2, l3. reflexivity.
Qed.

End SortFacts.

Lemma le2_total (a b : Z * Z) : le2 a b = true \/ le2 b a = true.
Proof.
  unfold le2. destruct a as [a1 a2], b as [b1 b2]. simpl.
  destruct (Z.ltb_spec a1 b1); [auto |]. destruct (Z.ltb_spec b1 a1); [auto |].
  assert (a1 = b1) by lia. subst. rewrite Z.eqb_refl. simpl.
  destruct (Z.leb_spec a2 b2); [auto |]. right. apply Z.leb_le. lia.
Qed.

Lemma le2_true (a b : Z * Z) :
  le2 a b = true <-> fst a < fst b \/ (fst a = fst b /\ snd a <= snd b).
Proof.
  unfold le2. rewrite orb_true_iff, andb_true_iff, Z.ltb_lt, Z.eqb_eq, Z.leb_le.
  reflexivity.
Qed.

Lemma le2_trans (a b c : Z * Z) : le2 a b = true -> le2 b c = true -> le2 a c = true.
Proof. rewrite !le2_true. lia. Qed.

Lemma le3_true (a b : Z * Z * Z) :
  le3 a b = true
  <-> fst (fst a) < fst (fst b)
      \/ (fst (fst a) = fst (fst b)
          /\ (snd (fst a) < snd (fst b)
              \/ (snd (fst a) = snd (fst b) /\ snd a <= snd b))).
Proof.
  unfold le3. rewrite orb_true_iff, andb_true_iff, Z.ltb_lt, Z.eqb_eq, le2_true.
  reflexivity.
Qed.

Lemma le3_total (a b : Z * Z * Z) : le3 a b = true \/ le3 b a = true.
Proof. rewrite !le3_true. lia. Qed.

Lemma le3_trans (a b c : Z * Z * Z) :
  le3 a b = true -> le3 b c = true -> le3 a c = true.
Proof. rewrite !le3_true. lia. Qed.

Lemma insert_decorated {A K} (le : K -> K -> bool) (key : A -> K) (x : A)
    (s : list (K * A)) :
  Forall (fun p : K * A => fst p = key (snd p)) s ->
  map snd (insert_by le fst (key x, x) s) = insert_by le key x (map snd s).
Proof.
  induction s as [| p s IH]; intros Hs; [reflexivity |].
  apply Forall_cons in Hs as [Hp Hs]. simpl. rewrite <- Hp.
  destruct (le (key x) (fst p)); [reflexivity |]. simpl. rewrite (IH Hs). reflexivity.
Qed.

(** sorting decorated rows is sorting the rows *)
Lemma sort_decorated {A K} (le : K -> K -> bool) (key : A -> K) (l : list A) :
  map snd (sort_values le fst (map (fun o => (key o, o)) l)) = sort_values le key l.
Proof.
  induction l as [| x l IH]; [reflexivity |]. simpl. rewrite <- IH.
  apply insert_decorated.
  apply Forall_forall. intros p Hp. rewrite sort_values_perm in Hp.
  apply list_elem_of_fmap in Hp as (o & -> & _). reflexivity.
Qed.

Lemma zip_map_self {A B} (f : A -> B) (l : list A) :
  zip (map f l) l = map (fun o => (f o, o)) l.
Proof. induction l as [| x l IH]; [reflexivity |]. simpl. rewrite IH. reflexivity. Qed.

Lemma zip_map_map {A B C} (f : A -> B) (g : A -> C) (l : list A) :
  zip (map f l) (map g l) = map (fun o => (f o, g o)) l.
Proof. induction l as [| x l IH]; [reflexivity |]. simpl. rewrite IH. reflexivity. Qed.

(** ** The importer links the rows *)

Lemma index_of_lookup (full : list OptionCsv) (k : nat) (o : OptionCsv) :
  NoDup (map c_option_id full) -> full !! k = Some o ->
  index_of (c_option_id o) full = k.
Proof.
  revert k. induction full as [| x full IH]; intros k Hnd Hk.
  - rewrite lookup_nil in Hk. discriminate.
  - simpl in Hnd. apply NoDup_cons in Hnd as [Hx Hnd]. destruct k as [| k]; simpl in *.
    + injection Hk as ->. rewrite String.eqb_refl. reflexivity.
    + destruct (String.eqb_spec (c_option_id x) (c_option_id o)) as [E | _].
      * exfalso. apply Hx. rewrite E. apply list_elem_of_fmap. exists o.
        split; [reflexivity |]. eapply list_elem_of_lookup_2. exact Hk.
      * f_equal. apply IH; assumption.
Qed.

Lemma index_of_le (key : string) (full : list OptionCsv) :
  (index_of key full <= length full)%nat.
Proof. induction full as [| x full IH]; simpl; [lia |]. destruct (String.eqb _ _); lia. Qed.

Lemma index_of_found (key : string) (full : list OptionCsv) :
  (index_of key full < length full)%nat ->
  exists o, full !! index_of key full = Some o /\ c_option_id o = key.
Proof.
  induction full as [| x full IH]; simpl; [lia |].
  destruct (String.eqb_spec (c_option_id x) key) as [E | _].
  - intros _. exists x. auto.
  - intros Hlt. apply IH. lia.
Qed.

Section LinkFacts.
Context {F : Type} `{PyFloatOps F}.

Lemma linked_length sid child (os : list OptionCsv) :
  forall m seq, length (fst (linked (F := F) sid child m seq os)) = length os.
Proof.
  induction os as [| o os IH]; intros m seq; simpl; [reflexivity |].
  specialize (IH (<[c_option_id o := seq]> m) (seq + 1)).
  destruct (linked sid child _ _ os) as [new m']. simpl in *. rewrite IH. reflexivity.
Qed.

Lemma linked_closed sid (child : bool) (full : list OptionCsv) (seq0 : Z) :
  NoDup (map c_option_id full) -> 0 < seq0 ->
  forall rest done tail m,
    full = done ++ rest ++ tail ->
    maps_done seq0 full (length done) m ->
    (forall o, o ∈ rest ->
       if child return Prop
       then is_parent_row o = false
            /\ (index_of (Py.strip (c_parent_option_id o)) full
                < index_of (c_option_id o) full)%nat
       else is_parent_row o = true) ->
    fst (linked (F := F) sid child m (seq0 + Z.of_nat (length done)) rest)
    = map (linked_params sid seq0 full) rest
    /\ maps_done seq0 full (length done + length rest)
                 (snd (linked (F := F) sid child m (seq0 + Z.of_nat (length done)) rest)).
Proof.
  intros Hnd Hseq. induction rest as [| o rest IH]; intros done tail m Hfull Hm Hrest.
  - simpl. split; [reflexivity |]. rewrite Nat.add_0_r. exact Hm.
  - assert (Ho : full !! length done = Some o).
    { rewrite Hfull. rewrite lookup_app_r by lia. rewrite Nat.sub_diag. reflexivity. }
    pose proof (index_of_lookup full (length done) o Hnd Ho) as Hidx.
    assert (Hm' : maps_done seq0 full (length (done ++ [o]))
                            (<[c_option_id o := seq0 + Z.of_nat (length done)]> m)).
    { intros key. rewrite length_app. simpl length.
      destruct (decide (key = c_option_id o)) as [-> | Hne].
      - rewrite lookup_insert_eq, Hidx.
        replace (length done <? length done + 1)%nat with true
          by (symmetry; apply Nat.ltb_lt; lia).
        unfold storage_id. rewrite Hidx. reflexivity.
      - rewrite lookup_insert_ne by congruence. rewrite (Hm key).
        assert (Hk : index_of key full <> length done).
        { intros E. destruct (index_of_found key full) as (o' & Ho' & Hkey).
          - rewrite E. apply lookup_lt_Some in Ho. exact Ho.
          - rewrite E, Ho in Ho'. injection Ho' as <-. congruence. }
        destruct (Nat.ltb_spec (index_of key full) (length done));
          destruct (Nat.ltb_spec (index_of key full) (length done + 1));
          try reflexivity; lia. }
    specialize (IH (done ++ [o]) tail _
                   ltac:(rewrite Hfull, <- app_assoc; reflexivity) Hm').
    destruct IH as [IH1 IH2].
    { intros o' Ho'. apply Hrest. apply list_elem_of_further. exact Ho'. }
    rewrite length_app in IH1, IH2. simpl length in IH1, IH2.
    replace (seq0 + Z.of_nat (length done + 1)) with (seq0 + Z.of_nat (length done) + 1)
      in IH1, IH2 by lia.
    replace (length done + 1 + length rest)%nat with (length done + S (length rest))%nat
      in IH2 by lia.
    simpl linked.
    destruct (linked sid child (<[c_option_id o := seq0 + Z.of_nat (length done)]> m)
                (seq0 + Z.of_nat (length done) + 1) rest) as [new m''].
    simpl in IH1, IH2. simpl. split; [| exact IH2]. rewrite IH1. f_equal.
    unfold linked_params, storage_id. rewrite Hidx. f_equal.
    specialize (Hrest o (list_elem_of_here _ _)).
    destruct child.
    + destruct Hrest as [Hp Hlt]. rewrite Hp.
      unfold resolve_parent. rewrite (Hm (Py.strip (c_parent_option_id o))).
      rewrite Hidx in Hlt.
      replace (index_of (Py.strip (c_parent_option_id o)) full <? length done)%nat
        with true by (symmetry; apply Nat.ltb_lt; lia).
      unfold storage_id.
      destruct (Z.eqb_spec (seq0 + Z.of_nat (index_of (Py.strip (c_parent_option_id o)) full)) 0);
        [lia | reflexivity].
    + rewrite Hrest. reflexivity.
Qed.

End LinkFacts.

Section ImporterExact.
Context {F : Type} `{PyFloatOps F}.
Variable fails : list (Stmt (F := F)) -> Stmt (F := F) -> bool.
Variable name_matches : string -> string -> bool.
Variable to_numeric_int : list string -> string -> Res Z.

Implicit Types (d : Db (F := F)).

Lemma option_step_refl d : option_step d d [].
Proof. unfold option_step. rewrite app_nil_r. simpl. repeat split; lia. Qed.

Lemma option_step_trans d d1 d2 new new' :
  option_step d d1 new -> option_step d1 d2 new' -> option_step d d2 (new ++ new').
Proof.
  intros (C1 & S1 & O1 & Q1) (C2 & S2 & O2 & Q2). unfold option_step.
  rewrite C2, C1, S2, S1, O2, O1, Q2, Q1, app_assoc, length_app. repeat split. lia.
Qed.

Lemma execute_insert_option_exact (p : OptionParams (F := F)) d d' (id : Z) :
  execute_insert_option fails p d = (d', Ok id) ->
  id = option_seq d /\ option_step d d' [(id, p)].
Proof.
  intros E. apply send_inv in E as [(_ & [=] & _) | (_ & a & [= <-] & E)].
  injection E as <- <-. split; [reflexivity |]. unfold option_step. simpl.
  repeat split.
Qed.

Lemma insert_parent_exact sid (m m' : gmap string Z) prow d d' :
  insert_parent fails sid m prow d = (d', Ok m') ->
  m' = <[c_option_id prow := option_seq d]> m
  /\ option_step d d' [(option_seq d, option_params sid None prow)].
Proof.
  unfold insert_parent, insert_one_option. intros E.
  apply mbind_ok_inv in E as (d1 & id & E1 & E2).
  apply mbind_ok_inv in E2 as (d2 & [] & E2 & E3).
  injection E3 as <- <-. injection E2 as <-.
  apply execute_insert_option_exact in E1 as (-> & Hs).
  split; [reflexivity |]. exact Hs.
Qed.

Lemma insert_child_exact sid (m m' : gmap string Z) crow d d' :
  insert_child fails sid m crow d = (d', Ok m') ->
  m' = <[c_option_id crow := option_seq d]> m
  /\ option_step d d'
       [(option_seq d,
         option_params sid (resolve_parent m (Py.strip (c_parent_option_id crow))) crow)].
Proof.
  unfold insert_child, insert_one_option. cbv zeta. intros E.
  apply mbind_ok_inv in E as (d0 & [] & E0 & E).
  apply mbind_ok_inv in E as (d1 & id & E1 & E2).
  apply mbind_ok_inv in E2 as (d2 & [] & E2 & E3).
  injection E3 as <- <-. injection E2 as <-.
  apply execute_insert_option_exact in E1 as (-> & Hs).
  assert (H0 : option_step d d0 []).
  { destruct (resolve_parent m _).
    - injection E0 as <-. apply option_step_refl.
    - injection E0 as <-. unfold option_step. simpl. rewrite app_nil_r.
      repeat split. lia. }
  destruct H0 as (C0 & S0 & O0 & Q0). rewrite app_nil_r in O0. simpl in Q0.
  rewrite Z.add_0_r in Q0. rewrite Q0 in *. split; [reflexivity |].
  destruct Hs as (C1 & S1 & O1 & Q1). unfold option_step.
  cbn [committed working option_seq].
  rewrite C1, C0, S1, S0, O1, O0, Q1. repeat split; congruence.
Qed.

Lemma foldM_parents_exact sid ps :
  forall (m m' : gmap string Z) d d',
    foldM (insert_parent fails sid) ps m d = (d', Ok m') ->
    option_step d d' (fst (linked sid false m (option_seq d) ps))
    /\ m' = snd (linked (F := F) sid false m (option_seq d) ps).
Proof.
  induction ps as [| prow ps IH]; intros m m' d d' E; simpl in E.
  - injection E as <- <-. split; [apply option_step_refl | reflexivity].
  - apply mbind_ok_inv in E as (d1 & m1 & E1 & E2).
    apply insert_parent_exact in E1 as (-> & Hs1).
    apply IH in E2 as (Hs2 & ->).
    pose proof Hs1 as (_ & _ & _ & Q1).
    change (Z.of_nat (length [_])) with 1 in Q1. rewrite Q1 in *.
    simpl linked.
    destruct (linked sid false (<[c_option_id prow := option_seq d]> m)
                (option_seq d + 1) ps) as [new m''].
    simpl in *. split; [| reflexivity].
    exact (option_step_trans _ _ _ _ _ Hs1 Hs2).
Qed.

Lemma foldM_children_exact sid cs :
  forall (m m' : gmap string Z) d d',
    foldM (insert_child fails sid) cs m d = (d', Ok m') ->
    option_step d d' (fst (linked sid true m (option_seq d) cs))
    /\ m' = snd (linked (F := F) sid true m (option_seq d) cs).
Proof.
  induction cs as [| crow cs IH]; intros m m' d d' E; simpl in E.
  - injection E as <- <-. split; [apply option_step_refl | reflexivity].
  - apply mbind_ok_inv in E as (d1 & m1 & E1 & E2).
    apply insert_child_exact in E1 as (-> & Hs1).
    apply IH in E2 as (Hs2 & ->).
    pose proof Hs1 as (_ & _ & _ & Q1).
    change (Z.of_nat (length [_])) with 1 in Q1. rewrite Q1 in *.
    simpl linked.
    destruct (linked sid true (<[c_option_id crow := option_seq d]> m)
                (option_seq d + 1) cs) as [new m''].
    simpl in *. split; [| reflexivity].
    exact (option_step_trans _ _ _ _ _ Hs1 Hs2).
Qed.

(** the service row is looked up or inserted without touching the
    options *)
Lemma insert_service_options (row : ServiceCsv) d d' (id : Z) :
  insert_service fails name_matches row d = (d', Ok id) ->
  committed d' = committed d
  /\ t_options (working d') = t_options (working d)
  /\ option_seq d' = option_seq d.
Proof.
  unfold insert_service.
  assert (Hins : forall d0 d1,
             execute_insert_service fails (service_params row) d0 = (d1, Ok id) ->
             committed d1 = committed d0
             /\ t_options (working d1) = t_options (working d0)
             /\ option_seq d1 = option_seq d0).
  { intros d0 d1 E. apply send_inv in E as [(_ & [=] & _) | (_ & a & [= <-] & E)].
    injection E as <- <-. simpl. auto. }
  assert (Hsel : forall g n d0 d1 res,
             select_service fails name_matches g n d0 = (d1, Ok res) ->
             committed d1 = committed d0
             /\ t_options (working d1) = t_options (working d0)
             /\ option_seq d1 = option_seq d0).
  { intros g n d0 d1 res E.
    apply send_inv in E as [(_ & [=] & _) | (_ & a & [= <-] & E)].
    injection E as <- <-. simpl. auto. }
  destruct (if REUSE_EXISTING_SERVICE_BY_NAME then _ else _) as [name |];
    [| apply Hins].
  intros E. apply mbind_ok_inv in E as (d1 & res & E1 & E2).
  apply Hsel in E1 as (C1 & O1 & Q1).
  destruct res as [id' |].
  - injection E2 as <- <-. auto.
  - apply Hins in E2 as (C2 & O2 & Q2). rewrite C2, O2, Q2. auto.
Qed.

Lemma import_service_exact df opts srow d d' :
  import_service fails name_matches to_numeric_int df opts srow d = (d', Ok tt) ->
  exists sid raw ps cs,
    options_of df opts srow = Ok raw
    /\ sort_parents to_numeric_int (List.filter is_parent_row raw) = Ok ps
    /\ sort_children to_numeric_int (List.filter (fun o => negb (is_parent_row o)) raw)
       = Ok cs
    /\ (exists p, (sid, p) ∈ t_services (committed d'))
    /\ t_options (committed d')
       = t_options (working d)
         ++ fst (linked sid false ∅ (option_seq d) ps)
         ++ fst (linked sid true (snd (linked (F := F) sid false ∅ (option_seq d) ps))
                        (option_seq d + Z.of_nat (length ps)) cs).
Proof.
  unfold import_service. intros E.
  apply mbind_ok_inv in E as (d1 & [sid n] & E1 & E).
  apply mbind_ok_inv in E as (d2 & [] & E2 & E).
  apply send_inv in E2 as [(_ & [=] & _) | (_ & a & _ & [= <- _])].
  unfold mbind, count_service, print in E. injection E as <-. simpl.
  unfold import_rows in E1.
  apply mbind_ok_inv in E1 as (d3 & [] & E3 & E1).
  apply mbind_ok_inv in E1 as (d4 & sid' & E4 & E1).
  apply lift_bind_ok_inv in E1 as (raw & Hraw & E1).
  apply lift_bind_ok_inv in E1 as (split & Hsplit & E1).
  apply split_parents_children_ok in Hsplit as [_ ->]. cbn [fst snd] in E1.
  apply lift_bind_ok_inv in E1 as (ps & Hps & E1).
  apply lift_bind_ok_inv in E1 as (cs & Hcs & E1).
  apply mbind_ok_inv in E1 as (d5 & m & E5 & E1).
  apply mbind_ok_inv in E1 as (d6 & m' & E6 & E1).
  injection E1 as <- <- <-.
  apply send_inv in E3 as [(_ & [=] & _) | (_ & a3 & _ & [= <- _])].
  pose proof (insert_service_ok _ _ _ _ _ _ E4) as (svcs & _ & _ & p & Hin).
  apply insert_service_options in E4 as (C4 & O4 & Q4). simpl in C4, O4, Q4.
  apply foldM_parents_exact in E5 as ((C5 & S5 & O5 & Q5) & ->).
  apply foldM_children_exact in E6 as ((C6 & S6 & O6 & Q6) & _).
  rewrite linked_length in Q5.
  exists sid', raw, ps, cs. repeat split; try assumption.
  - exists p. rewrite S6, S5. exact Hin.
  - rewrite O6, O5, O4, Q5, Q4, <- app_assoc. reflexivity.
Qed.

End ImporterExact.

(** ** The order of the inserts *)

Lemma mapM_res_ok_map {A} (f : A -> Res Z) (xs : list A) :
  forall ys, mapM_res f xs = Ok ys -> ys = map (fun x => try_except (f x) 0) xs.
Proof.
  induction xs as [| x xs IH]; intros ys E; simpl in E.
  - injection E as <-. reflexivity.
  - apply bind_ok_inv in E as (y & Hy & E).
    apply bind_ok_inv in E as (ys' & E & [= <-]).
    simpl. rewrite Hy, <- (IH _ E). reflexivity.
Qed.

Lemma numeric_column_keys to_numeric_int (col : OptionCsv -> string) rows zs :
  numeric_column to_numeric_int col rows = Ok zs ->
  zs = map (numeric_key to_numeric_int col rows) rows.
Proof.
  unfold numeric_column. cbv zeta. intros E. apply mapM_res_ok_map in E.
  rewrite E, map_map. reflexivity.
Qed.

(** a child whose parent key is strictly smaller is inserted first *)
Lemma sort_children_before to_numeric_int rows cs (p c : OptionCsv) :
  sort_children to_numeric_int rows = Ok cs ->
  p ∈ rows -> c ∈ rows ->
  numeric_key to_numeric_int c_parent_option_id rows p
  < numeric_key to_numeric_int c_parent_option_id rows c ->
  exists l1 l2 l3, cs = l1 ++ p :: l2 ++ c :: l3.
Proof.
  intros E Hp Hc Hlt. pose proof (sort_children_perm _ _ _ E) as Hperm.
  unfold sort_children in E.
  apply bind_ok_inv in E as (ps & Hps & E).
  apply bind_ok_inv in E as (ds & Hds & E).
  apply bind_ok_inv in E as (ids & Hids & [= <-]).
  apply numeric_column_keys in Hps, Hds, Hids. subst ps ds ids.
  rewrite !zip_map_map, zip_map_self in *.
  set (k := fun o : OptionCsv =>
              (numeric_key to_numeric_int c_parent_option_id rows o,
               numeric_key to_numeric_int c_display_order rows o,
               numeric_key to_numeric_int c_option_id rows o)) in *.
  change (map snd (sort_values le3 fst (map (fun o => (k o, o)) rows)) ≡ₚ rows) in Hperm.
  change (exists l1 l2 l3,
             map snd (sort_values le3 fst (map (fun o => (k o, o)) rows))
             = l1 ++ p :: l2 ++ c :: l3).
  rewrite sort_decorated in *.
  apply (sorted_before le3 k le3_total).
  - apply sort_values_sorted; [exact le3_total | exact le3_trans].
  - rewrite Hperm. exact Hp.
  - rewrite Hperm. exact Hc.
  - destruct (le3 (k c) (k p)) eqn:El; [| reflexivity].
    apply le3_true in El. subst k. simpl in El. lia.
Qed.

Lemma index_of_middle (l1 l2 : list OptionCsv) (o : OptionCsv) :
  NoDup (map c_option_id (l1 ++ o :: l2)) ->
  index_of (c_option_id o) (l1 ++ o :: l2) = length l1.
Proof.
  intros Hnd. apply index_of_lookup; [exact Hnd |].
  rewrite lookup_app_r by lia. rewrite Nat.sub_diag. reflexivity.
Qed.

Lemma elem_of_filter_list {A} (f : A -> bool) (l : list A) (x : A) :
  x ∈ List.filter f l <-> x ∈ l /\ f x = true.
Proof. rewrite !list_elem_of_In. apply filter_In. Qed.

Lemma import_service_linked {F} `{PyFloatOps F}
    (fails : list (Stmt (F := F)) -> Stmt (F := F) -> bool)
    (name_matches : string -> string -> bool)
    (to_numeric_int : list string -> string -> Res Z)
    df opts srow raw (d d' : Db (F := F)) :
  import_service fails name_matches to_numeric_int df opts srow d = (d', Ok tt) ->
  options_of df opts srow = Ok raw ->
  0 < option_seq d ->
  NoDup (map c_option_id raw) ->
  (forall c, c ∈ raw -> is_parent_row c = false ->
     exists p, p ∈ raw /\ c_option_id p = Py.strip (c_parent_option_id c)
       /\ (is_parent_row p = true
           \/ numeric_key to_numeric_int c_parent_option_id (children_of raw) p
              < numeric_key to_numeric_int c_parent_option_id (children_of raw) c)) ->
  exists sid order,
    order ≡ₚ raw
    /\ (exists p, (sid, p) ∈ t_services (committed d'))
    /\ t_options (committed d')
       = t_options (working d) ++ map (linked_params sid (option_seq d) order) order.
Proof.
  intros E Hraw Hseq Hnd Htree.
  apply import_service_exact in E as (sid & raw' & ps & cs & Hraw' & Hps & Hcs & Hsvc & Hopts).
  rewrite Hraw in Hraw'. injection Hraw' as <-.
  pose proof (sort_parents_perm _ _ _ Hps) as Pps.
  pose proof (sort_children_perm _ _ _ Hcs) as Pcs.
  assert (Pfull : ps ++ cs ≡ₚ raw).
  { rewrite Pps, Pcs. apply filter_partition_perm. }
  assert (Hndf : NoDup (map c_option_id (ps ++ cs))).
  { rewrite Pfull. exact Hnd. }
  exists sid, (ps ++ cs). split; [exact Pfull |]. split; [exact Hsvc |].
  destruct (linked_closed (F := F) sid false (ps ++ cs) (option_seq d) Hndf Hseq ps [] cs ∅)
    as [L1 M1].
  { reflexivity. }
  { intros key. rewrite lookup_empty. reflexivity. }
  { intros o Ho. rewrite Pps in Ho. apply elem_of_filter_list in Ho as [_ Ho]. exact Ho. }
  simpl length in L1, M1. rewrite Z.add_0_r in L1, M1. simpl in M1.
  destruct (linked_closed (F := F) sid true (ps ++ cs) (option_seq d) Hndf Hseq cs ps []
              (snd (linked (F := F) sid false ∅ (option_seq d) ps))) as [L2 _].
  { rewrite app_nil_r. reflexivity. }
  { exact M1. }
  { intros c Hc.
    assert (Hc' : c ∈ children_of raw) by (rewrite <- Pcs; exact Hc).
    pose proof Hc' as Hcr. apply elem_of_filter_list in Hcr as [Hcr Hcp].
    apply negb_true_iff in Hcp. split; [exact Hcp |].
    destruct (Htree c Hcr Hcp) as (p & Hpr & Hid & Hord). rewrite <- Hid.
    apply list_elem_of_split in Hc as (a & b & Hab).
    assert (Hic : index_of (c_option_id c) (ps ++ cs) = (length ps + length a)%nat).
    { rewrite <- length_app. rewrite Hab, app_assoc. apply index_of_middle.
      rewrite <- app_assoc, <- Hab. exact Hndf. }
    rewrite Hic.
    destruct (is_parent_row p) eqn:Hpp.
    - assert (Hp : p ∈ ps).
      { rewrite Pps. apply elem_of_filter_list. auto. }
      apply list_elem_of_split in Hp as (a' & b' & Hab').
      assert (Hip : index_of (c_option_id p) (ps ++ cs) = length a').
      { rewrite Hab', <- app_assoc. apply (index_of_middle a' (b' ++ cs)).
        change (a' ++ p :: b' ++ cs) with (a' ++ (p :: b') ++ cs).
        rewrite app_assoc, <- Hab'. exact Hndf. }
      rewrite Hip, Hab', length_app. simpl. lia.
    - destruct Hord as [[=] | Hlt].
      assert (Hp' : p ∈ children_of raw).
      { apply elem_of_filter_list. rewrite Hpp. auto. }
      destruct (sort_children_before _ _ _ p c Hcs Hp' Hc' Hlt) as (l1 & l2 & l3 & Hsplit).
      assert (Hip : index_of (c_option_id p) (ps ++ cs) = (length ps + length l1)%nat).
      { rewrite <- length_app. rewrite Hsplit, app_assoc. apply index_of_middle.
        rewrite <- app_assoc, <- Hsplit. exact Hndf. }
      assert (Hic' : index_of (c_option_id c) (ps ++ cs)
                     = (length ps + (length l1 + S (length l2)))%nat).
      { replace (length ps + (length l1 + S (length l2)))%nat
          with (length (ps ++ l1 ++ p :: l2))
          by (rewrite !length_app; simpl; lia).
        rewrite Hsplit.
        replace (ps ++ l1 ++ p :: l2 ++ c :: l3) with ((ps ++ l1 ++ p :: l2) ++ c :: l3)
          by (rewrite <- !app_assoc; reflexivity).
        apply index_of_middle.
        replace ((ps ++ l1 ++ p :: l2) ++ c :: l3) with (ps ++ l1 ++ p :: l2 ++ c :: l3)
          by (rewrite <- !app_assoc; reflexivity).
        rewrite <- Hsplit. exact Hndf. }
      rewrite Hip. rewrite Hic in Hic'. lia. }
  rewrite Hopts, L1, L2, map_app. reflexivity.
Qed.



(** ** A services file without the [service_id] column *)

(** X17. A services file without the [service_id] column and with more
    than one row cannot be imported: the import raises at the first
    service, and what is committed and what is visible afterwards are the
    tables as they were committed before; when the storage refuses no
    statement the exception is the [RuntimeError] of the missing
    column. *)
Theorem several_services_need_the_id_column {F} `{PyFloatOps F}
    (fails : list (Stmt (F := F)) -> Stmt (F := F) -> bool)
    (name_matches : string -> string -> bool)
    (to_numeric_int : list string -> string -> Res Z)
    (df : ServicesFrame) (opts : list OptionCsv) (d : Db (F := F)) :
  has_csv_service_id df = false ->
  (1 < length (service_rows df))%nat ->
  exists d' e,
    import_csv_to_database fails name_matches to_numeric_int df opts d = (d', Raise e)
    /\ committed d' = committed d
    /\ working d' = committed d
    /\ ((forall t s, fails t s = false) ->
        e = RuntimeError "Multiple services but no service_id column in services.csv").
Proof.
  intros Hcol Hlen. unfold import_csv_to_database.
  destruct (service_rows df) as [| srow rest] eqn:Hrows; [simpl in Hlen; lia |].
  assert (Hraise : options_of df (clean_option_types opts) srow
                   = Raise (RuntimeError
                              "Multiple services but no service_id column in services.csv")).
  { unfold options_of. rewrite Hcol, Hrows.
    replace (1 <? length (srow :: rest))%nat with true
      by (symmetry; apply Nat.ltb_lt; exact Hlen).
    reflexivity. }
  destruct (import_rows_raises fails name_matches to_numeric_int df
              (clean_option_types opts) srow
              (RuntimeError "Multiple services but no service_id column in services.csv")
              d)
    as (d1 & e & E & He); [rewrite Hraise; reflexivity |].
  pose proof (calm_import_rows fails name_matches to_numeric_int _ _ _ _ _ _ E) as Hc.
  simpl import_loop. unfold import_service. unfold mbind at 1 2. rewrite E.
  eexists _, e. split; [reflexivity |]. simpl. rewrite Hc. auto.
Qed.

Lemma several_services_need_the_id_column_witness :
  exists d' e,
    import_csv_to_database Demo.accepts_all String.eqb Demo.to_int
      (mkServicesFrame false (service_rows Demo.services)) Demo.options
      Demo.empty_store = (d', Raise e)
    /\ committed d' = committed Demo.empty_store
    /\ working d' = committed Demo.empty_store
    /\ ((forall t s, Demo.accepts_all t s = false) ->
        e = RuntimeError "Multiple services but no service_id column in services.csv").
Proof.
  apply (several_services_need_the_id_column Demo.accepts_all String.eqb Demo.to_int
           (mkServicesFrame false (service_rows Demo.services)) Demo.options
           Demo.empty_store).
  - reflexivity.
  - simpl. lia.
Defined.

(** ** A service is inserted once *)

Lemma find_snoc_none {A} (f : A -> bool) (l : list A) (x : A) :
  List.find f l = None -> List.find f (l ++ [x]) = if f x then Some x else None.
Proof.
  induction l as [| y l IH]; simpl; [reflexivity |].
  destruct (f y); [discriminate | exact IH].
Qed.

(** X18. A service row with a name is stored once: after [insert_service]
    returned an id for it, the collation matching every name with itself,
    a second [insert_service] of the same row inserts nothing and returns
    the same id, unless the storage refuses the lookup. *)
Theorem insert_service_reuses_the_stored_row {F} `{PyFloatOps F}
    (fails : list (Stmt (F := F)) -> Stmt (F := F) -> bool)
    (name_matches : string -> string -> bool)
    (row : ServiceCsv) (d d1 d2 : Db (F := F)) (id : Z) (r : Res Z) :
  (forall n, name_matches n n = true) ->
  is_nullish (s_name row) = false ->
  insert_service fails name_matches row d = (d1, Ok id) ->
  insert_service fails name_matches row d1 = (d2, r) ->
  working d2 = working d1
  /\ service_seq d2 = service_seq d1
  /\ (r = Ok id \/ r = Raise StorageError).
Proof.
  intros Hrefl Hname. unfold insert_service.
  assert (Hn : sp_name (service_params row) = Some (s_name row)).
  { simpl. unfold to_nullable_str. rewrite Hname. reflexivity. }
  change (if REUSE_EXISTING_SERVICE_BY_NAME then sp_name (service_params row) else None)
    with (sp_name (service_params row)).
  rewrite Hn. intros E1 E2.
  assert (Hfound : exists p,
             List.find
               (fun r0 : Z * ServiceParams (F := F) =>
                  (sp_game_id (snd r0) =? sp_game_id (service_params row))
                  && match sp_name (snd r0) with
                     | Some n => name_matches n (s_name row)
                     | None => false
                     end)
               (t_services (working d1)) = Some (id, p)).
  { apply mbind_ok_inv in E1 as (d0 & existing & Es & E1).
    apply send_inv in Es as [(_ & [=] & _) | (_ & a & [= <-] & Es)].
    injection Es as <- Ha.
    destruct (List.find _ _) as [[id0 p0] |] eqn:Ef.
    - simpl in Ha. subst existing. injection E1 as <- <-. simpl. eauto.
    - simpl in Ha. subst existing.
      apply send_inv in E1 as [(_ & [=] & _) | (_ & a & [= <-] & E1)].
      injection E1 as <- <-. simpl in *. exists (service_params row).
      rewrite (find_snoc_none _ _ _ Ef). simpl.
      rewrite Hn, Hrefl. reflexivity. }
  destruct Hfound as [p Hfound].
  apply mbind_inv in E2 as [(e & Es & ->) | (d0 & existing & Es & E2)].
  - apply send_inv in Es as [(_ & [= ->] & ->) | (_ & a & [=] & _)]. simpl. auto.
  - apply send_inv in Es as [(_ & [=] & _) | (_ & a & [= <-] & Es)].
    injection Es as <- Ha. simpl in Ha, Hfound. rewrite Hfound in Ha. simpl in Ha.
    subst existing. injection E2 as <- <-. simpl. auto.
Qed.

Lemma insert_service_reuses_the_stored_row_witness :
  let row := Demo.service "1" "Raid Carry" in
  let d1 := fst (insert_service Demo.accepts_all String.eqb row Demo.empty_store) in
  let d2 := fst (insert_service Demo.accepts_all String.eqb row d1) in
  working d2 = working d1
  /\ service_seq d2 = service_seq d1
  /\ (snd (insert_service Demo.accepts_all String.eqb row d1) = Ok 1
      \/ snd (insert_service Demo.accepts_all String.eqb row d1) = Raise StorageError).
Proof.
  intros row d1 d2.
  apply (insert_service_reuses_the_stored_row Demo.accepts_all String.eqb row
           Demo.empty_store d1 d2 1
           (snd (insert_service Demo.accepts_all String.eqb row d1))).
  - intros n. apply String.eqb_refl.
  - reflexivity.
  - vm_compute. reflexivity.
  - vm_compute. reflexivity.
Defined.

(** ** From the scraper to the storage *)

Lemma pretty_nonneg_digits (p : Z) :
  0 <= p -> all_digits (Py.str_of_int p) = true /\ Py.str_of_int p <> "".
Proof.
  intros Hp. destruct p as [| q | q]; [split; [reflexivity | discriminate] | | lia].
  destruct (int_of_digits q false) as (Hd & Hne & _). split; assumption.
Qed.

Lemma lower_digit_head (c : ascii) (s : string) :
  Py.isdigit c = true -> Py.lower (String c s) <> "nan".
Proof.
  intros Hc E. simpl in E. injection E as E _.
  destruct c as [[] [] [] [] [] [] [] []]; try discriminate Hc; discriminate E.
Qed.

Lemma is_parent_row_cell (o : OptionCsv) (v : option Z) :
  c_parent_option_id o = cell_of_opt_int v ->
  match v with
  | None => is_parent_row o = true
  | Some p => 0 <= p -> is_parent_row o = false /\ Py.strip (c_parent_option_id o) = Py.str_of_int p
  end.
Proof.
  intros E. unfold is_parent_row. cbv zeta. rewrite E. destruct v as [p |]; simpl.
  - intros Hp. destruct (pretty_nonneg_digits p Hp) as [Hd Hne].
    rewrite (strip_all_digits _ Hd). split; [| reflexivity].
    apply orb_false_iff. split.
    + apply String.eqb_neq. exact Hne.
    + apply String.eqb_neq. destruct (Py.str_of_int p) as [| c s] eqn:Es; [congruence |].
      apply lower_digit_head. simpl in Hd. apply andb_true_iff in Hd as [Hc _]. exact Hc.
  - reflexivity.
Qed.

Lemma filter_all {A} (f : A -> bool) (l : list A) :
  (forall x, x ∈ l -> f x = true) -> List.filter f l = l.
Proof.
  induction l as [| x l IH]; intros Hl; [reflexivity |]. simpl.
  rewrite (Hl x (list_elem_of_here _ _)). f_equal. apply IH.
  intros y Hy. apply Hl, list_elem_of_further, Hy.
Qed.

Section PipelineFacts.
Context {F : Type} `{PyFloatOps F}.
Variable to_numeric_int : list string -> string -> Res Z.
Hypothesis to_numeric_reads :
  forall col n, to_numeric_int col (Py.str_of_int n) = Ok n.

Lemma csv_batch_linkable (rows : list (OptionRow F)) (next sid : Z)
    (df : ServicesFrame) (srow : ServiceCsv) :
  let opts := clean_option_types (map csv_row_of rows) in
  map option_id rows = seqZ next (Z.of_nat (length rows)) ->
  Forall (fun r => service_id r = sid) rows ->
  tree_ok rows -> 0 < next ->
  has_csv_service_id df = true ->
  Py.strip (s_service_id srow) = Py.str_of_int sid ->
  options_of df opts srow = Ok opts
  /\ NoDup (map c_option_id opts)
  /\ (forall c, c ∈ opts -> is_parent_row c = false ->
        exists p, p ∈ opts /\ c_option_id p = Py.strip (c_parent_option_id c)
          /\ (is_parent_row p = true
              \/ numeric_key to_numeric_int c_parent_option_id (children_of opts) p
                 < numeric_key to_numeric_int c_parent_option_id (children_of opts) c)).
Proof.
  intros opts Hids Hsid Htree Hnext Hcol Hsrow.
  set (f := fun r : OptionRow F =>
              set_c_option_type (csv_row_of r)
                (clean_option_type (c_option_type (csv_row_of r)))).
  assert (Hopts : opts = map f rows).
  { unfold opts, clean_option_types. rewrite map_map. reflexivity. }
  assert (Hid : forall i r, rows !! i = Some r -> option_id r = next + Z.of_nat i).
  { intros i r Hi.
    assert (E : map option_id rows !! i = Some (option_id r)).
    { change (map option_id rows) with (option_id <$> rows).
      rewrite list_lookup_fmap, Hi. reflexivity. }
    rewrite Hids in E. apply lookup_seqZ in E as [E _]. exact E. }
  assert (Hpar : forall i r p, rows !! i = Some r -> parent_option_id r = Some p ->
                   exists j q, (j < i)%nat /\ rows !! j = Some q
                               /\ p = next + Z.of_nat j /\ option_id q = p).
  { intros i r p Hi Hp. specialize (Htree i r Hi). rewrite Hp in Htree.
    destruct Htree as (j & q & Hj & Hq & Hqid). exists j, q.
    repeat split; try assumption. rewrite <- Hqid. apply (Hid j q Hq). }
  split; [| split].
  - unfold options_of. rewrite Hcol, Hsrow. f_equal. apply filter_all.
    intros c Hc. rewrite Hopts in Hc. apply list_elem_of_fmap in Hc as (r & -> & Hr).
    rewrite Forall_forall in Hsid. simpl. rewrite (Hsid r Hr). apply String.eqb_refl.
  - rewrite Hopts, map_map.
    change (map (fun r => c_option_id (f r)) rows)
      with (map (fun r => Py.str_of_int (option_id r)) rows).
    rewrite <- (map_map option_id Py.str_of_int), Hids.
    apply (NoDup_fmap_2 (A := Z)); [| apply NoDup_seqZ].
    intros a b E. apply (pretty_Z_inj a b E).
  - intros c Hc Hcp. rewrite Hopts in Hc.
    apply list_elem_of_fmap in Hc as (r & -> & Hr).
    apply list_elem_of_lookup in Hr as [i Hi].
    pose proof (is_parent_row_cell (f r) (parent_option_id r) eq_refl) as Hcell.
    destruct (parent_option_id r) as [p |] eqn:Hp; [| congruence].
    destruct (Hpar i r p Hi Hp) as (j & q & Hj & Hq & Hpj & Hqid).
    destruct (Hcell ltac:(lia)) as [_ Hstrip].
    exists (f q). split; [| split].
    + rewrite Hopts. apply list_elem_of_fmap. exists q. split; [reflexivity |].
      eapply list_elem_of_lookup_2. exact Hq.
    + rewrite Hstrip. simpl. rewrite Hqid. reflexivity.
    + pose proof (is_parent_row_cell (f q) (parent_option_id q) eq_refl) as Hcellq.
      destruct (parent_option_id q) as [pp |] eqn:Hpp; [right | left; exact Hcellq].
      destruct (Hpar j q pp Hq Hpp) as (j' & q' & Hj' & _ & Hppj & _).
      unfold numeric_key.
      change (c_parent_option_id (f q)) with (cell_of_opt_int (parent_option_id q)).
      change (c_parent_option_id (f r)) with (cell_of_opt_int (parent_option_id r)).
      rewrite Hp, Hpp. simpl cell_of_opt_int. rewrite !to_numeric_reads. simpl. lia.
Qed.

End PipelineFacts.



(** ** The service ids of the coordinating script *)

Lemma run_scrape_fold (cells : list (option string)) :
  forall mx, 0 <= mx ->
    fold_left
      (fun max_id cell =>
         match RunScrape.int_or_0 cell with
         | Ok sid => if max_id <? sid then sid else max_id
         | Raise _ => max_id
         end) cells mx
    = max_id_from mx cells.
Proof.
  unfold max_id_from.
  induction cells as [| cell cells IH]; intros mx Hmx; [reflexivity |].
  simpl.
  assert (E : match RunScrape.int_or_0 cell with
              | Ok sid => if mx <? sid then sid else mx
              | Raise _ => mx
              end
              = match cell with
                | Some s => try_except (bind (Py.int_of_str s) (fun n => Ok (Z.max mx n))) mx
                | None => mx
                end).
  { destruct cell as [s |]; simpl.
    - unfold nonempty. destruct (String.eqb_spec s "") as [-> | Hs]; simpl.
      + destruct (Z.ltb_spec mx 0); [lia | reflexivity].
      + destruct (Py.int_of_str s) as [n | e]; simpl; [| reflexivity].
        destruct (Z.ltb_spec mx n); lia.
    - destruct (Z.ltb_spec mx 0); [lia | reflexivity]. }
  rewrite E. apply IH.
  destruct cell as [s |]; [| exact Hmx].
  destruct (Py.int_of_str s) as [n | e]; simpl; lia.
Qed.

Lemma column_service_id_snoc (lines : CsvFile) (id game_id name description
    price_per_unit sale_price icon_url category game_name : string) :
  column "service_id"
    (services_header :: lines
     ++ [[id; game_id; name; description; price_per_unit; sale_price; icon_url;
          category; game_name]])
  = column "service_id" (services_header :: lines) ++ [Some id].
Proof. unfold column. rewrite List.filter_app, map_app. reflexivity. Qed.

(** X20. In the coordinating script the service id of a page is fresh and
    the ids advance by one: with a services file that is missing or
    headed as the script writes it, and whose id column is ASCII text (on
    which [Py.int_of_str] is Python's [int]), the next id is at least 1,
    greater than every id of the file that reads as an integer, and the
    id that [complete_code.py] computes; after [append_service_row] wrote
    the row with this id the column has this id at its end, the next id
    is one more, and the options file is as it was. *)
Theorem run_scrape_service_ids_advance :
  forall (fs : Files) (name description price_per_unit sale_price icon_url
            category game_id game_name : string),
    RunScrape.services_headed fs ->
    ascii_cells (column "service_id" (file_lines (services_csv fs))) ->
    let fs0 := RunScrape.ensure_services_csv fs in
    let sid := RunScrape.get_next_service_id_from_services_csv fs0 in
    let fs1 := RunScrape.append_service_row sid name description price_per_unit
                 sale_price icon_url category game_id game_name fs0 in
    let ids0 := column "service_id" (file_lines (services_csv fs0)) in
    1 <= sid
    /\ (forall s n, Some s ∈ ids0 -> Py.int_of_str s = Ok n -> n < sid)
    /\ sid = snd (get_next_service_id_from_services_csv fs)
    /\ column "service_id" (file_lines (services_csv fs1))
       = ids0 ++ [Some (Py.str_of_int sid)]
    /\ RunScrape.get_next_service_id_from_services_csv fs1 = sid + 1
    /\ options_csv fs1 = options_csv fs.
Proof.
  intros fs name description price_per_unit sale_price icon_url category game_id
         game_name.
  intros Hhead _ fs0 sid fs1 ids0.
  assert (H0 : exists lines,
             services_csv fs0 = Some (services_header :: lines)
             /\ options_csv fs0 = options_csv fs
             /\ services_csv (ensure_services_csv fs) = Some (services_header :: lines)).
  { unfold fs0, RunScrape.ensure_services_csv, ensure_services_csv.
    unfold RunScrape.services_headed in Hhead.
    destruct (services_csv fs) as [f |] eqn:Hf.
    - destruct Hhead as [rows ->]. exists rows. rewrite Hf. auto.
    - exists []. auto. }
  destruct H0 as (lines & Hs0 & Ho0 & Hc).
  assert (Hsid : sid = next_id ids0).
  { unfold sid, ids0, RunScrape.get_next_service_id_from_services_csv. rewrite Hs0.
    rewrite run_scrape_fold by lia. reflexivity. }
  assert (Hs1 : services_csv fs1
                = Some (services_header :: lines
                        ++ [[Py.str_of_int sid; game_id; name; description;
                             price_per_unit; sale_price; icon_url; category;
                             game_name]])).
  { unfold fs1, RunScrape.append_service_row, RunScrape.ensure_services_csv.
    cbv zeta. rewrite Hs0. cbn [services_csv file_lines]. rewrite Hs0.
    reflexivity. }
  destruct (next_id_spec ids0) as (N1 & N2 & _). rewrite <- Hsid in N1, N2.
  assert (Hcol : column "service_id" (file_lines (services_csv fs1))
                 = ids0 ++ [Some (Py.str_of_int sid)]).
  { rewrite Hs1. cbn [file_lines]. rewrite column_service_id_snoc.
    unfold ids0. rewrite Hs0. reflexivity. }
  split; [exact N1 |]. split; [exact N2 |]. split; [| split; [exact Hcol | split]].
  - rewrite Hsid. unfold get_next_service_id_from_services_csv. cbv zeta.
    cbn [snd]. unfold ids0. rewrite Hs0, Hc. reflexivity.
  - unfold RunScrape.get_next_service_id_from_services_csv. rewrite Hs1.
    rewrite run_scrape_fold by lia.
    change (services_header :: lines ++ _)
      with (file_lines (Some (services_header :: lines
                              ++ [[Py.str_of_int sid; game_id; name; description;
                                   price_per_unit; sale_price; icon_url; category;
                                   game_name]]))).
    rewrite <- Hs1, Hcol, max_id_from_app. unfold max_id_from at 1. simpl fold_left.
    rewrite int_of_str_pretty. simpl.
    rewrite Hsid at 1. rewrite next_id_unfold in Hsid |- *. lia.
  - unfold fs1, RunScrape.append_service_row, RunScrape.ensure_services_csv.
    cbv zeta. rewrite Hs0. cbn [options_csv]. exact Ho0.
Qed.

Lemma run_scrape_service_ids_advance_witness :
  let fs := mkFiles (Some [services_header; ["4"; ""; "Raid Carry"; ""; ""; ""; ""; ""; ""]])
                    None in
  let fs1 := RunScrape.append_service_row 5 "Intercalary 8615" "" "" "" "" "" "" "" fs in
  RunScrape.get_next_service_id_from_services_csv fs = 5
  /\ RunScrape.get_next_service_id_from_services_csv fs1 = 5 + 1.
Proof.
  intros fs fs1.
  pose proof (run_scrape_service_ids_advance fs "Intercalary 8615" "" "" "" "" "" "" ""
                ltac:(exists [["4"; ""; "Raid Carry"; ""; ""; ""; ""; ""; ""]]; reflexivity)
                ltac:(repeat constructor; intros s [= <-]; reflexivity))
    as (_ & _ & _ & _ & Hnext & _).
  split; [vm_compute; reflexivity | exact Hnext].
Defined.

(** ** Product links *)

Lemma dedupe_from_spec (l : list string) :
  forall seen : gset string,
    NoDup (dedupe_from seen l)
    /\ (forall u, u ∈ dedupe_from seen l <-> u ∈ l /\ u ∉ seen)
    /\ dedupe_from seen l `sublist_of` l.
Proof.
  induction l as [| x l IH]; intros seen; simpl.
  - split; [constructor |]. split; [| constructor].
    intros u. rewrite elem_of_nil. tauto.
  - destruct (decide (x ∈ seen)) as [Hx | Hx].
    + destruct (IH seen) as (Hnd & Hin & Hsub).
      split; [exact Hnd |]. split; [| apply sublist_cons; exact Hsub].
      intros u. rewrite Hin, elem_of_cons. split; [tauto |].
      intros [[-> | Hu] Hs]; [contradiction | tauto].
    + destruct (IH ({[x]} ∪ seen)) as (Hnd & Hin & Hsub).
      split; [| split; [| apply sublist_skip; exact Hsub]].
      * constructor; [| exact Hnd]. rewrite Hin. intros [_ Hn]. apply Hn.
        apply elem_of_union_l, elem_of_singleton. reflexivity.
      * intros u. rewrite !elem_of_cons, Hin, elem_of_union, elem_of_singleton.
        destruct (decide (u = x)) as [-> | Hne]; tauto.
Qed.

Lemma dedupe_from_nodup (l : list string) :
  forall seen : gset string,
    NoDup l -> (forall u, u ∈ l -> u ∉ seen) -> dedupe_from seen l = l.
Proof.
  induction l as [| x l IH]; intros seen Hnd Hs; [reflexivity |]. simpl.
  apply NoDup_cons in Hnd as [Hx Hnd].
  destruct (decide (x ∈ seen)) as [Hin | _].
  - exfalso. apply (Hs x); [apply list_elem_of_here | exact Hin].
  - f_equal. apply IH; [exact Hnd |].
    intros u Hu. specialize (Hs u (list_elem_of_further _ _ _ Hu)).
    assert (u <> x) by (intros ->; contradiction).
    rewrite elem_of_union, elem_of_singleton. tauto.
Qed.

Lemma dedupe_spec (l : list string) :
  NoDup (dedupe l)
  /\ (forall u, u ∈ dedupe l <-> u ∈ l)
  /\ dedupe l `sublist_of` l
  /\ (NoDup l -> dedupe l = l).
Proof.
  unfold dedupe. destruct (dedupe_from_spec l ∅) as (Hnd & Hin & Hsub).
  split; [exact Hnd |]. split; [| split; [exact Hsub |]].
  - intros u. rewrite Hin. split; [tauto |].
    intros Hu. split; [exact Hu | apply not_elem_of_empty].
  - intros Hl. apply dedupe_from_nodup; [exact Hl |].
    intros u _. apply not_elem_of_empty.
Qed.

Lemma dedupe_from_app (l1 : list string) :
  forall (seen seen' : gset string) (l2 : list string),
    (forall u, u ∈ seen' <-> u ∈ l1 \/ u ∈ seen) ->
    dedupe_from seen (l1 ++ l2) = dedupe_from seen l1 ++ dedupe_from seen' l2.
Proof.
  induction l1 as [| x l1 IH]; intros seen seen' l2 Hs; simpl.
  - assert (E : seen' = seen).
    { apply set_eq. intros u. rewrite Hs, elem_of_nil. tauto. }
    rewrite E. reflexivity.
  - destruct (decide (x ∈ seen)) as [Hx | Hx].
    + apply IH. intros u. rewrite Hs, elem_of_cons.
      destruct (decide (u = x)) as [-> | Hne]; tauto.
    + simpl. f_equal. apply IH. intros u.
      rewrite Hs, elem_of_cons, elem_of_union, elem_of_singleton. tauto.
Qed.

(** an address comes where it occurs first *)
Lemma dedupe_first (l1 l2 : list string) (u : string) :
  u ∉ l1 -> exists rest, dedupe (l1 ++ u :: l2) = dedupe l1 ++ u :: rest.
Proof.
  intros Hu. unfold dedupe.
  rewrite (dedupe_from_app l1 ∅ (list_to_set l1) (u :: l2)).
  - simpl. destruct (decide (u ∈ list_to_set (C := gset string) l1)) as [Hin | _].
    + apply elem_of_list_to_set in Hin. contradiction.
    + eauto.
  - intros v. rewrite elem_of_list_to_set, elem_of_empty. tauto.
Qed.

Lemma product_link_shape (href : option string) (u : string) :
  product_link href = Some u ->
  Py.startswith u "https://skycoach.gg/" = true
  /\ is_infix "/products/" u = true
  /\ exists h, href = Some h /\ h <> ""
               /\ (u = h \/ (Py.startswith h "/" = true /\ u = "https://skycoach.gg" +:+ h)).
Proof.
  unfold product_link. destruct href as [h |]; [| discriminate].
  unfold nonempty. destruct (String.eqb_spec h "") as [-> | Hne]; [discriminate |].
  cbv zeta. simpl negb. cbv iota.
  destruct (Py.startswith h "/") eqn:Hs.
  - destruct (_ && _) eqn:Hc; [| discriminate]. intros [= <-].
    apply andb_true_iff in Hc as [Hc1 Hc2].
    split; [exact Hc2 |]. split; [exact Hc1 |]. exists h. auto.
  - destruct (_ && _) eqn:Hc; [| discriminate]. intros [= <-].
    apply andb_true_iff in Hc as [Hc1 Hc2].
    split; [exact Hc2 |]. split; [exact Hc1 |]. exists h. auto.
Qed.

(** X21. The product links of a category page are links of the site to
    a product, each once: every link returned starts with
    [https://skycoach.gg/] and contains [/products/], no link is returned
    twice, the links returned are exactly those the selected [href]s give
    (a site-relative one prefixed with the site), each at the place of
    its first occurrence, all of them as they are when none repeats; and
    when the request fails there is none. *)
Theorem product_links_are_unique_site_links :
  forall page : Res (list (list (option string))),
    let out := extract_product_links_from_page page in
    NoDup out
    /\ Forall (fun u => Py.startswith u "https://skycoach.gg/" = true
                        /\ is_infix "/products/" u = true) out
    /\ (forall selected, page = Ok selected ->
          (forall u, u ∈ out <-> exists href, href ∈ concat selected
                                              /\ product_link href = Some u)
          /\ (forall l1 u l2,
                omap product_link (concat selected) = l1 ++ u :: l2 -> u ∉ l1 ->
                exists rest, out = dedupe l1 ++ u :: rest)
          /\ (NoDup (omap product_link (concat selected)) ->
              out = omap product_link (concat selected)))
    /\ (forall e, page = Raise e -> out = []).
Proof.
  intros page out. unfold out, extract_product_links_from_page.
  destruct page as [selected | e].
  - destruct (dedupe_spec (omap product_link (concat selected)))
      as (Hnd & Hin & Hsub & Hid).
    split; [exact Hnd |]. split; [| split; [| discriminate]].
    + apply Forall_forall. intros u Hu. apply Hin in Hu.
      apply list_elem_of_omap in Hu as (href & _ & Hu).
      apply product_link_shape in Hu as (H1 & H2 & _). auto.
    + intros selected' [= <-]. split; [| split; [| exact Hid]].
      * intros u. rewrite Hin, list_elem_of_omap. reflexivity.
      * intros l1 u l2 -> Hu. apply dedupe_first. exact Hu.
  - split; [constructor |]. split; [constructor |]. split; [discriminate |].
    reflexivity.
Qed.

(** X22. The product links of a listing are normalized addresses, each
    once: no link is returned twice, every link returned is trimmed and
    does not start with a slash, the links returned are exactly
    [normalize_url] of the [href]s of the items of the products
    container, each at the place of its first occurrence; without the
    container, or when loading fails, there is none. *)
Theorem listing_links_are_unique_and_normalized :
  forall page : Res (option (list (option string))),
    let out := get_nested_links_from_listing page in
    NoDup out
    /\ Forall (fun u => Py.strip u = u /\ Py.startswith u "/" = false) out
    /\ (forall items, page = Ok (Some items) ->
          (forall u, u ∈ out <-> exists href, Some href ∈ items /\ u = normalize_url href)
          /\ (forall l1 u l2,
                omap (fmap normalize_url) items = l1 ++ u :: l2 -> u ∉ l1 ->
                exists rest, out = dedupe l1 ++ u :: rest))
    /\ (page = Ok None -> out = [])
    /\ (forall e, page = Raise e -> out = []).
Proof.
  intros page out. unfold out, get_nested_links_from_listing.
  destruct page as [[items |] | e].
  - destruct (dedupe_spec (omap (fmap normalize_url) items)) as (Hnd & Hin & Hsub & _).
    assert (Hel : forall u, u ∈ dedupe (omap (fmap normalize_url) items)
                            <-> exists href, Some href ∈ items /\ u = normalize_url href).
    { intros u. rewrite Hin, list_elem_of_omap. split.
      - intros ([href |] & Hi & Hu); [| discriminate]. injection Hu as <-. eauto.
      - intros (href & Hi & ->). exists (Some href). auto. }
    split; [exact Hnd |]. split; [| split; [| split; discriminate]].
    + apply Forall_forall. intros u Hu. apply Hel in Hu as (href & _ & ->).
      destruct (normalize_url_stripped href) as [H1 H2]. auto.
    + intros items' [= <-]. split; [exact Hel |].
      intros l1 u l2 -> Hu. apply dedupe_first. exact Hu.
  - split; [constructor |]. split; [constructor |]. split; [discriminate |].
    split; [reflexivity | discriminate].
  - split; [constructor |]. split; [constructor |]. split; [discriminate |].
    split; [discriminate | reflexivity].
Qed.
